(** * bcachefs: filesystem-instance lifecycle (libbcachefs/super.c)

    A shallow embedding of the setup / teardown code of
    [libbcachefs/super.c]: the RW/RO transition controller, the emergency
    read-only entry point, device-record allocation, the membership
    state-change guard, the option merge done at instance allocation, the
    start-up orchestrator and the registry of live instances.

    Conventions.
    - C integers are [Z]; [size_t] and [u64] wrap-around is written out.
    - [c->flags] is a machine word; [test_bit]/[set_bit]/[clear_bit] are the
      bit operations on it.
    - Functions that mutate [struct bch_fs] take the record and return the
      updated one.  Calls into collaborators that live outside super.c
      (journal, allocator threads, GC, tiering, sysfs) update the few bits of
      state super.c can observe and append an [event] to the instance's
      [trace], which is how call order is stated.
    - Whether a collaborator call fails is read from a [collaborators]
      record: super.c only looks at the return code.
    - [BUG_ON], out-of-range slot accesses, the dereference of an empty
      slot, division by zero and a wait that is never woken are the
      [Undefined] outcome ([None] where the function also returns the
      instance): the call does not return normally.
    - The per-device [io_ref] is live exactly while a block device is
      attached ([bdev]): [bch2_dev_alloc] creates it dead,
      [__bch2_dev_online] revives it as it attaches the block device, and
      [__bch2_dev_offline] kills it before it releases the block device.
    - Not modelled: locks ([state_lock], [sb_lock], [bch_fs_list_lock]; every
      function here runs with the locks its C counterpart asserts), the other
      reference counts ([closure_get]/[closure_put], [ca->ref]), sysfs
      objects beyond whether their creation fails, and I/O in flight while
      the write gate closes or a device goes offline. *)

From Stdlib Require Import ZArith List Bool String Lia.
Import ListNotations.

Local Open Scope Z_scope.

(** ** Enumerations *)

(** [enum bch_member_state]: persisted per-device membership state. *)
Inductive bch_member_state : Type :=
| BCH_MEMBER_STATE_RW
| BCH_MEMBER_STATE_RO
| BCH_MEMBER_STATE_FAILED
| BCH_MEMBER_STATE_SPARE.

Definition member_state_eqb (a b : bch_member_state) : bool :=
  match a, b with
  | BCH_MEMBER_STATE_RW, BCH_MEMBER_STATE_RW
  | BCH_MEMBER_STATE_RO, BCH_MEMBER_STATE_RO
  | BCH_MEMBER_STATE_FAILED, BCH_MEMBER_STATE_FAILED
  | BCH_MEMBER_STATE_SPARE, BCH_MEMBER_STATE_SPARE => true
  | _, _ => false
  end.

(** [enum bch_fs_state]: run-time state of an instance ([c->state]). *)
Inductive bch_fs_state : Type :=
| BCH_FS_STARTING
| BCH_FS_STOPPING
| BCH_FS_RO
| BCH_FS_RW.

Definition fs_state_eqb (a b : bch_fs_state) : bool :=
  match a, b with
  | BCH_FS_STARTING, BCH_FS_STARTING
  | BCH_FS_STOPPING, BCH_FS_STOPPING
  | BCH_FS_RO, BCH_FS_RO
  | BCH_FS_RW, BCH_FS_RW => true
  | _, _ => false
  end.

(** Bits of [c->flags] that super.c touches.  The enum itself lives in
    bcachefs.h; only the fact that the bit numbers are distinct matters. *)
Inductive bch_fs_flag : Type :=
| BCH_FS_ALLOC_READ_DONE
| BCH_FS_EMERGENCY_RO
| BCH_FS_WRITE_DISABLE_COMPLETE
| BCH_FS_ERROR.

Definition flag_nr (f : bch_fs_flag) : Z :=
  match f with
  | BCH_FS_ALLOC_READ_DONE => 0
  | BCH_FS_EMERGENCY_RO => 1
  | BCH_FS_WRITE_DISABLE_COMPLETE => 2
  | BCH_FS_ERROR => 3
  end.

Definition test_bit (f : bch_fs_flag) (w : Z) : bool := Z.testbit w (flag_nr f).
Definition set_bit (f : bch_fs_flag) (w : Z) : Z := Z.setbit w (flag_nr f).
Definition clear_bit (f : bch_fs_flag) (w : Z) : Z := Z.clearbit w (flag_nr f).

(** [test_and_set_bit]: the old value of the bit and the updated word. *)
Definition test_and_set_bit (f : bch_fs_flag) (w : Z) : bool * Z :=
  (test_bit f w, set_bit f w).

(** Outcome of a function that can hit [BUG_ON] or undefined behaviour. *)
Inductive result (A : Type) : Type :=
| Ok (a : A)
| Err (errno : Z)
| Undefined.
Arguments Ok {A} a.
Arguments Err {A} errno.
Arguments Undefined {A}.

Definition ENOMEM : Z := 12.
Definition EINVAL : Z := 22.
Definition EIO : Z := 5.

(** ** Options *)

(** The fields of [struct bch_opts] read by super.c.  Every option is a
    small signed integer; a negative value means "not given". *)
Record bch_opts : Type := mk_opts {
  block_size : Z;
  btree_node_size : Z;
  metadata_replicas : Z;
  metadata_replicas_required : Z;
  data_replicas : Z;
  data_replicas_required : Z;
  degraded : Z;
  nostart : Z;
  noreplay : Z;
  norecovery : Z;
  nochanges : Z;
  nofsck : Z;
  read_only : Z
}.

(** Modelled from the spec: [bch2_opts_apply] is defined in opts.h, which is
    not part of this file's sources.  Options are merged "on-disk defaults <
    superblock-embedded options < caller-supplied overrides, later wins":
    a field the later set gives replaces the earlier one. *)
Definition opt_override (dst src : Z) : Z := if 0 <=? src then src else dst.

Definition bch2_opts_apply (dst src : bch_opts) : bch_opts :=
  {| block_size := opt_override (block_size dst) (block_size src);
     btree_node_size := opt_override (btree_node_size dst) (btree_node_size src);
     metadata_replicas := opt_override (metadata_replicas dst) (metadata_replicas src);
     metadata_replicas_required :=
       opt_override (metadata_replicas_required dst) (metadata_replicas_required src);
     data_replicas := opt_override (data_replicas dst) (data_replicas src);
     data_replicas_required :=
       opt_override (data_replicas_required dst) (data_replicas_required src);
     degraded := opt_override (degraded dst) (degraded src);
     nostart := opt_override (nostart dst) (nostart src);
     noreplay := opt_override (noreplay dst) (noreplay src);
     norecovery := opt_override (norecovery dst) (norecovery src);
     nochanges := opt_override (nochanges dst) (nochanges src);
     nofsck := opt_override (nofsck dst) (nofsck src);
     read_only := opt_override (read_only dst) (read_only src) |}.

Definition set_nochanges (v : Z) (o : bch_opts) : bch_opts :=
  {| block_size := block_size o; btree_node_size := btree_node_size o;
     metadata_replicas := metadata_replicas o;
     metadata_replicas_required := metadata_replicas_required o;
     data_replicas := data_replicas o;
     data_replicas_required := data_replicas_required o;
     degraded := degraded o; nostart := nostart o; noreplay := noreplay o;
     norecovery := norecovery o; nochanges := v; nofsck := nofsck o;
     read_only := read_only o |}.

Definition set_read_only (v : Z) (o : bch_opts) : bch_opts :=
  {| block_size := block_size o; btree_node_size := btree_node_size o;
     metadata_replicas := metadata_replicas o;
     metadata_replicas_required := metadata_replicas_required o;
     data_replicas := data_replicas o;
     data_replicas_required := data_replicas_required o;
     degraded := degraded o; nostart := nostart o; noreplay := noreplay o;
     norecovery := norecovery o; nochanges := nochanges o; nofsck := nofsck o;
     read_only := v |}.

(** ** Superblock *)

(** One slot of the member table ([struct bch_member]); a zero UUID marks a
    free slot. *)
Record bch_member : Type := mk_member {
  m_uuid : Z;
  m_nbuckets : Z;
  m_bucket_size : Z;
  m_state : bch_member_state;
  m_last_mount : Z
}.

(** The parts of [struct bch_sb] super.c reads or writes. *)
Record bch_sb : Type := mk_sb {
  uuid : Z;
  seq : Z;
  sb_block_size : Z;
  sb_dev_idx : nat;
  nr_devices : nat;
  members : list bch_member;
  sb_opts : bch_opts;
  BCH_SB_INITIALIZED : bool;
  BCH_SB_CLEAN : bool
}.

Definition SET_BCH_SB_CLEAN (v : bool) (sb : bch_sb) : bch_sb :=
  {| uuid := uuid sb; seq := seq sb; sb_block_size := sb_block_size sb;
     sb_dev_idx := sb_dev_idx sb; nr_devices := nr_devices sb;
     members := members sb; sb_opts := sb_opts sb;
     BCH_SB_INITIALIZED := BCH_SB_INITIALIZED sb; BCH_SB_CLEAN := v |}.

Definition SET_BCH_SB_INITIALIZED (v : bool) (sb : bch_sb) : bch_sb :=
  {| uuid := uuid sb; seq := seq sb; sb_block_size := sb_block_size sb;
     sb_dev_idx := sb_dev_idx sb; nr_devices := nr_devices sb;
     members := members sb; sb_opts := sb_opts sb;
     BCH_SB_INITIALIZED := v; BCH_SB_CLEAN := BCH_SB_CLEAN sb |}.

Definition set_members (ms : list bch_member) (sb : bch_sb) : bch_sb :=
  {| uuid := uuid sb; seq := seq sb; sb_block_size := sb_block_size sb;
     sb_dev_idx := sb_dev_idx sb; nr_devices := nr_devices sb;
     members := ms; sb_opts := sb_opts sb;
     BCH_SB_INITIALIZED := BCH_SB_INITIALIZED sb;
     BCH_SB_CLEAN := BCH_SB_CLEAN sb |}.

(** [bch2_dev_exists]: slot [i] is inside the table and its UUID is not zero. *)
Definition bch2_dev_exists (sb : bch_sb) (i : nat) : bool :=
  (i <? nr_devices sb)%nat &&
  match nth_error (members sb) i with
  | Some m => negb (m_uuid m =? 0)
  | None => false
  end.

(** ** Device records *)

Definition size_t_max : Z := 2 ^ 64.
Definition to_size_t (z : Z) : Z := z mod size_t_max.
Definition to_u64 (z : Z) : Z := z mod 2 ^ 64.

(** [struct bch_member_cpu]: the native-endian copy kept in [ca->mi]. *)
Record bch_member_cpu : Type := mk_mi {
  nbuckets : Z;
  bucket_size : Z;
  mi_state : bch_member_state
}.

Definition bch2_mi_to_cpu (m : bch_member) : bch_member_cpu :=
  {| nbuckets := to_u64 (m_nbuckets m);
     bucket_size := m_bucket_size m mod 2 ^ 16;
     mi_state := m_state m |}.

(** [struct bch_dev].  [free_*], [free_inc], [alloc_heap] and [copygc_heap]
    hold the sizes the queues were created with ([ca->free[RESERVE_*]],
    [ca->free_inc], ...); [in_alloc_pool] is the effect of
    [bch2_dev_allocator_add]/[_remove]; [alloc_thread] and
    [moving_gc_thread] say whether the worker is running; [bdev] says whether
    a block device is attached ([ca->disk_sb.bdev != NULL]). *)
Record bch_dev : Type := mk_dev {
  dev_idx : nat;
  dev_uuid : Z;
  mi : bch_member_cpu;
  bdev : bool;
  free_btree : Z;
  free_movinggc : Z;
  free_none : Z;
  free_inc : Z;
  alloc_heap : Z;
  copygc_heap : Z;
  in_alloc_pool : bool;
  alloc_thread : bool;
  moving_gc_thread : bool
}.

Definition set_bdev (v : bool) (ca : bch_dev) : bch_dev :=
  {| dev_idx := dev_idx ca; dev_uuid := dev_uuid ca; mi := mi ca; bdev := v;
     free_btree := free_btree ca; free_movinggc := free_movinggc ca;
     free_none := free_none ca; free_inc := free_inc ca;
     alloc_heap := alloc_heap ca; copygc_heap := copygc_heap ca;
     in_alloc_pool := in_alloc_pool ca; alloc_thread := alloc_thread ca;
     moving_gc_thread := moving_gc_thread ca |}.

Definition set_in_alloc_pool (v : bool) (ca : bch_dev) : bch_dev :=
  {| dev_idx := dev_idx ca; dev_uuid := dev_uuid ca; mi := mi ca; bdev := bdev ca;
     free_btree := free_btree ca; free_movinggc := free_movinggc ca;
     free_none := free_none ca; free_inc := free_inc ca;
     alloc_heap := alloc_heap ca; copygc_heap := copygc_heap ca;
     in_alloc_pool := v; alloc_thread := alloc_thread ca;
     moving_gc_thread := moving_gc_thread ca |}.

Definition set_alloc_thread (v : bool) (ca : bch_dev) : bch_dev :=
  {| dev_idx := dev_idx ca; dev_uuid := dev_uuid ca; mi := mi ca; bdev := bdev ca;
     free_btree := free_btree ca; free_movinggc := free_movinggc ca;
     free_none := free_none ca; free_inc := free_inc ca;
     alloc_heap := alloc_heap ca; copygc_heap := copygc_heap ca;
     in_alloc_pool := in_alloc_pool ca; alloc_thread := v;
     moving_gc_thread := moving_gc_thread ca |}.

Definition set_moving_gc_thread (v : bool) (ca : bch_dev) : bch_dev :=
  {| dev_idx := dev_idx ca; dev_uuid := dev_uuid ca; mi := mi ca; bdev := bdev ca;
     free_btree := free_btree ca; free_movinggc := free_movinggc ca;
     free_none := free_none ca; free_inc := free_inc ca;
     alloc_heap := alloc_heap ca; copygc_heap := copygc_heap ca;
     in_alloc_pool := in_alloc_pool ca; alloc_thread := alloc_thread ca;
     moving_gc_thread := v |}.

Definition is_rw (ca : bch_dev) : bool :=
  member_state_eqb (mi_state (mi ca)) BCH_MEMBER_STATE_RW.

(** ** Filesystem instances *)

(** Calls that leave super.c, in the order they are made. *)
Inductive event : Type :=
| EvAllocatorAdd (dev : nat)
| EvRecalcCapacity
| EvAllocatorStart (dev : nat)
| EvGcThreadStart
| EvMovingGcStart (dev : nat)
| EvTieringStart
| EvSchedulePdControllers
| EvWritesReinit
| EvTieringStop
| EvMovingGcStop (dev : nat)
| EvGcThreadStop
| EvJournalFlushPins
| EvBtreeVerifyFlushed
| EvAllocatorStop (dev : nat)
| EvJournalStop
| EvAllocatorRemove (dev : nat)
| EvWritesKill
| EvDelTimer
| EvCancelPdControllers
| EvWakeDelayedWrites
| EvWriteSuper
| EvQueueReadOnlyWork
| EvJournalHalt
| EvWakeUp
| EvSbFromFs (dev : nat)
| EvJournalRead
| EvBtreeRootRead (id : nat)
| EvAllocRead
| EvInitialGc
| EvBtreeRootAlloc (id : nat)
| EvJournalStart
| EvJournalReplay
| EvFsck
| EvDevJournalAlloc (dev : nat)
| EvJournalSetReplayDone
| EvCreateRootInode
| EvJournalMeta
| EvDevJournalInit (dev : nat)
| EvMarkDevMetadata (dev : nat)
| EvChardevInit
| EvDebugInit
| EvKobjectAdd
| EvDevSysfsOnline (dev : nat).

Definition event_eq_dec (a b : event) : {a = b} + {a <> b}.
Proof. decide equality; apply Nat.eq_dec. Defined.

(** [struct bch_fs].  [fs_ptr] is the address of the instance (what
    [list_empty(&c->list)] and the registry compare); [sb_uuid] is
    [c->sb.uuid], the cached copy of [c->disk_sb->uuid]; [devs] is the slot
    array [c->devs[0 .. c->sb.nr_devices)]; [journal_halted] is what
    [bch2_journal_error] reports; [writes_live] is the percpu ref
    [c->writes]; [read_only_work] says whether [c->read_only_work] is
    queued. *)
Record bch_fs : Type := mk_fs {
  fs_ptr : nat;
  state : bch_fs_state;
  flags : Z;
  opts : bch_opts;
  sb_uuid : Z;
  disk_sb : bch_sb;
  devs : list (option bch_dev);
  journal_halted : bool;
  gc_thread : bool;
  tiering_thread : bool;
  writes_live : bool;
  pd_controllers_update : bool;
  read_only_work : bool;
  trace : list event
}.

Definition set_state (v : bch_fs_state) (c : bch_fs) : bch_fs :=
  mk_fs (fs_ptr c) v (flags c) (opts c) (sb_uuid c) (disk_sb c) (devs c)
        (journal_halted c) (gc_thread c) (tiering_thread c) (writes_live c)
        (pd_controllers_update c) (read_only_work c) (trace c).

Definition set_flags (v : Z) (c : bch_fs) : bch_fs :=
  mk_fs (fs_ptr c) (state c) v (opts c) (sb_uuid c) (disk_sb c) (devs c)
        (journal_halted c) (gc_thread c) (tiering_thread c) (writes_live c)
        (pd_controllers_update c) (read_only_work c) (trace c).

Definition set_opts (v : bch_opts) (c : bch_fs) : bch_fs :=
  mk_fs (fs_ptr c) (state c) (flags c) v (sb_uuid c) (disk_sb c) (devs c)
        (journal_halted c) (gc_thread c) (tiering_thread c) (writes_live c)
        (pd_controllers_update c) (read_only_work c) (trace c).

Definition set_sb_uuid (v : Z) (c : bch_fs) : bch_fs :=
  mk_fs (fs_ptr c) (state c) (flags c) (opts c) v (disk_sb c) (devs c)
        (journal_halted c) (gc_thread c) (tiering_thread c) (writes_live c)
        (pd_controllers_update c) (read_only_work c) (trace c).

Definition set_disk_sb (v : bch_sb) (c : bch_fs) : bch_fs :=
  mk_fs (fs_ptr c) (state c) (flags c) (opts c) (sb_uuid c) v (devs c)
        (journal_halted c) (gc_thread c) (tiering_thread c) (writes_live c)
        (pd_controllers_update c) (read_only_work c) (trace c).

Definition set_devs (v : list (option bch_dev)) (c : bch_fs) : bch_fs :=
  mk_fs (fs_ptr c) (state c) (flags c) (opts c) (sb_uuid c) (disk_sb c) v
        (journal_halted c) (gc_thread c) (tiering_thread c) (writes_live c)
        (pd_controllers_update c) (read_only_work c) (trace c).

Definition set_journal_halted (v : bool) (c : bch_fs) : bch_fs :=
  mk_fs (fs_ptr c) (state c) (flags c) (opts c) (sb_uuid c) (disk_sb c) (devs c)
        v (gc_thread c) (tiering_thread c) (writes_live c)
        (pd_controllers_update c) (read_only_work c) (trace c).

Definition set_gc_thread (v : bool) (c : bch_fs) : bch_fs :=
  mk_fs (fs_ptr c) (state c) (flags c) (opts c) (sb_uuid c) (disk_sb c) (devs c)
        (journal_halted c) v (tiering_thread c) (writes_live c)
        (pd_controllers_update c) (read_only_work c) (trace c).

Definition set_tiering_thread (v : bool) (c : bch_fs) : bch_fs :=
  mk_fs (fs_ptr c) (state c) (flags c) (opts c) (sb_uuid c) (disk_sb c) (devs c)
        (journal_halted c) (gc_thread c) v (writes_live c)
        (pd_controllers_update c) (read_only_work c) (trace c).

Definition set_writes_live (v : bool) (c : bch_fs) : bch_fs :=
  mk_fs (fs_ptr c) (state c) (flags c) (opts c) (sb_uuid c) (disk_sb c) (devs c)
        (journal_halted c) (gc_thread c) (tiering_thread c) v
        (pd_controllers_update c) (read_only_work c) (trace c).

Definition set_pd_controllers_update (v : bool) (c : bch_fs) : bch_fs :=
  mk_fs (fs_ptr c) (state c) (flags c) (opts c) (sb_uuid c) (disk_sb c) (devs c)
        (journal_halted c) (gc_thread c) (tiering_thread c) (writes_live c)
        v (read_only_work c) (trace c).

Definition set_read_only_work (v : bool) (c : bch_fs) : bch_fs :=
  mk_fs (fs_ptr c) (state c) (flags c) (opts c) (sb_uuid c) (disk_sb c) (devs c)
        (journal_halted c) (gc_thread c) (tiering_thread c) (writes_live c)
        (pd_controllers_update c) v (trace c).

Definition set_trace (v : list event) (c : bch_fs) : bch_fs :=
  mk_fs (fs_ptr c) (state c) (flags c) (opts c) (sb_uuid c) (disk_sb c) (devs c)
        (journal_halted c) (gc_thread c) (tiering_thread c) (writes_live c)
        (pd_controllers_update c) (read_only_work c) v.

(** Record one call, or a run of calls, at the end of the trace. *)
Definition log_events (evs : list event) (c : bch_fs) : bch_fs :=
  set_trace (trace c ++ evs) c.

Definition log (e : event) (c : bch_fs) : bch_fs := log_events [e] c.

(** ** Iterating over the device table *)

(** The device records in the occupied slots, in slot order. *)
Fixpoint member_devices (ds : list (option bch_dev)) : list bch_dev :=
  match ds with
  | [] => []
  | Some ca :: ds' => ca :: member_devices ds'
  | None :: ds' => member_devices ds'
  end.

(** [for_each_member_device(ca, c, i) body(ca)] for a body that cannot fail:
    every occupied slot is visited once, in slot order; [ev] is the call the
    body makes and [f] its effect on the record. *)
Definition for_each_member_device
    (f : bch_dev -> bch_dev) (ev : nat -> event) (c : bch_fs) : bch_fs :=
  log_events (map (fun ca => ev (dev_idx ca)) (member_devices (devs c)))
             (set_devs (map (option_map f) (devs c)) c).

(** Modelled from the spec: the macro [for_each_rw_member] is defined in
    super.h, which is not part of this file's sources.  It visits "every
    membership-RW device" of the table, in slot order.  Every loop of super.c
    that leaves it early does [percpu_ref_put(&ca->io_ref)] first
    ([bch2_fs_read_write], [__bch2_fs_start]): the macro holds the [io_ref]
    of the device it visits, which it cannot take on a device whose ref is
    dead.  So the devices visited are the membership-RW devices with a block
    device attached; a record without one is passed over. *)
Definition is_online_rw (ca : bch_dev) : bool := bdev ca && is_rw ca.

Definition rw_members (ds : list (option bch_dev)) : list bch_dev :=
  filter is_online_rw (member_devices ds).

Definition on_rw (f : bch_dev -> bch_dev) (ca : bch_dev) : bch_dev :=
  if is_online_rw ca then f ca else ca.

Definition for_each_rw_member
    (f : bch_dev -> bch_dev) (ev : nat -> event) (c : bch_fs) : bch_fs :=
  log_events (map (fun ca => ev (dev_idx ca)) (rw_members (devs c)))
             (set_devs (map (option_map (on_rw f)) (devs c)) c).

(** [for_each_rw_member(ca, c, i) if (start(ca)) goto err;]: the loop stops
    at the first device whose [start] fails.  The result is the updated
    table, the calls made (the failing one included) and whether the loop
    ran to completion. *)
Fixpoint try_each_rw (fails : nat -> bool) (f : bch_dev -> bch_dev)
    (ev : nat -> event) (ds : list (option bch_dev))
    : list (option bch_dev) * list event * bool :=
  match ds with
  | [] => ([], [], true)
  | None :: ds' =>
      let '(r, evs, ok) := try_each_rw fails f ev ds' in (None :: r, evs, ok)
  | Some ca :: ds' =>
      if is_online_rw ca then
        if fails (dev_idx ca) then (Some ca :: ds', [ev (dev_idx ca)], false)
        else
          let '(r, evs, ok) := try_each_rw fails f ev ds' in
          (Some (f ca) :: r, ev (dev_idx ca) :: evs, ok)
      else
        let '(r, evs, ok) := try_each_rw fails f ev ds' in (Some ca :: r, evs, ok)
  end.

(** ** Collaborators *)

(** Return codes of the calls super.c makes into other subsystems, and the
    constants it takes from headers outside this file's sources.  A [true]
    in a [_fails] field is a non-zero return. *)
Record collaborators : Type := mk_collab {
  BTREE_NODE_RESERVE : Z;
  BTREE_ID_NR : nat;
  BTREE_ID_ALLOC : nat;
  bch2_opts_default : bch_opts;
  bch2_fs_init_fault : string -> bool;
  dev_alloc_nomem : nat -> bool;
  fs_alloc_nomem : bool;
  bch2_dev_allocator_start_fails : nat -> bool;
  bch2_gc_thread_start_fails : bool;
  bch2_moving_gc_start_fails : nat -> bool;
  bch2_tiering_start_fails : bool;
  bch2_have_enough_devs : list nat -> Z -> bool;
  bch2_journal_read_ret : Z;
  bch2_journal_find_btree_root : nat -> bool;
  bch2_btree_root_read_fails : nat -> bool;
  bch2_alloc_read_ret : Z;
  bch2_initial_gc_ret : Z;
  bch2_btree_root_alloc_fails : nat -> bool;
  bch2_journal_replay_ret : Z;
  bch2_fsck_ret : Z;
  bch2_dev_journal_alloc_fails : nat -> bool;
  bch2_btree_insert_fails : bool;
  bch2_journal_meta_fails : bool;
  bch2_dev_journal_init_ret : nat -> Z;
  bch2_sb_validate_err : bch_sb -> option string;
  bch2_fs_chardev_init_fails : bool;
  kobject_add_fails : bool;
  bch2_dev_sysfs_online_fails : nat -> bool;
  ktime_get_seconds : Z
}.

(** ** Filesystem RO/RW *)

Definition bch2_tiering_stop (c : bch_fs) : bch_fs :=
  log EvTieringStop (set_tiering_thread false c).

Definition bch2_gc_thread_stop (c : bch_fs) : bch_fs :=
  log EvGcThreadStop (set_gc_thread false c).

Definition bch2_journal_flush_pins (c : bch_fs) : bch_fs :=
  log EvJournalFlushPins c.

(** Modelled from the spec: journal.c is not part of this file's sources.
    The journal reports an error once it has been halted ("halts the journal
    (no further durable writes accepted)"). *)
Definition bch2_journal_error (c : bch_fs) : bool := journal_halted c.

Definition bch2_btree_verify_flushed (c : bch_fs) : bch_fs :=
  log EvBtreeVerifyFlushed c.

Definition bch2_fs_journal_stop (c : bch_fs) : bch_fs := log EvJournalStop c.

(** [__bch2_fs_read_only]: the RW -> RO teardown. *)
Definition __bch2_fs_read_only (c : bch_fs) : bch_fs :=
  let c := bch2_tiering_stop c in
  let c := for_each_member_device (set_moving_gc_thread false) EvMovingGcStop c in
  let c := bch2_gc_thread_stop c in
  let c := bch2_journal_flush_pins c in
  let c := if negb (bch2_journal_error c) then bch2_btree_verify_flushed c else c in
  let c := for_each_member_device (set_alloc_thread false) EvAllocatorStop c in
  let c := bch2_fs_journal_stop c in
  for_each_member_device (set_in_alloc_pool false) EvAllocatorRemove c.

(** [bch2_writes_disabled]: the release callback of [c->writes]. *)
Definition bch2_writes_disabled (c : bch_fs) : bch_fs :=
  log EvWakeUp (set_flags (set_bit BCH_FS_WRITE_DISABLE_COMPLETE (flags c)) c).

(** [percpu_ref_kill(&c->writes)].  The release callback runs once the last
    admitted write has finished; the model has no writes in flight, so it
    runs at once and both [wait_event]s of [bch2_fs_read_only] fall
    through. *)
Definition percpu_ref_kill_writes (c : bch_fs) : bch_fs :=
  bch2_writes_disabled (log EvWritesKill (set_writes_live false c)).

Definition bch2_write_super (c : bch_fs) : bch_fs := log EvWriteSuper c.

(** [bch2_fs_read_only]. *)
Definition bch2_fs_read_only (c : bch_fs) : bch_fs :=
  if negb (fs_state_eqb (state c) BCH_FS_STARTING) &&
     negb (fs_state_eqb (state c) BCH_FS_RW)
  then c
  else if test_bit BCH_FS_ERROR (flags c) then c
  else
    let c := percpu_ref_kill_writes c in
    let c := log EvDelTimer c in
    let c := log EvCancelPdControllers (set_pd_controllers_update false c) in
    let c := log EvWakeDelayedWrites c in
    let c := __bch2_fs_read_only c in
    let c := set_flags (clear_bit BCH_FS_WRITE_DISABLE_COMPLETE (flags c)) c in
    let c :=
      if negb (bch2_journal_error c) && negb (test_bit BCH_FS_ERROR (flags c))
      then bch2_write_super (set_disk_sb (SET_BCH_SB_CLEAN true (disk_sb c)) c)
      else c in
    set_state BCH_FS_RO c.

(** [bch2_fs_read_only_work]: the body of the queued work item; the work
    queue clears the pending mark before it calls the function. *)
Definition bch2_fs_read_only_work (c : bch_fs) : bch_fs :=
  bch2_fs_read_only c.

Definition run_read_only_work (c : bch_fs) : bch_fs :=
  if read_only_work c
  then bch2_fs_read_only_work (set_read_only_work false c)
  else c.

(** [bch2_fs_read_only_async]: [queue_work] does nothing when the item is
    already queued. *)
Definition bch2_fs_read_only_async (c : bch_fs) : bch_fs :=
  if read_only_work c then c
  else log EvQueueReadOnlyWork (set_read_only_work true c).

Definition bch2_journal_halt (c : bch_fs) : bch_fs :=
  log EvJournalHalt (set_journal_halted true c).

(** [bch2_fs_emergency_read_only]. *)
Definition bch2_fs_emergency_read_only (c : bch_fs) : bch_fs * bool :=
  let '(old, w) := test_and_set_bit BCH_FS_EMERGENCY_RO (flags c) in
  let ret := negb old in
  let c := set_flags w c in
  let c := bch2_fs_read_only_async c in
  let c := bch2_journal_halt c in
  let c := log EvWakeUp c in
  (c, ret).

(** ** A state-and-error monad for the [goto err] functions

    [bch2_fs_read_write] and [__bch2_fs_start] run a sequence of steps on the
    instance and leave for their [err:] label at the first failing one.  A
    computation takes the instance and returns the updated instance together
    with a value, or with what the [err:] label needs. *)
Module FsM.

Definition M (E A : Type) : Type := bch_fs -> bch_fs * (A + E).

Definition ret {E A} (a : A) : M E A := fun c => (c, inl a).

Definition bind {E A B} (m : M E A) (k : A -> M E B) : M E B :=
  fun c =>
    match m c with
    | (c', inl a) => k a c'
    | (c', inr e) => (c', inr e)
    end.

(** [goto err] *)
Definition throw {E A} (e : E) : M E A := fun c => (c, inr e).

(** A step that cannot fail. *)
Definition lift {E} (f : bch_fs -> bch_fs) : M E unit :=
  fun c => (f c, inl tt).

(** Read the instance. *)
Definition get {E} : M E bch_fs := fun c => (c, inl c).

(** [if (failed) goto err;] *)
Definition check {E} (failed : bool) (e : E) : M E unit :=
  if failed then throw e else ret tt.

(** A loop over [0 .. n) whose body may [goto err]. *)
Fixpoint for_upto {E} (n : nat) (body : nat -> M E unit) : M E unit :=
  match n with
  | O => ret tt
  | S n' => bind (for_upto n' body) (fun _ => body n')
  end.

End FsM.

Notation "x <- m ;; k" := (FsM.bind m (fun x => k))
  (at level 61, m at next level, right associativity).
Notation "m ;;; k" := (FsM.bind m (fun _ => k))
  (at level 61, right associativity).

(** [for_each_rw_member(ca, c, i) if (start(ca)) goto err;] as a step. *)
Definition for_each_rw_member_try {E} (fails : nat -> bool)
    (f : bch_dev -> bch_dev) (ev : nat -> event) (e : E) : FsM.M E unit :=
  fun c =>
    let '(ds, evs, ok) := try_each_rw fails f ev (devs c) in
    let c' := log_events evs (set_devs ds c) in
    (c', if ok then inl tt else inr e).

Definition bch2_recalc_capacity (c : bch_fs) : bch_fs := log EvRecalcCapacity c.

(** Add the reserves of every RW member the loop visits to the shared pool,
    then recompute the writable capacity. *)
Definition add_rw_allocators (c : bch_fs) : bch_fs :=
  bch2_recalc_capacity
    (for_each_rw_member (set_in_alloc_pool true) EvAllocatorAdd c).

Definition bch2_gc_thread_start {E} (env : collaborators) (e : E) : FsM.M E unit :=
  fun c =>
    let c := log EvGcThreadStart c in
    if bch2_gc_thread_start_fails env then (c, inr e)
    else (set_gc_thread true c, inl tt).

Definition bch2_tiering_start {E} (env : collaborators) (e : E) : FsM.M E unit :=
  fun c =>
    let c := log EvTieringStart c in
    if bch2_tiering_start_fails env then (c, inr e)
    else (set_tiering_thread true c, inl tt).

Definition percpu_ref_reinit_writes (c : bch_fs) : bch_fs :=
  log EvWritesReinit (set_writes_live true c).

(** The steps of [bch2_fs_read_write] between the state test and the
    [err:] label. *)
Definition bch2_fs_read_write_steps (env : collaborators) : FsM.M string unit :=
  FsM.lift add_rw_allocators ;;;
  for_each_rw_member_try (bch2_dev_allocator_start_fails env)
    (set_alloc_thread true) EvAllocatorStart
    "error starting allocator thread"%string ;;;
  bch2_gc_thread_start env "error starting btree GC thread"%string ;;;
  for_each_rw_member_try (bch2_moving_gc_start_fails env)
    (set_moving_gc_thread true) EvMovingGcStart
    "error starting moving GC thread"%string ;;;
  bch2_tiering_start env "error starting tiering thread"%string ;;;
  FsM.lift (fun c => log EvSchedulePdControllers (set_pd_controllers_update true c)) ;;;
  FsM.lift (fun c =>
    if negb (fs_state_eqb (state c) BCH_FS_STARTING)
    then percpu_ref_reinit_writes c else c) ;;;
  FsM.lift (set_state BCH_FS_RW).

(** [bch2_fs_read_write]: [None] is the C function's [NULL]. *)
Definition bch2_fs_read_write (env : collaborators) (c : bch_fs)
    : bch_fs * option string :=
  if negb (fs_state_eqb (state c) BCH_FS_STARTING) &&
     negb (fs_state_eqb (state c) BCH_FS_RO)
  then (c, None)
  else
    match bch2_fs_read_write_steps env c with
    | (c', inl _) => (c', None)
    | (c', inr err) => (__bch2_fs_read_only c', Some err)
    end.

(** ** Device startup *)

Definition DIV_ROUND_UP (n d : Z) : Z := (n + d - 1) / d.

(** [a[i] = x] on a slot array; [None] when [i] is out of range. *)
Fixpoint list_set {A : Type} (i : nat) (x : A) (l : list A) : option (list A) :=
  match l, i with
  | [], _ => None
  | _ :: l', O => Some (x :: l')
  | y :: l', S i' =>
      match list_set i' x l' with
      | Some r => Some (y :: r)
      | None => None
      end
  end.

(** The sizes [bch2_dev_alloc] computes from [ca->mi.nbuckets]
    ([size_t] arithmetic). *)
Definition movinggc_reserve_of (nbuckets : Z) : Z :=
  Z.max (to_size_t 16) (to_size_t (Z.shiftr nbuckets 7)).

Definition reserve_none_of (nbuckets : Z) : Z :=
  Z.max (to_size_t 4) (to_size_t (Z.shiftr nbuckets 9)).

Definition free_inc_reserve_of (movinggc_reserve : Z) : Z := movinggc_reserve / 2.

Definition heap_size_of (movinggc_reserve : Z) : Z := to_size_t (movinggc_reserve * 8).

(** [bch2_dev_alloc]: allocate the record of slot [idx] and publish it in
    [c->devs].  [dev_alloc_nomem] stands for any of the allocations of the
    long [||] chain failing; the value of [bch2_dev_sysfs_online] only
    produces a warning. *)
Definition bch2_dev_alloc (env : collaborators) (c : bch_fs) (idx : nat)
    : result bch_fs :=
  if bch2_fs_init_fault env "dev_alloc" then Err (- ENOMEM)
  else
    match nth_error (members (disk_sb c)) idx with
    | None => Undefined
    | Some member =>
        let cpu := bch2_mi_to_cpu member in
        let movinggc_reserve := movinggc_reserve_of (nbuckets cpu) in
        let reserve_none := reserve_none_of (nbuckets cpu) in
        let free_inc_reserve := free_inc_reserve_of movinggc_reserve in
        let heap_size := heap_size_of movinggc_reserve in
        if (btree_node_size (opts c) =? 0) ||
           (bucket_size cpu / btree_node_size (opts c) =? 0)
        then Undefined
        else
          let btree_node_reserve_buckets :=
            DIV_ROUND_UP (BTREE_NODE_RESERVE env)
                         (bucket_size cpu / btree_node_size (opts c)) in
          if dev_alloc_nomem env idx then Err (- ENOMEM)
          else
            let ca :=
              {| dev_idx := idx; dev_uuid := m_uuid member; mi := cpu;
                 bdev := false;
                 free_btree := btree_node_reserve_buckets;
                 free_movinggc := movinggc_reserve;
                 free_none := reserve_none;
                 free_inc := free_inc_reserve;
                 alloc_heap := free_inc_reserve;
                 copygc_heap := heap_size;
                 in_alloc_pool := false; alloc_thread := false;
                 moving_gc_thread := false |} in
            match list_set idx (Some ca) (devs c) with
            | None => Undefined
            | Some ds => Ok (set_devs ds c)
            end
    end.

(** ** Device management *)

Definition BCH_FORCE_IF_DATA_LOST : Z := Z.shiftl 1 0.
Definition BCH_FORCE_IF_METADATA_LOST : Z := Z.shiftl 1 1.
Definition BCH_FORCE_IF_DATA_DEGRADED : Z := Z.shiftl 1 2.
Definition BCH_FORCE_IF_METADATA_DEGRADED : Z := Z.shiftl 1 3.
Definition BCH_FORCE_IF_DEGRADED : Z :=
  Z.lor BCH_FORCE_IF_DATA_DEGRADED BCH_FORCE_IF_METADATA_DEGRADED.

(** [!(flags & mask)] *)
Definition flag_clear (flags mask : Z) : bool := Z.land flags mask =? 0.

(** [bch2_online_devs]: the indices of the devices with a block device
    attached. *)
Definition bch2_online_devs (c : bch_fs) : list nat :=
  map dev_idx (filter bdev (member_devices (devs c))).

(** [__clear_bit(idx, mask)] on a device mask kept as a list of indices. *)
Definition clear_dev (idx : nat) (mask : list nat) : list nat :=
  filter (fun i => negb (Nat.eqb i idx)) mask.

(** The number of member devices whose membership state is RW
    ([nr_rw += ca2->mi.state == BCH_MEMBER_STATE_RW] over every member). *)
Definition count_rw (c : bch_fs) : Z :=
  Z.of_nat (List.length (filter is_rw (member_devices (devs c)))).

(** [required] of the RO case. *)
Definition required_replicas (c : bch_fs) (flags : Z) : Z :=
  Z.max (if flag_clear flags BCH_FORCE_IF_METADATA_DEGRADED
         then metadata_replicas (opts c)
         else metadata_replicas_required (opts c))
        (if flag_clear flags BCH_FORCE_IF_DATA_DEGRADED
         then data_replicas (opts c)
         else data_replicas_required (opts c)).

(** [bch2_dev_state_allowed].  The [default: BUG()] arm cannot be reached
    with a value of the enumeration.  [bch2_have_enough_devs] applied to
    [__bch2_replicas_status] is a collaborator. *)
Definition bch2_dev_state_allowed (env : collaborators) (c : bch_fs)
    (ca : bch_dev) (new_state : bch_member_state) (flags : Z) : bool :=
  match new_state with
  | BCH_MEMBER_STATE_RW => true
  | BCH_MEMBER_STATE_RO =>
      if negb (member_state_eqb (mi_state (mi ca)) BCH_MEMBER_STATE_RW) then true
      else
        let nr_rw := count_rw c in
        let required := required_replicas c flags in
        nr_rw - 1 <=? required
  | BCH_MEMBER_STATE_FAILED
  | BCH_MEMBER_STATE_SPARE =>
      if negb (member_state_eqb (mi_state (mi ca)) BCH_MEMBER_STATE_RW) &&
         negb (member_state_eqb (mi_state (mi ca)) BCH_MEMBER_STATE_RO)
      then true
      else
        let new_online_devs := clear_dev (dev_idx ca) (bch2_online_devs c) in
        bch2_have_enough_devs env new_online_devs flags
  end.

(** ** Filesystem startup/shutdown *)

(** Modelled from the spec: [bch2_sb_to_fs] is defined in super-io.c, which
    is not part of this file's sources.  The instance keeps "the shared
    superblock image" and its identity is the "stable UUID (from
    superblock)": the image becomes [c->disk_sb], the cached [c->sb.uuid]
    follows it, and the slot array covers the image's [nr_devices]. *)
Definition bch2_sb_to_fs (sb : bch_sb) (c : bch_fs) : bch_fs :=
  set_devs (devs c ++ repeat None (nr_devices sb - List.length (devs c))%nat)
           (set_sb_uuid (uuid sb) (set_disk_sb sb c)).

(** Modelled from the spec: [bch2_opts_from_sb] is defined in opts.c, which
    is not part of this file's sources; it returns the "superblock-embedded
    options". *)
Definition bch2_opts_from_sb (sb : bch_sb) : bch_opts := sb_opts sb.

(** The instance right after [kzalloc]: every field is zero. *)
Definition zero_opts : bch_opts := mk_opts 0 0 0 0 0 0 0 0 0 0 0 0 0.

Definition zero_sb : bch_sb := mk_sb 0 0 0 0 0 [] zero_opts false false.

Definition zeroed_fs (ptr : nat) : bch_fs :=
  {| fs_ptr := ptr; state := BCH_FS_STARTING; flags := 0; opts := zero_opts;
     sb_uuid := 0; disk_sb := zero_sb; devs := [];
     journal_halted := false; gc_thread := false; tiering_thread := false;
     writes_live := false; pd_controllers_update := false;
     read_only_work := false; trace := [] |}.

(** The option merge of [bch2_fs_alloc]:
    [c->opts = bch2_opts_default;
     bch2_opts_apply(&c->opts, bch2_opts_from_sb(sb));
     bch2_opts_apply(&c->opts, opts);
     c->opts.nochanges |= c->opts.noreplay;
     c->opts.read_only |= c->opts.nochanges;] *)
Definition fs_alloc_opts (env : collaborators) (sb : bch_sb) (o : bch_opts)
    (c : bch_fs) : bch_fs :=
  let c := set_opts (bch2_opts_default env) c in
  let c := set_opts (bch2_opts_apply (opts c) (bch2_opts_from_sb sb)) c in
  let c := set_opts (bch2_opts_apply (opts c) o) c in
  let c := set_opts (set_nochanges (Z.lor (nochanges (opts c)) (noreplay (opts c)))
                                   (opts c)) c in
  set_opts (set_read_only (Z.lor (read_only (opts c)) (nochanges (opts c)))
                          (opts c)) c.

(** The loop of [bch2_fs_alloc] that allocates a record for every existing
    member, slots [from .. from + n). *)
Fixpoint alloc_member_devs (env : collaborators) (n from : nat) (c : bch_fs)
    : result bch_fs :=
  match n with
  | O => Ok c
  | S n' =>
      if bch2_dev_exists (disk_sb c) from then
        match bch2_dev_alloc env c from with
        | Ok c' => alloc_member_devs env n' (S from) c'
        | Err e => Err e
        | Undefined => Undefined
        end
      else alloc_member_devs env n' (S from) c
  end.

(** [bch2_fs_alloc]: [Err] is the C function's [NULL]; [ptr] is the address
    [kzalloc] returns.  [fs_alloc_nomem] stands for [kzalloc] or any
    allocation of the long [||] chain failing. *)
Definition bch2_fs_alloc (env : collaborators) (ptr : nat) (sb : bch_sb)
    (o : bch_opts) : result bch_fs :=
  if fs_alloc_nomem env then Err (- ENOMEM)
  else
    let c := zeroed_fs ptr in
    let c := bch2_sb_to_fs sb c in
    let c := fs_alloc_opts env sb o c in
    if bch2_fs_init_fault env "fs_alloc" then Err (- ENOMEM)
    else
      let c := set_writes_live true c in
      match alloc_member_devs env (nr_devices sb) 0 c with
      | Ok c' => Ok c'
      | Err _ => Err (- ENOMEM)
      | Undefined => Undefined
      end.

(** [__bch2_dev_online]: attach the block device behind [sb] to its slot.
    [None] is the [BUG_ON]; otherwise the instance and the return code. *)
Definition __bch2_dev_online (env : collaborators) (c : bch_fs) (sb : bch_sb)
    : option (bch_fs * Z) :=
  let c := if seq (disk_sb c) <? seq sb then bch2_sb_to_fs sb c else c in
  match nth_error (devs c) (sb_dev_idx sb) with
  | None | Some None => None
  | Some (Some ca) =>
      if bdev ca then Some (c, - EINVAL)
      else
        let c := log (EvDevJournalInit (dev_idx ca)) c in
        let r := bch2_dev_journal_init_ret env (dev_idx ca) in
        if negb (r =? 0) then Some (c, r)
        else
          let ca := set_bdev true ca in
          let c := log (EvMarkDevMetadata (dev_idx ca)) c in
          let ca :=
            if member_state_eqb (mi_state (mi ca)) BCH_MEMBER_STATE_RW
            then set_in_alloc_pool true ca else ca in
          let c :=
            if member_state_eqb (mi_state (mi ca)) BCH_MEMBER_STATE_RW
            then log (EvAllocatorAdd (dev_idx ca)) c else c in
          match list_set (sb_dev_idx sb) (Some ca) (devs c) with
          | None => None
          | Some ds => Some (set_devs ds c, 0)
          end
  end.

(** The test [bch2_fs_may_start] makes on member [i]:
    [bch2_dev_exists(c->disk_sb, mi, i) && !bch2_dev_is_online(c->devs[i]) &&
     (c->devs[i]->mi.state == BCH_MEMBER_STATE_RW ||
      c->devs[i]->mi.state == BCH_MEMBER_STATE_RO)].
    [None] is the dereference of [c->devs[i]] when the member exists and the
    slot is empty or lies outside the array. *)
Definition missing_member (c : bch_fs) (i : nat) : option bool :=
  if bch2_dev_exists (disk_sb c) i then
    match nth_error (devs c) i with
    | Some (Some ca) =>
        Some (negb (bdev ca) &&
              (member_state_eqb (mi_state (mi ca)) BCH_MEMBER_STATE_RW ||
               member_state_eqb (mi_state (mi ca)) BCH_MEMBER_STATE_RO))
    | _ => None
    end
  else Some false.

(** The loop of [bch2_fs_may_start] over the member table; it returns at the
    first member that is missing. *)
Fixpoint any_missing_member (c : bch_fs) (idxs : list nat) : option bool :=
  match idxs with
  | [] => Some false
  | i :: rest =>
      match missing_member c i with
      | None => None
      | Some true => Some true
      | Some false => any_missing_member c rest
      end
  end.

(** [bch2_fs_may_start]: [None] is the dereference of an empty slot. *)
Definition bch2_fs_may_start (env : collaborators) (c : bch_fs) : option bool :=
  let flags := if negb (degraded (opts c) =? 0) then BCH_FORCE_IF_DEGRADED else 0 in
  let enough := bch2_have_enough_devs env (bch2_online_devs c) flags in
  if degraded (opts c) =? 0 then
    match any_missing_member c (List.seq 0 (nr_devices (disk_sb c))) with
    | None => None
    | Some true => Some false
    | Some false => Some enough
    end
  else Some enough.

(** Return codes of fsck (error.h) tested by the [err:] label. *)
Definition BCH_FSCK_ERRORS_NOT_FIXED : Z := 1.
Definition BCH_FSCK_REPAIR_UNIMPLEMENTED : Z := 2.
Definition BCH_FSCK_REPAIR_IMPOSSIBLE : Z := 3.
Definition BCH_FSCK_UNKNOWN_VERSION : Z := 4.

(** What a [goto err] of [__bch2_fs_start] carries: the value of [ret] and
    the value of [err] at the jump. *)
Definition start_error : Type := (Z * string)%type.

(** [ret = f(...); if (ret) goto err;] *)
Definition call_ret (ev : event) (r : Z) (err : string) : FsM.M start_error unit :=
  FsM.lift (log ev) ;;; FsM.check (negb (r =? 0)) (r, err).

(** [if (f(...)) goto err;] at a point where [ret] is 0. *)
Definition call_fails (ev : event) (failed : bool) (err : string)
    : FsM.M start_error unit :=
  FsM.lift (log ev) ;;; FsM.check failed (0, err).

Definition start_rw_allocators (env : collaborators) : FsM.M start_error unit :=
  for_each_rw_member_try (bch2_dev_allocator_start_fails env)
    (set_alloc_thread true) EvAllocatorStart
    (0, "error starting allocator thread"%string).

(** Recovery of an existing filesystem ([BCH_SB_INITIALIZED] set). *)
Definition recover_existing (env : collaborators) (o : bch_opts)
    : FsM.M start_error unit :=
  call_ret EvJournalRead (bch2_journal_read_ret env) "cannot allocate memory"%string ;;;
  FsM.for_upto (BTREE_ID_NR env) (fun i =>
    if negb (bch2_journal_find_btree_root env i)
    then FsM.check (i <? BTREE_ID_ALLOC env)%nat (0, "missing btree root"%string)
    else call_fails (EvBtreeRootRead i) (bch2_btree_root_read_fails env i)
                    "error reading btree root"%string) ;;;
  call_ret EvAllocRead (bch2_alloc_read_ret env)
           "error reading allocation information"%string ;;;
  FsM.lift (fun c => set_flags (set_bit BCH_FS_ALLOC_READ_DONE (flags c)) c) ;;;
  call_ret EvInitialGc (bch2_initial_gc_ret env) "error in recovery"%string ;;;
  if negb (noreplay o =? 0) then FsM.ret tt
  else
    FsM.for_upto (BTREE_ID_NR env) (fun i =>
      if bch2_journal_find_btree_root env i then FsM.ret tt
      else call_fails (EvBtreeRootAlloc i) (bch2_btree_root_alloc_fails env i)
                      "cannot allocate new btree root"%string) ;;;
    FsM.lift (log EvJournalStart) ;;;
    start_rw_allocators env ;;;
    call_ret EvJournalReplay (bch2_journal_replay_ret env)
             "journal replay failed"%string ;;;
    if negb (norecovery o =? 0) then FsM.ret tt
    else
      call_ret EvFsck (bch2_fsck_ret env) "error in fsck"%string.

(** Initialisation of a new filesystem. *)
Definition initialize_new (env : collaborators) : FsM.M start_error unit :=
  FsM.lift (fun c => set_flags (set_bit BCH_FS_ALLOC_READ_DONE (flags c)) c) ;;;
  call_ret EvInitialGc (bch2_initial_gc_ret env) "cannot allocate memory"%string ;;;
  for_each_rw_member_try (bch2_dev_journal_alloc_fails env) (fun ca => ca)
    EvDevJournalAlloc (0, "unable to allocate journal buckets"%string) ;;;
  FsM.for_upto (BTREE_ID_NR env) (fun i =>
    call_fails (EvBtreeRootAlloc i) (bch2_btree_root_alloc_fails env i)
               "cannot allocate new btree root"%string) ;;;
  FsM.lift (log EvJournalStart) ;;;
  FsM.lift (log EvJournalSetReplayDone) ;;;
  start_rw_allocators env ;;;
  call_fails EvCreateRootInode (bch2_btree_insert_fails env)
             "error creating root directory"%string ;;;
  call_fails EvJournalMeta (bch2_journal_meta_fails env)
             "error writing first journal entry"%string.

(** [mi->members[ca->dev_idx].last_mount = now] for every member device. *)
Fixpoint stamp_last_mount (now : Z) (ds : list (option bch_dev))
    (ms : list bch_member) : list bch_member :=
  match ds, ms with
  | Some _ :: ds', m :: ms' =>
      mk_member (m_uuid m) (m_nbuckets m) (m_bucket_size m) (m_state m) now
        :: stamp_last_mount now ds' ms'
  | None :: ds', m :: ms' => m :: stamp_last_mount now ds' ms'
  | _, _ => ms
  end.

(** The superblock update that ends a successful start. *)
Definition mark_started (env : collaborators) (c : bch_fs) : bch_fs :=
  let sb := disk_sb c in
  let sb := set_members (stamp_last_mount (ktime_get_seconds env) (devs c) (members sb)) sb in
  let sb := SET_BCH_SB_INITIALIZED true sb in
  let sb := SET_BCH_SB_CLEAN false sb in
  bch2_write_super (set_disk_sb sb c).

(** [__bch2_fs_start] from its first statement to the label
    [recovery_done]. *)
Definition recovery (env : collaborators) : FsM.M start_error unit :=
  FsM.lift (fun c =>
    log_events (map EvSbFromFs (bch2_online_devs c)) c) ;;;
  FsM.lift add_rw_allocators ;;;
  c <- FsM.get ;;
  if BCH_SB_INITIALIZED (disk_sb c)
  then recover_existing env (opts c)
  else initialize_new env.

(** [__bch2_fs_start] from the label [recovery_done] to [err = NULL]. *)
Definition recovery_done (env : collaborators) : FsM.M start_error unit :=
  FsM.check (bch2_fs_init_fault env "fs_start") (0, "dynamic fault"%string) ;;;
  c <- FsM.get ;;
  (if negb (read_only (opts c) =? 0)
   then FsM.lift bch2_fs_read_only
   else fun c =>
     match bch2_fs_read_write env c with
     | (c', None) => (c', inl tt)
     | (c', Some err) => (c', inr (0, err))
     end) ;;;
  FsM.lift (mark_started env).

(** The body of [__bch2_fs_start] up to [err = NULL]. *)
Definition __bch2_fs_start_steps (env : collaborators) : FsM.M start_error unit :=
  recovery env ;;; recovery_done env.

(** The [switch (ret)] of the [err:] label. *)
Definition start_err_string (e : start_error) : string :=
  let '(r, err) := e in
  if r =? BCH_FSCK_ERRORS_NOT_FIXED then "fsck error"%string
  else if r =? BCH_FSCK_REPAIR_UNIMPLEMENTED then "fsck error"%string
  else if r =? BCH_FSCK_REPAIR_IMPOSSIBLE then "fsck error"%string
  else if r =? BCH_FSCK_UNKNOWN_VERSION then "unknown metadata version"%string
  else if r =? - ENOMEM then "cannot allocate memory"%string
  else if r =? - EIO then "IO error"%string
  else err.

(** [__bch2_fs_start]: [None] is [BUG_ON(c->state != BCH_FS_STARTING)];
    otherwise the instance and the returned string ([None] for [NULL]). *)
Definition __bch2_fs_start (env : collaborators) (c : bch_fs)
    : option (bch_fs * option string) :=
  if negb (fs_state_eqb (state c) BCH_FS_STARTING) then None
  else
    match __bch2_fs_start_steps env c with
    | (c', inl _) => Some (c', None)
    | (c', inr e) =>
        Some (set_flags (set_bit BCH_FS_ERROR (flags c')) c',
              Some (start_err_string e))
    end.

(** ** The registry of live instances *)

(** [bch_fs_list] with the allocator's next free address: every call of
    [bch2_fs_alloc] that gets memory consumes one address. *)
Record registry : Type := mk_registry {
  bch_fs_list : list bch_fs;
  next_ptr : nat
}.

(** [__bch2_uuid_to_fs]: the first listed instance whose superblock carries
    [u]. *)
Definition __bch2_uuid_to_fs (u : Z) (l : list bch_fs) : option bch_fs :=
  find (fun c => uuid (disk_sb c) =? u) l.

(** [!list_empty(&c->list)]: the instance is linked into [bch_fs_list]. *)
Definition on_list (c : bch_fs) (l : list bch_fs) : bool :=
  existsb (fun c' => Nat.eqb (fs_ptr c') (fs_ptr c)) l.

(** Writing through the pointer to a listed instance. *)
Definition store_fs (c : bch_fs) (l : list bch_fs) : list bch_fs :=
  map (fun c' => if Nat.eqb (fs_ptr c') (fs_ptr c) then c else c') l.

(** [list_del(&c->list)] *)
Definition list_del (c : bch_fs) (l : list bch_fs) : list bch_fs :=
  filter (fun c' => negb (Nat.eqb (fs_ptr c') (fs_ptr c))) l.

(** [__for_each_member_device(ca, c, i, NULL) if (bch2_dev_sysfs_online(ca))
    goto err;] *)
Fixpoint sysfs_online_each (env : collaborators) (ds : list bch_dev)
    : list event * bool :=
  match ds with
  | [] => ([], true)
  | ca :: ds' =>
      if bch2_dev_sysfs_online_fails env (dev_idx ca)
      then ([EvDevSysfsOnline (dev_idx ca)], false)
      else
        let '(evs, ok) := sysfs_online_each env ds' in
        (EvDevSysfsOnline (dev_idx ca) :: evs, ok)
  end.

(** [__bch2_fs_online]: publish [c] in the registry.  The result is the new
    list and the returned string ([None] for [NULL]). *)
Definition __bch2_fs_online (env : collaborators) (c : bch_fs)
    (l : list bch_fs) : list bch_fs * option string :=
  if on_list c l then (l, None)
  else
    match __bch2_uuid_to_fs (sb_uuid c) l with
    | Some _ => (l, Some "filesystem UUID already open"%string)
    | None =>
        if bch2_fs_chardev_init_fails env
        then (l, Some "error creating character device"%string)
        else if kobject_add_fails env
        then (l, Some "error creating sysfs objects"%string)
        else
          let '(evs, ok) := sysfs_online_each env (member_devices (devs c)) in
          if ok
          then (log_events ([EvChardevInit; EvDebugInit; EvKobjectAdd] ++ evs) c :: l,
                None)
          else (l, Some "error creating sysfs objects"%string)
    end.

(** [bch2_fs_stop]: [None] is [BUG_ON(c->state == BCH_FS_STOPPING)];
    otherwise the list without [c] and the instance as it is when
    [bch2_fs_exit] releases it. *)
Definition bch2_fs_stop (c : bch_fs) (l : list bch_fs)
    : option (list bch_fs * bch_fs) :=
  if fs_state_eqb (state c) BCH_FS_STOPPING then None
  else
    let c := set_state BCH_FS_STOPPING c in
    let l := list_del c l in
    let c := __bch2_fs_read_only c in
    Some (l, c).

(** [bch2_dev_in_fs]: [None] is [NULL]. *)
Definition bch2_dev_in_fs (fs sb : bch_sb) : option string :=
  let newest := if seq sb <? seq fs then fs else sb in
  if negb (uuid fs =? uuid sb)
  then Some "device not a member of filesystem"%string
  else if negb (bch2_dev_exists newest (sb_dev_idx sb))
  then Some "device has been removed"%string
  else if negb (sb_block_size fs =? sb_block_size sb)
  then Some "mismatched block size"%string
  else None.

(** The [err:] label of [__bch2_fs_open_incremental]: an instance allocated
    by this call is stopped and released; an instance that was found in the
    registry stays there.  [allocated_fs] is the C variable of that name. *)
Definition open_incremental_err (allocated_fs : bool) (w : registry)
    (c : bch_fs) (err : string) : option (registry * option string) :=
  if allocated_fs then
    match bch2_fs_stop c (bch_fs_list w) with
    | None => None
    | Some (l, _) => Some (mk_registry l (next_ptr w), Some err)
    end
  else Some (mk_registry (store_fs c (bch_fs_list w)) (next_ptr w), Some err).

(** The call of [__bch2_fs_online] that ends [__bch2_fs_open_incremental]. *)
Definition open_incremental_online (env : collaborators) (allocated_fs : bool)
    (w : registry) (c : bch_fs) : option (registry * option string) :=
  match __bch2_fs_online env c (store_fs c (bch_fs_list w)) with
  | (l, None) => Some (mk_registry l (next_ptr w), None)
  | (_, Some err) => open_incremental_err allocated_fs w c err
  end.

(** The part of [__bch2_fs_open_incremental] after the instance [c] has been
    found or allocated. *)
Definition open_incremental_attach (env : collaborators) (sb : bch_sb)
    (c : bch_fs) (allocated_fs : bool) (w : registry)
    : option (registry * option string) :=
  match __bch2_dev_online env c sb with
  | None => None
  | Some (c, r) =>
      if negb (r =? 0)
      then open_incremental_err allocated_fs w c "bch2_dev_online() error"%string
      else
        match (if nostart (opts c) =? 0 then bch2_fs_may_start env c
               else Some false) with
        | None => None
        | Some true =>
            match __bch2_fs_start env c with
            | None => None
            | Some (c, Some err) => open_incremental_err allocated_fs w c err
            | Some (c, None) => open_incremental_online env allocated_fs w c
            end
        | Some false => open_incremental_online env allocated_fs w c
        end
  end.

(** [__bch2_fs_open_incremental]: [None] is a [BUG_ON] or undefined
    behaviour on the way; otherwise the registry after the call and the
    returned string. *)
Definition __bch2_fs_open_incremental (env : collaborators) (sb : bch_sb)
    (o : bch_opts) (w : registry) : option (registry * option string) :=
  match bch2_sb_validate_err env sb with
  | Some err => Some (w, Some err)
  | None =>
      match __bch2_uuid_to_fs (uuid sb) (bch_fs_list w) with
      | Some c =>
          match bch2_dev_in_fs (disk_sb c) sb with
          | Some err => Some (w, Some err)
          | None => open_incremental_attach env sb c false w
          end
      | None =>
          match bch2_fs_alloc env (next_ptr w) sb o with
          | Err _ => Some (w, Some "cannot allocate memory"%string)
          | Undefined => None
          | Ok c =>
              open_incremental_attach env sb c true
                (mk_registry (bch_fs_list w) (S (next_ptr w)))
          end
      end
  end.

(** ** Vocabulary of the properties

    Abstractions of the instance and of its trace in which the properties
    of the last part are stated. *)

(** The slot indices of the member devices, in slot order. *)
Definition member_idxs (c : bch_fs) : list nat :=
  map dev_idx (member_devices (devs c)).

(** The calls one teardown makes on an instance. *)
Definition teardown_events (c : bch_fs) : list event :=
  [EvTieringStop] ++ map EvMovingGcStop (member_idxs c) ++
  [EvGcThreadStop; EvJournalFlushPins] ++
  (if journal_halted c then [] else [EvBtreeVerifyFlushed]) ++
  map EvAllocatorStop (member_idxs c) ++
  [EvJournalStop] ++
  map EvAllocatorRemove (member_idxs c).

(** [a] is called before [b] in [tr]. *)
Definition precedes (a b : event) (tr : list event) : Prop :=
  exists l1 l2 l3, tr = l1 ++ a :: l2 ++ b :: l3.

(** What the teardown does to one device record. *)
Definition stop_dev (ca : bch_dev) : bch_dev :=
  set_in_alloc_pool false (set_alloc_thread false (set_moving_gc_thread false ca)).

(** What identifies a device record in the loops: its slot, its member
    information and whether its block device is attached.  The start and
    stop calls change none of them. *)
Definition dev_key (ca : bch_dev) : nat * bch_member_cpu * bool :=
  (dev_idx ca, mi ca, bdev ca).

Definition keeps_key (f : bch_dev -> bch_dev) : Prop :=
  forall ca, dev_key (f ca) = dev_key ca.

Definition slot_keys (ds : list (option bch_dev))
    : list (option (nat * bch_member_cpu * bool)) :=
  map (option_map dev_key) ds.

(** The slot indices of the devices [for_each_rw_member] visits. *)
Definition rw_idxs (c : bch_fs) : list nat := map dev_idx (rw_members (devs c)).

(** The first step of the RO -> RW transition that fails under [env], as the
    string [bch2_fs_read_write] holds in [err] at that step; [None] when
    every step succeeds. *)
Definition rw_start_failure (env : collaborators) (c : bch_fs) : option string :=
  if existsb (bch2_dev_allocator_start_fails env) (rw_idxs c)
  then Some "error starting allocator thread"%string
  else if bch2_gc_thread_start_fails env
  then Some "error starting btree GC thread"%string
  else if existsb (bch2_moving_gc_start_fails env) (rw_idxs c)
  then Some "error starting moving GC thread"%string
  else if bch2_tiering_start_fails env
  then Some "error starting tiering thread"%string
  else None.

(** The members of [idxs] up to and including the first one for which
    [fails] holds: the devices a loop that stops at the first failure gets
    to. *)
Fixpoint upto_first (fails : nat -> bool) (idxs : list nat) : list nat :=
  match idxs with
  | [] => []
  | i :: rest => if fails i then [i] else i :: upto_first fails rest
  end.

(** The calls [bch2_fs_read_write] has made when it leaves for its [err:]
    label under [env], on an instance whose visited devices sit in the slots
    [idxs]: the pool additions and the capacity update, then the starts up
    to and including the one that fails. *)
Definition failed_start_events (env : collaborators) (idxs : list nat)
    : list event :=
  map EvAllocatorAdd idxs ++ [EvRecalcCapacity] ++
  map EvAllocatorStart (upto_first (bch2_dev_allocator_start_fails env) idxs) ++
  (if existsb (bch2_dev_allocator_start_fails env) idxs then []
   else
     EvGcThreadStart ::
     (if bch2_gc_thread_start_fails env then []
      else
        map EvMovingGcStart
            (upto_first (bch2_moving_gc_start_fails env) idxs) ++
        (if existsb (bch2_moving_gc_start_fails env) idxs then []
         else [EvTieringStart]))).

(** No worker of the instance is running. *)
Definition no_worker_running (c : bch_fs) : Prop :=
  gc_thread c = false /\ tiering_thread c = false /\
  Forall (fun ca => alloc_thread ca = false /\ moving_gc_thread ca = false)
         (member_devices (devs c)).

(** [bch2_fs_read_only] gets past its two early returns. *)
Definition will_teardown (c : bch_fs) : bool :=
  (fs_state_eqb (state c) BCH_FS_STARTING || fs_state_eqb (state c) BCH_FS_RW) &&
  negb (test_bit BCH_FS_ERROR (flags c)).

(** The calls [bch2_fs_read_only] makes before the teardown. *)
Definition read_only_prologue : list event :=
  [EvWritesKill; EvWakeUp; EvDelTimer; EvCancelPdControllers;
   EvWakeDelayedWrites].

(** The number of teardowns an instance has gone through: every run of
    [__bch2_fs_read_only] flushes the journal pins once, and nothing else
    does. *)
Definition nr_teardowns (c : bch_fs) : nat :=
  count_occ event_eq_dec (trace c) EvJournalFlushPins.

(** Two calls of [bch2_fs_emergency_read_only] on one instance.  The queued
    work runs after the second call; [between] says whether it also gets to
    run between the two calls.  The result is the final instance and the two
    return values. *)
Definition emergency_twice (between : bool) (c : bch_fs) : bch_fs * bool * bool :=
  let '(c1, r1) := bch2_fs_emergency_read_only c in
  let c1 := if between then run_read_only_work c1 else c1 in
  let '(c2, r2) := bch2_fs_emergency_read_only c1 in
  (run_read_only_work c2, r1, r2).

(** The options an instance is created with, before [bch2_fs_alloc] forces
    [nochanges] and [read_only]: the defaults, overridden by the superblock's
    options, overridden by the caller's. *)
Definition requested_opts (env : collaborators) (sb : bch_sb) (o : bch_opts)
    : bch_opts :=
  bch2_opts_apply (bch2_opts_apply (bch2_opts_default env) (bch2_opts_from_sb sb)) o.



(** [c'] is the instance [c] at a later time: same address, same UUID (both
    the cached one and the superblock's), same devices attached. *)
Definition same_instance (c c' : bch_fs) : Prop :=
  fs_ptr c' = fs_ptr c /\ sb_uuid c' = sb_uuid c /\
  uuid (disk_sb c') = uuid (disk_sb c) /\
  slot_keys (devs c') = slot_keys (devs c).

(** The superblock UUIDs of the listed instances. *)
Definition uuids (l : list bch_fs) : list Z := map (fun c => uuid (disk_sb c)) l.

(** The registry invariant: no two listed instances carry the same UUID or
    live at the same address, every listed instance caches its superblock's
    UUID, and every address in use lies below the allocator's next one. *)
Definition registry_ok (w : registry) : Prop :=
  NoDup (uuids (bch_fs_list w)) /\
  NoDup (map fs_ptr (bch_fs_list w)) /\
  Forall (fun c => sb_uuid c = uuid (disk_sb c) /\ (fs_ptr c < next_ptr w)%nat)
         (bch_fs_list w).



(** A computation [m] keeps the property [P] of the instance, whether it
    fails or not. *)
Definition keeps {E A : Type} (P : bch_fs -> Prop) (m : FsM.M E A) : Prop :=
  forall c, P c -> P (fst (m c)).

(** ** Sample instances

    Concrete collaborators, superblocks and instances on which the
    definitions above are evaluated. *)
Module Examples.

(** Two replicas of data and metadata wanted, one required. *)
Definition opts_two_replicas : bch_opts :=
  {| block_size := 8; btree_node_size := 512;
     metadata_replicas := 2; metadata_replicas_required := 1;
     data_replicas := 2; data_replicas_required := 1;
     degraded := 0; nostart := 0; noreplay := 0; norecovery := 0;
     nochanges := 0; nofsck := 0; read_only := 0 |}.

(** One replica wanted. *)
Definition opts_one_replica : bch_opts :=
  {| block_size := 8; btree_node_size := 512;
     metadata_replicas := 1; metadata_replicas_required := 1;
     data_replicas := 1; data_replicas_required := 1;
     degraded := 0; nostart := 0; noreplay := 0; norecovery := 0;
     nochanges := 0; nofsck := 0; read_only := 0 |}.

(** No option given. *)
Definition opts_empty : bch_opts :=
  mk_opts (-1) (-1) (-1) (-1) (-1) (-1) (-1) (-1) (-1) (-1) (-1) (-1) (-1).

(** Only [noreplay] given. *)
Definition opts_noreplay : bch_opts :=
  mk_opts (-1) (-1) (-1) (-1) (-1) (-1) (-1) (-1) 1 (-1) (-1) (-1) (-1).

(** Every collaborator call succeeds. *)
Definition env_ok : collaborators :=
  {| BTREE_NODE_RESERVE := 8;
     BTREE_ID_NR := 5;
     BTREE_ID_ALLOC := 4;
     bch2_opts_default := opts_one_replica;
     bch2_fs_init_fault := fun _ => false;
     dev_alloc_nomem := fun _ => false;
     fs_alloc_nomem := false;
     bch2_dev_allocator_start_fails := fun _ => false;
     bch2_gc_thread_start_fails := false;
     bch2_moving_gc_start_fails := fun _ => false;
     bch2_tiering_start_fails := false;
     bch2_have_enough_devs := fun _ _ => true;
     bch2_journal_read_ret := 0;
     bch2_journal_find_btree_root := fun _ => true;
     bch2_btree_root_read_fails := fun _ => false;
     bch2_alloc_read_ret := 0;
     bch2_initial_gc_ret := 0;
     bch2_btree_root_alloc_fails := fun _ => false;
     bch2_journal_replay_ret := 0;
     bch2_fsck_ret := 0;
     bch2_dev_journal_alloc_fails := fun _ => false;
     bch2_btree_insert_fails := false;
     bch2_journal_meta_fails := false;
     bch2_dev_journal_init_ret := fun _ => 0;
     bch2_sb_validate_err := fun _ => None;
     bch2_fs_chardev_init_fails := false;
     kobject_add_fails := false;
     bch2_dev_sysfs_online_fails := fun _ => false;
     ktime_get_seconds := 1000 |}.

(** As [env_ok], but the allocator thread of device 1 does not start. *)
Definition env_allocator_1_fails : collaborators :=
  {| BTREE_NODE_RESERVE := 8;
     BTREE_ID_NR := 5;
     BTREE_ID_ALLOC := 4;
     bch2_opts_default := opts_one_replica;
     bch2_fs_init_fault := fun _ => false;
     dev_alloc_nomem := fun _ => false;
     fs_alloc_nomem := false;
     bch2_dev_allocator_start_fails := fun i => Nat.eqb i 1;
     bch2_gc_thread_start_fails := false;
     bch2_moving_gc_start_fails := fun _ => false;
     bch2_tiering_start_fails := false;
     bch2_have_enough_devs := fun _ _ => true;
     bch2_journal_read_ret := 0;
     bch2_journal_find_btree_root := fun _ => true;
     bch2_btree_root_read_fails := fun _ => false;
     bch2_alloc_read_ret := 0;
     bch2_initial_gc_ret := 0;
     bch2_btree_root_alloc_fails := fun _ => false;
     bch2_journal_replay_ret := 0;
     bch2_fsck_ret := 0;
     bch2_dev_journal_alloc_fails := fun _ => false;
     bch2_btree_insert_fails := false;
     bch2_journal_meta_fails := false;
     bch2_dev_journal_init_ret := fun _ => 0;
     bch2_sb_validate_err := fun _ => None;
     bch2_fs_chardev_init_fails := false;
     kobject_add_fails := false;
     bch2_dev_sysfs_online_fails := fun _ => false;
     ktime_get_seconds := 1000 |}.

Definition member_rw (u n : Z) : bch_member :=
  mk_member u n 1024 BCH_MEMBER_STATE_RW 0.

(** An initialised two-device superblock, seen from device [idx]. *)
Definition sb_two (idx : nat) : bch_sb :=
  {| uuid := 7; seq := 1; sb_block_size := 8; sb_dev_idx := idx;
     nr_devices := 2;
     members := [member_rw 11 4096; member_rw 12 65536];
     sb_opts := opts_empty;
     BCH_SB_INITIALIZED := true; BCH_SB_CLEAN := false |}.

(** A device record in membership state [st], with nothing running. *)
Definition dev (idx : nat) (st : bch_member_state) : bch_dev :=
  {| dev_idx := idx; dev_uuid := 11 + Z.of_nat idx;
     mi := mk_mi 4096 1024 st; bdev := true;
     free_btree := 4; free_movinggc := 32; free_none := 8; free_inc := 16;
     alloc_heap := 16; copygc_heap := 256;
     in_alloc_pool := false; alloc_thread := false;
     moving_gc_thread := false |}.

(** An instance in state [st] with flag word [fl], options [o] and [n]
    member devices, all in membership state RW. *)
Definition fs_rw_devs (st : bch_fs_state) (fl : Z) (o : bch_opts) (n : nat)
    : bch_fs :=
  {| fs_ptr := 0; state := st; flags := fl; opts := o;
     sb_uuid := 7; disk_sb := sb_two 0;
     devs := map (fun i => Some (dev i BCH_MEMBER_STATE_RW)) (List.seq 0 n);
     journal_halted := false; gc_thread := false; tiering_thread := false;
     writes_live := negb (fs_state_eqb st BCH_FS_RO);
     pd_controllers_update := false;
     read_only_work := false; trace := [] |}.

(** The instance [bch2_fs_alloc] builds from [sb_two 0] when only
    [noreplay] is given. *)
Definition fs_noreplay : bch_fs :=
  Eval vm_compute in
    match bch2_fs_alloc env_ok 0 (sb_two 0) opts_noreplay with
    | Ok c => c
    | _ => zeroed_fs 0
    end.

(** [fs_noreplay] after slot 1 has been allocated once more. *)
Definition fs_realloc : bch_fs :=
  Eval vm_compute in
    match bch2_dev_alloc env_ok fs_noreplay 1 with
    | Ok c => c
    | _ => fs_noreplay
    end.

(** The registry after device 0 of the two-device filesystem has been opened
    incrementally: one instance, not started yet. *)
Definition registry_one : registry :=
  Eval vm_compute in
    match __bch2_fs_open_incremental env_ok (sb_two 0) opts_empty
            (mk_registry [] 0) with
    | Some (w, _) => w
    | None => mk_registry [] 0
    end.

(** The registry after device 1 has been opened as well: still one
    instance, now started. *)
Definition registry_two : registry :=
  Eval vm_compute in
    match __bch2_fs_open_incremental env_ok (sb_two 1) opts_empty
            registry_one with
    | Some (w, _) => w
    | None => registry_one
    end.


End Examples.

(** ** Debug commands (c_src/cmd_debug.c) *)

(** [enum bkey_update_op], as the integer the [switch] tests. *)
Definition BKEY_CMD_SET : Z := 0.
Definition BKEY_CMD_ADD : Z := 1.

(** Memory behind [base] is a list of bytes, each in [0, 256).  A [u8],
    [u16], [u32] or [u64] field is stored least significant byte first, the
    byte order of the hosts the tools are built for. *)
Definition bytes_ok (m : list Z) : Prop := Forall (fun b => 0 <= b < 256) m.

Fixpoint le_encode (n : nat) (v : Z) : list Z :=
  match n with
  | O => []
  | S n' => v mod 256 :: le_encode n' (v / 256)
  end.

Fixpoint le_decode (bs : list Z) : Z :=
  match bs with
  | [] => 0
  | b :: bs' => b + 256 * le_decode bs'
  end.

(** The [uN] field at [base + offset] read and written, [size] being
    [N / 8]; [None] when the field does not lie inside the memory. *)
Definition load_field (m : list Z) (offset size : nat) : option Z :=
  if (offset + size <=? List.length m)%nat
  then Some (le_decode (firstn size (skipn offset m)))
  else None.

Definition store_field (m : list Z) (offset size : nat) (v : Z) : option (list Z) :=
  if (offset + size <=? List.length m)%nat
  then Some (firstn offset m ++ le_encode size v ++ skipn (offset + size) m)
  else None.

(** The number of values of a field of [size] bytes. *)
Definition field_modulus (size : nat) : Z := 2 ^ (8 * Z.of_nat size).

(** One arm [x(_size, _bits)] of [write_field]: the cast [(uN) value] and
    the store, or the wrapping [+=]; another [op] only prints a message. *)
Definition write_sized (op : Z) (m : list Z) (size offset : nat) (value : Z)
    : option (list Z) :=
  if op =? BKEY_CMD_SET then
    store_field m offset size (value mod field_modulus size)
  else if op =? BKEY_CMD_ADD then
    match load_field m offset size with
    | Some old =>
        store_field m offset size
          ((old + value mod field_modulus size) mod field_modulus size)
    | None => None
    end
  else Some m.

(** [write_field]: the memory after the call; [None] when the field written
    lies outside the memory.  A [size] other than 1, 2, 4 or 8 only prints a
    message. *)
Definition write_field (op : Z) (m : list Z) (size : Z) (offset : nat)
    (value : Z) : option (list Z) :=
  if size =? 1 then write_sized op m 1 offset value
  else if size =? 2 then write_sized op m 2 offset value
  else if size =? 4 then write_sized op m 4 offset value
  else if size =? 8 then write_sized op m 8 offset value
  else Some m.

(** The sizes [write_field] has an arm for. *)
Definition field_size (size : Z) : option nat :=
  if size =? 1 then Some 1%nat
  else if size =? 2 then Some 2%nat
  else if size =? 4 then Some 4%nat
  else if size =? 8 then Some 8%nat
  else None.

(** Running a second [write_field] on the result of a first one. *)
Definition then_write (r : option (list Z)) (op : Z) (size : Z) (offset : nat)
    (value : Z) : option (list Z) :=
  match r with
  | Some m' => write_field op m' size offset value
  | None => None
  end.

(** A key as [cmd_update_bkey] sees it: its position, its type and the bytes
    of its value. *)
Record bkey : Type := mk_bkey {
  k_p : Z;
  k_type : Z;
  k_v : list Z
}.

(** [struct bkey_update] (cmds.h). *)
Record bkey_update : Type := mk_bkey_update {
  u_id : Z;
  u_bkey : Z;
  u_op : Z;
  u_inode_unpacked : bool;
  u_offset : Z;
  u_size : Z;
  u_value : Z
}.

(** The btree calls [cmd_update_bkey] makes.  [bch2_btree_iter_peek] answers
    with the error of [bkey_err] and the key found, if any;
    [bch2_inode_unpack] with its return code and the bytes of the unpacked
    inode. *)
Record debug_collaborators : Type := mk_debug_collab {
  bch2_btree_iter_peek : Z -> Z -> Z * option bkey;
  KEY_TYPE_inode_v2 : Z;
  KEY_TYPE_inode_v3 : Z;
  bch2_inode_unpack : bkey -> Z * list Z;
  bch2_inode_write_ret : list Z -> Z;
  bch2_trans_commit_ret : Z;
  bch2_bkey_make_mut_noupdate_err : bkey -> Z;
  bch2_btree_insert_ret : Z -> bkey -> Z
}.

(** What a run of [cmd_update_bkey] did: its return value, the unpacked
    inode it handed to [bch2_inode_write] and the key it handed to
    [bch2_btree_insert], if any. *)
Record update_outcome : Type := mk_outcome {
  ret : Z;
  inode_written : option (list Z);
  key_inserted : option bkey
}.

(** [goto out] with nothing written. *)
Definition goto_out (r : Z) : option update_outcome :=
  Some (mk_outcome r None None).

(** [cmd_update_bkey]: [None] when [write_field] writes outside the value.
    [BCH_FS_no_invalid_checks] is set on every path and is not part of the
    outcome. *)
Definition cmd_update_bkey (denv : debug_collaborators) (u : bkey_update)
    (pos : Z) : option update_outcome :=
  let '(err, k) := bch2_btree_iter_peek denv (u_id u) pos in
  if negb (err =? 0) then goto_out err
  else
    match k with
    | None => goto_out 1
    | Some k =>
        if negb (pos =? k_p k) then goto_out 1
        else if u_inode_unpacked u then
          if negb (k_type k =? KEY_TYPE_inode_v2 denv) &&
             negb (k_type k =? KEY_TYPE_inode_v3 denv)
          then goto_out 0
          else
            let '(r, inode) := bch2_inode_unpack denv k in
            if negb (r =? 0) then goto_out r
            else
              match write_field (u_op u) inode (u_size u)
                      (Z.to_nat (u_offset u)) (u_value u) with
              | None => None
              | Some inode' =>
                  let r := bch2_inode_write_ret denv inode' in
                  let r := if negb (r =? 0) then r
                           else bch2_trans_commit_ret denv in
                  Some (mk_outcome r (Some inode') None)
              end
        else if negb (u_bkey u =? k_type k) then goto_out 0
        else
          let e := bch2_bkey_make_mut_noupdate_err denv k in
          if negb (e =? 0) then goto_out e
          else
            match write_field (u_op u) (k_v k) (u_size u)
                    (Z.to_nat (u_offset u)) (u_value u) with
            | None => None
            | Some v' =>
                let n := mk_bkey (k_p k) (k_type k) v' in
                Some (mk_outcome (bch2_btree_insert_ret denv (u_id u) n)
                                 None (Some n))
            end
    end.

(** ** The fsck command: splicing the fsck file descriptor *)

(** What [read] returned: an error with [errno == EAGAIN] or another one,
    or the bytes read (none at end of file). *)
Inductive read_result : Type :=
| ReadError (r : Z) (eagain : bool)
| ReadBytes (bytes : list Z).

(** How a run of [do_splice] ends: it returns, [die] exits the process, the
    loop is still running when the supply of [write] results ends, or a
    [write] claimed more bytes than it was given. *)
Inductive splice_result : Type :=
| Returned (r : Z) (written : list Z)
| Died (written : list Z)
| Running (written : list Z)
| Overrun.

(** The [do ... while (r)] loop.  [b] is the part of the buffer not yet
    written, [ws] the successive return values of [write], [written] what
    has reached [wfd]. *)
Fixpoint write_loop (ws : list Z) (b : list Z) (written : list Z)
    : splice_result :=
  match ws with
  | [] => Running written
  | w :: ws' =>
      if w <? 0 then Died written
      else if Z.of_nat (List.length b) <? w then Overrun
      else
        let written := written ++ firstn (Z.to_nat w) b in
        let b := skipn (Z.to_nat w) b in
        match b with
        | [] => Returned 0 written
        | _ :: _ => write_loop ws' b written
        end
  end.

(** [do_splice] *)
Definition do_splice (rd : read_result) (ws : list Z) : splice_result :=
  match rd with
  | ReadError r eagain => if eagain then Returned 0 [] else Returned r []
  | ReadBytes [] => Returned 1 []
  | ReadBytes b => write_loop ws b []
  end.

(** The [write] results [ws] are all positive and together cover [n]
    bytes, none claiming more than is left. *)
Fixpoint covers (ws : list Z) (n : nat) : Prop :=
  match ws with
  | [] => False
  | w :: ws' =>
      0 < w <= Z.of_nat n /\
      (Z.to_nat w = n \/ covers ws' (n - Z.to_nat w))
  end.

(** ** Sample keys *)
Module DebugExamples.

(** A key of type 3 at position 5 with an eight-byte value. *)
Definition key_5 : bkey := mk_bkey 5 3 [1; 2; 3; 4; 5; 6; 7; 8].

(** Every position holds [key_5]; every call succeeds. *)
Definition denv_key : debug_collaborators :=
  {| bch2_btree_iter_peek := fun _ _ => (0, Some key_5);
     KEY_TYPE_inode_v2 := 10;
     KEY_TYPE_inode_v3 := 11;
     bch2_inode_unpack := fun k => (0, k_v k);
     bch2_inode_write_ret := fun _ => 0;
     bch2_trans_commit_ret := 0;
     bch2_bkey_make_mut_noupdate_err := fun _ => 0;
     bch2_btree_insert_ret := fun _ _ => 0 |}.

(** Set the two bytes at offset 2 of a key of type [ty] in btree 1. *)
Definition set_u16 (ty : Z) : bkey_update :=
  {| u_id := 1; u_bkey := ty; u_op := BKEY_CMD_SET; u_inode_unpacked := false;
     u_offset := 2; u_size := 2; u_value := 43981 |}.

(** The outcome of that update on [key_5]. *)
Definition outcome_set_u16 : update_outcome :=
  Eval vm_compute in
    match cmd_update_bkey denv_key (set_u16 3) 5 with
    | Some o => o
    | None => mk_outcome 0 None None
    end.

End DebugExamples.

(** ** The fsck command: the option string *)

(** [append_opt]: [out->pos] is the length of the text so far. *)
Definition append_opt (out opt : string) : string :=
  if Nat.eqb (String.length out) 0 then (out ++ opt)%string
  else (out ++ "," ++ opt)%string.

(** The [int] that [getopt_long] returns for an option letter. *)
Definition opt_char (letter : string) : Z :=
  match letter with
  | String a EmptyString => Z.of_nat (Ascii.nat_of_ascii a)
  | _ => 0
  end.

(** The four options [cmd_fsck] starts from. *)
Definition fsck_defaults : list string :=
  ["degraded"; "fsck"; "fix_errors=ask"; "read_only"]%string.

(** The [while ((opt = getopt_long(...)) != -1) switch (opt)] loop of
    [cmd_fsck] over the successive results of [getopt_long], each with its
    [optarg].  [inl 16] is the [exit(16)] of [-h]; otherwise the option
    string and the [kernel] flag. *)
Fixpoint fsck_getopt (parsed : list (Z * string)) (opts_str : string)
    (kernel : bool) : Z + string * bool :=
  match parsed with
  | [] => inr (opts_str, kernel)
  | (opt, optarg) :: rest =>
      if (opt =? opt_char "a") || (opt =? opt_char "p") || (opt =? opt_char "y")
      then fsck_getopt rest (append_opt opts_str "fix_errors=yes") kernel
      else if opt =? opt_char "n"
      then fsck_getopt rest
             (append_opt (append_opt opts_str "nochanges") "fix_errors=no")
             kernel
      else if opt =? opt_char "f" then fsck_getopt rest opts_str kernel
      else if opt =? opt_char "o"
      then fsck_getopt rest (append_opt opts_str optarg) kernel
      else if opt =? opt_char "r"
      then fsck_getopt rest (append_opt opts_str "ratelimit_errors") kernel
      else if opt =? opt_char "R"
      then fsck_getopt rest (append_opt opts_str "reconstruct_alloc") kernel
      else if opt =? opt_char "k" then fsck_getopt rest opts_str true
      else if opt =? opt_char "v"
      then fsck_getopt rest (append_opt opts_str "verbose") kernel
      else if opt =? opt_char "h" then inl 16
      else fsck_getopt rest opts_str kernel
  end.

(** The option string [cmd_fsck] has built when the loop ends. *)
Definition fsck_opts (parsed : list (Z * string)) : Z + string * bool :=
  fsck_getopt parsed (fold_left append_opt fsck_defaults ""%string) false.

(** The mount options one command-line option stands for. *)
Definition fsck_selected (o : Z * string) : list string :=
  let '(opt, optarg) := o in
  if (opt =? opt_char "a") || (opt =? opt_char "p") || (opt =? opt_char "y")
  then ["fix_errors=yes"%string]
  else if opt =? opt_char "n" then ["nochanges"; "fix_errors=no"]%string
  else if opt =? opt_char "o" then [optarg]
  else if opt =? opt_char "r" then ["ratelimit_errors"%string]
  else if opt =? opt_char "R" then ["reconstruct_alloc"%string]
  else if opt =? opt_char "v" then ["verbose"%string]
  else [].

(** ** Device management: state changes, offline, online, removal, addition

    The functions below take the slot index [idx] where the C functions take
    the pointer [ca = c->devs[idx]]; an empty slot is a dangling pointer
    ([None]).  Calls for which [event] has no constructor ([bch2_free_super],
    [bch2_dev_journal_exit], [bch2_flag_data_bad], ...) are not traced. *)

(** Collaborators of the device-management and open functions: return codes
    of the calls that leave super.c, and constants of headers outside this
    file's sources.  [bch2_read_super] answers for the path it is given;
    [sb_array_nomem] is the [kcalloc] of [bch2_fs_open] failing. *)
Record dev_collaborators : Type := mk_dev_collab {
  BCH_SB_MEMBERS_MAX : nat;
  BCH_SB_BTREE_NODE_SIZE : bch_sb -> Z;
  bch2_read_super : string -> string + bch_sb;
  bch2_flag_data_bad_ret : nat -> Z;
  bch2_dev_has_data : nat -> Z;
  dynamic_fault_add_no_slot : bool;
  bch2_fs_sb_resize_members_fails : bool;
  bch2_sb_resize_members_fails : bool;
  try_module_get_fails : bool;
  sb_array_nomem : bool
}.

Definition ENOSPC : Z := 28.

(** [c->devs[idx]] *)
Definition dev_at (c : bch_fs) (idx : nat) : option bch_dev :=
  match nth_error (devs c) idx with
  | Some (Some ca) => Some ca
  | _ => None
  end.

(** An update of the record in slot [idx]. *)
Fixpoint update_slot (idx : nat) (f : bch_dev -> bch_dev)
    (ds : list (option bch_dev)) : list (option bch_dev) :=
  match ds, idx with
  | [], _ => []
  | o :: ds', O => option_map f o :: ds'
  | o :: ds', S idx' => o :: update_slot idx' f ds'
  end.

(** A call on the device of slot [idx]: its effect [f] on the record and the
    call [ev] it makes. *)
Definition dev_call (idx : nat) (f : bch_dev -> bch_dev) (ev : nat -> event)
    (c : bch_fs) : bch_fs :=
  log (ev idx) (set_devs (update_slot idx f (devs c)) c).

(** [__bch2_dev_read_only] *)
Definition __bch2_dev_read_only (idx : nat) (c : bch_fs) : bch_fs :=
  let c := dev_call idx (set_moving_gc_thread false) EvMovingGcStop c in
  let c := dev_call idx (set_alloc_thread false) EvAllocatorStop c in
  dev_call idx (set_in_alloc_pool false) EvAllocatorRemove c.

(** A start call on the device of slot [idx] that may fail: the call is
    traced, the worker is marked running when it succeeds. *)
Definition dev_start (idx : nat) (failed : bool) (f : bch_dev -> bch_dev)
    (ev : nat -> event) (err : string) : FsM.M string unit :=
  fun c =>
    let c := log (ev idx) c in
    if failed then (c, inr err)
    else (set_devs (update_slot idx f (devs c)) c, inl tt).

(** [__bch2_dev_read_write]: [None] is
    [BUG_ON(ca->mi.state != BCH_MEMBER_STATE_RW)]; otherwise the instance and
    the returned string. *)
Definition __bch2_dev_read_write (env : collaborators) (idx : nat) (c : bch_fs)
    : option (bch_fs * option string) :=
  match dev_at c idx with
  | None => None
  | Some ca =>
      if negb (member_state_eqb (mi_state (mi ca)) BCH_MEMBER_STATE_RW) then None
      else
        let steps : FsM.M string unit :=
          FsM.lift (dev_call idx (set_in_alloc_pool true) EvAllocatorAdd) ;;;
          FsM.lift bch2_recalc_capacity ;;;
          dev_start idx (bch2_dev_allocator_start_fails env idx)
            (set_alloc_thread true) EvAllocatorStart
            "error starting allocator thread"%string ;;;
          dev_start idx (bch2_moving_gc_start_fails env idx)
            (set_moving_gc_thread true) EvMovingGcStart
            "error starting moving GC thread"%string ;;;
          bch2_tiering_start env "error starting tiering thread"%string in
        match steps c with
        | (c', inl _) => Some (c', None)
        | (c', inr err) => Some (c', Some err)
        end
  end.

(** [SET_BCH_MEMBER_STATE(&mi->members[idx], st)]; [None] when the member
    table has no slot [idx]. *)
Definition SET_BCH_MEMBER_STATE (idx : nat) (st : bch_member_state) (sb : bch_sb)
    : option bch_sb :=
  match nth_error (members sb) idx with
  | None => None
  | Some m =>
      match list_set idx (mk_member (m_uuid m) (m_nbuckets m) (m_bucket_size m)
                                    st (m_last_mount m)) (members sb) with
      | Some ms => Some (set_members ms sb)
      | None => None
      end
  end.

(** [__bch2_dev_set_state]: [None] is a [BUG_ON] or a dangling [ca];
    otherwise the instance and the return code. *)
Definition __bch2_dev_set_state (env : collaborators) (idx : nat)
    (new_state : bch_member_state) (flags : Z) (c : bch_fs)
    : option (bch_fs * Z) :=
  match dev_at c idx with
  | None => None
  | Some ca =>
      if member_state_eqb (mi_state (mi ca)) new_state then Some (c, 0)
      else if negb (bch2_dev_state_allowed env c ca new_state flags)
      then Some (c, - EINVAL)
      else
        let changed :=
          if member_state_eqb new_state BCH_MEMBER_STATE_RW then
            match __bch2_dev_read_write env idx c with
            | None => None
            | Some (c', Some _) => Some (c', false)
            | Some (c', None) => Some (c', true)
            end
          else Some (__bch2_dev_read_only idx c, true) in
        match changed with
        | None => None
        | Some (c', false) => Some (c', - ENOMEM)
        | Some (c', true) =>
            match SET_BCH_MEMBER_STATE idx new_state (disk_sb c') with
            | None => None
            | Some sb => Some (bch2_write_super (set_disk_sb sb c'), 0)
            end
        end
  end.

(** [__bch2_dev_offline]: the device's workers are stopped, its [io_ref] is
    killed and the call waits for [bch2_dev_io_ref_release] to signal
    [offline_complete]; then the superblock handle is released
    ([bch2_free_super] clears [ca->disk_sb.bdev]).  With no I/O in flight the
    release callback runs as the ref of an attached device is killed.  On a
    device with no block device attached the ref is already dead: nothing
    signals the completion and the call does not return ([None]). *)
Definition __bch2_dev_offline (idx : nat) (c : bch_fs) : option bch_fs :=
  match dev_at c idx with
  | None => None
  | Some ca =>
      let c := __bch2_dev_read_only idx c in
      if bdev ca
      then Some (set_devs (update_slot idx (set_bdev false) (devs c)) c)
      else None
  end.

(** [bch2_dev_offline] *)
Definition bch2_dev_offline (env : collaborators) (idx : nat) (flags : Z)
    (c : bch_fs) : option (bch_fs * Z) :=
  match dev_at c idx with
  | None => None
  | Some ca =>
      if negb (bch2_dev_state_allowed env c ca BCH_MEMBER_STATE_FAILED flags)
      then Some (c, - EINVAL)
      else
        let c := __bch2_dev_read_only idx c in
        match __bch2_dev_offline idx c with
        | None => None
        | Some c => Some (c, 0)
        end
  end.

(** [bch2_dev_online]: every error path returns [-EINVAL]. *)
Definition bch2_dev_online (env : collaborators) (denv : dev_collaborators)
    (path : string) (c : bch_fs) : option (bch_fs * Z) :=
  match bch2_read_super denv path with
  | inl _ => Some (c, - EINVAL)
  | inr sb =>
      match bch2_dev_in_fs (disk_sb c) sb with
      | Some _ => Some (c, - EINVAL)
      | None =>
          match __bch2_dev_online env c sb with
          | None => None
          | Some (c, r) =>
              if negb (r =? 0) then Some (c, - EINVAL)
              else
                match dev_at c (sb_dev_idx sb) with
                | None => None
                | Some ca =>
                    if member_state_eqb (mi_state (mi ca)) BCH_MEMBER_STATE_RW then
                      match __bch2_dev_read_write env (sb_dev_idx sb) c with
                      | None => None
                      | Some (c, Some _) => Some (c, - EINVAL)
                      | Some (c, None) => Some (c, 0)
                      end
                    else Some (c, 0)
                end
          end
      end
  end.

(** [memset(&mi->members[idx].uuid, 0, ...)]; [None] when the member table
    has no slot [idx]. *)
Definition zero_member_uuid (idx : nat) (sb : bch_sb) : option bch_sb :=
  match nth_error (members sb) idx with
  | None => None
  | Some m =>
      match list_set idx (mk_member 0 (m_nbuckets m) (m_bucket_size m)
                                    (m_state m) (m_last_mount m)) (members sb) with
      | Some ms => Some (set_members ms sb)
      | None => None
      end
  end.

(** [bch2_dev_stop] and [bch2_dev_free]: the slot is cleared and the record
    released. *)
Definition bch2_dev_stop (idx : nat) (c : bch_fs) : bch_fs :=
  match list_set idx None (devs c) with
  | Some ds => set_devs ds c
  | None => c
  end.

(** [bch2_dev_remove].  [ret] starts as [-EINVAL] and is overwritten by the
    return code of [bch2_flag_data_bad]; the [goto err] taken when the device
    still has data returns that [ret]. *)
Definition bch2_dev_remove (env : collaborators) (denv : dev_collaborators)
    (idx : nat) (flags : Z) (c : bch_fs) : option (bch_fs * Z) :=
  match dev_at c idx with
  | None => None
  | Some ca =>
      if member_state_eqb (mi_state (mi ca)) BCH_MEMBER_STATE_RW
      then Some (c, - EINVAL)
      else if negb (bch2_dev_state_allowed env c ca BCH_MEMBER_STATE_FAILED flags)
      then Some (c, - EINVAL)
      else
        let ret := bch2_flag_data_bad_ret denv idx in
        if negb (ret =? 0) then Some (c, ret)
        else if negb (bch2_dev_has_data denv idx =? 0) then Some (c, ret)
        else
          let c := log EvJournalMeta c in
          match __bch2_dev_offline idx c with
          | None => None
          | Some c =>
              let c := bch2_dev_stop idx c in
              match zero_member_uuid idx (disk_sb c) with
              | None => None
              | Some sb => Some (bch2_write_super (set_disk_sb sb c), 0)
              end
          end
  end.

(** ** Adding a device to a running filesystem *)

(** [bch2_dev_may_add]: [Some None] is [NULL]; the outer [None] is the read
    of [sb_mi->members[sb->dev_idx]] outside the table.  The member table of
    the model is always present. *)
Definition bch2_dev_may_add (denv : dev_collaborators) (sb : bch_sb)
    (c : bch_fs) : option (option string) :=
  if negb (sb_block_size sb =? block_size (opts c))
  then Some (Some "mismatched block size"%string)
  else
    match nth_error (members sb) (sb_dev_idx sb) with
    | None => None
    | Some m =>
        if m_bucket_size m mod 2 ^ 16 <? BCH_SB_BTREE_NODE_SIZE denv (disk_sb c)
        then Some (Some "new cache bucket size is too small"%string)
        else Some None
    end.

(** The slot search of [bch2_dev_add]: the first index below
    [BCH_SB_MEMBERS_MAX] at which no member exists. *)
Definition free_slot (denv : dev_collaborators) (sb : bch_sb) : option nat :=
  find (fun i => negb (bch2_dev_exists sb i))
       (List.seq 0 (BCH_SB_MEMBERS_MAX denv)).

(** [members[idx] = m] on a member table resized to hold slot [idx]: an
    existing entry is overwritten, the entry just past the end is added.
    [None] when the table ends before slot [idx], where the source would
    leave entries it never wrote. *)
Definition store_member (idx : nat) (m : bch_member) (ms : list bch_member)
    : option (list bch_member) :=
  if (idx <? List.length ms)%nat then list_set idx m ms
  else if (idx =? List.length ms)%nat then Some (ms ++ [m])
  else None.

(** The superblock with the member table [ms] and [nr] devices. *)
Definition set_member_table (ms : list bch_member) (nr : nat) (sb : bch_sb)
    : bch_sb :=
  {| uuid := uuid sb; seq := seq sb; sb_block_size := sb_block_size sb;
     sb_dev_idx := sb_dev_idx sb; nr_devices := nr; members := ms;
     sb_opts := sb_opts sb;
     BCH_SB_INITIALIZED := BCH_SB_INITIALIZED sb;
     BCH_SB_CLEAN := BCH_SB_CLEAN sb |}.

(** The new device's own superblock once [bch2_dev_add] has rewritten it:
    the filesystem's UUID and member table, its new slot. *)
Definition added_sb (fs sb : bch_sb) (dev_idx nr : nat) (ms : list bch_member)
    : bch_sb :=
  {| uuid := uuid fs; seq := seq sb; sb_block_size := sb_block_size sb;
     sb_dev_idx := dev_idx; nr_devices := nr; members := ms;
     sb_opts := sb_opts sb;
     BCH_SB_INITIALIZED := BCH_SB_INITIALIZED sb;
     BCH_SB_CLEAN := BCH_SB_CLEAN sb |}.

(** The part of [bch2_dev_add] after [bch2_write_super]: an RW device gets
    its journal buckets and is started.  [ret] is still [-EINVAL] here, so
    both failures return [-EINVAL]. *)
Definition dev_add_start (env : collaborators) (dev_idx : nat) (c : bch_fs)
    : option (bch_fs * Z) :=
  match dev_at c dev_idx with
  | None => None
  | Some ca =>
      if member_state_eqb (mi_state (mi ca)) BCH_MEMBER_STATE_RW then
        let c := log (EvDevJournalAlloc dev_idx) c in
        if bch2_dev_journal_alloc_fails env dev_idx then Some (c, - EINVAL)
        else
          match __bch2_dev_read_write env dev_idx c with
          | None => None
          | Some (c, Some _) => Some (c, - EINVAL)
          | Some (c, None) => Some (c, 0)
          end
      else Some (c, 0)
  end.

(** The part of [bch2_dev_add] from the label [have_slot] on.  The new
    member information is committed to the instance's superblock before the
    device record is allocated.  [c->devs] has [BCH_SB_MEMBERS_MAX] slots in
    the source; the model keeps as many as the superblock has devices. *)
Definition dev_add_commit (env : collaborators) (denv : dev_collaborators)
    (sb : bch_sb) (saved_mi : bch_member) (dev_idx : nat) (c : bch_fs)
    : option (bch_fs * Z) :=
  let nr := Nat.max (S dev_idx) (nr_devices (disk_sb c)) in
  if bch2_fs_sb_resize_members_fails denv then Some (c, - EINVAL)
  else if bch2_sb_resize_members_fails denv then Some (c, - EINVAL)
  else
    match store_member dev_idx saved_mi (members (disk_sb c)) with
    | None => None
    | Some ms =>
        let sb' := added_sb (disk_sb c) sb dev_idx nr ms in
        let c := set_disk_sb (set_member_table ms nr (disk_sb c)) c in
        let c := set_devs (devs c ++ repeat None (nr - List.length (devs c))) c in
        match bch2_dev_alloc env c dev_idx with
        | Undefined => None
        | Err _ => Some (c, - ENOMEM)
        | Ok c =>
            match __bch2_dev_online env c sb' with
            | None => None
            | Some (c, r) =>
                if negb (r =? 0) then Some (c, - ENOMEM)
                else dev_add_start env dev_idx (bch2_write_super c)
            end
        end
    end.

(** [saved_mi = dev_mi->members[sb.sb->dev_idx];
     saved_mi.last_mount = cpu_to_le64(ktime_get_seconds());] *)
Definition saved_member (env : collaborators) (m : bch_member) : bch_member :=
  mk_member (m_uuid m) (m_nbuckets m) (m_bucket_size m) (m_state m)
            (ktime_get_seconds env).

(** [bch2_dev_add]: [None] is a [BUG_ON] or undefined behaviour; otherwise
    the instance and the return code. *)
Definition bch2_dev_add (env : collaborators) (denv : dev_collaborators)
    (path : string) (c : bch_fs) : option (bch_fs * Z) :=
  match bch2_read_super denv path with
  | inl _ => Some (c, - EINVAL)
  | inr sb =>
      match bch2_sb_validate_err env sb with
      | Some _ => Some (c, - EINVAL)
      | None =>
          match bch2_dev_may_add denv sb c with
          | None => None
          | Some (Some _) => Some (c, - EINVAL)
          | Some None =>
              match nth_error (members sb) (sb_dev_idx sb) with
              | None => None
              | Some m =>
                  let saved_mi := saved_member env m in
                  if dynamic_fault_add_no_slot denv then Some (c, - ENOSPC)
                  else
                    match free_slot denv (disk_sb c) with
                    | None => Some (c, - ENOSPC)
                    | Some dev_idx =>
                        dev_add_commit env denv sb saved_mi dev_idx c
                    end
              end
          end
      end
  end.

(** ** Opening a filesystem from a set of devices *)

(** The first loop of [bch2_fs_open]: every device's superblock is read and
    validated, in order; the first error ends the loop. *)
Fixpoint read_supers (env : collaborators) (denv : dev_collaborators)
    (devices : list string) : string + list bch_sb :=
  match devices with
  | [] => inr []
  | d :: rest =>
      match bch2_read_super denv d with
      | inl err => inl err
      | inr sb =>
          match bch2_sb_validate_err env sb with
          | Some err => inl err
          | None =>
              match read_supers env denv rest with
              | inl err => inl err
              | inr sbs => inr (sb :: sbs)
              end
          end
      end
  end.

(** [for (i = 1; i < nr_devices; i++) if (sb[i].seq > sb[best_sb].seq)
    best_sb = i;] *)
Definition best_sb (sbs : list bch_sb) : nat :=
  fold_left (fun best i =>
               if seq (nth best sbs zero_sb) <? seq (nth i sbs zero_sb)
               then i else best)
            (List.seq 1 (List.length sbs - 1)) 0%nat.

(** [for (...) { err = f(x); if (err) goto err; }] *)
Fixpoint first_err {A : Type} (f : A -> option string) (l : list A)
    : option string :=
  match l with
  | [] => None
  | x :: rest =>
      match f x with
      | Some err => Some err
      | None => first_err f rest
      end
  end.

(** [for (i = 0; i < nr_devices; i++) if (__bch2_dev_online(c, &sb[i]))
    goto err;]: [None] is the [BUG_ON] of [__bch2_dev_online]; the flag says
    whether every device was attached. *)
Fixpoint online_each (env : collaborators) (c : bch_fs) (sbs : list bch_sb)
    : option (bch_fs * bool) :=
  match sbs with
  | [] => Some (c, true)
  | sb :: rest =>
      match __bch2_dev_online env c sb with
      | None => None
      | Some (c', r) =>
          if negb (r =? 0) then Some (c', false) else online_each env c' rest
      end
  end.

(** The [err:] label of [bch2_fs_open] once the instance exists:
    [bch2_fs_stop(c)]. *)
Definition fs_open_err (w : registry) (c : bch_fs) (err : string)
    : option (registry * option string) :=
  match bch2_fs_stop c (bch_fs_list w) with
  | None => None
  | Some (l, _) => Some (mk_registry l (next_ptr w), Some err)
  end.

(** [bch2_fs_open]: [None] is a [BUG_ON] or undefined behaviour on the way;
    otherwise the registry after the call and the returned string ([None]
    for [NULL]).  On success the new instance is the head of the list. *)
Definition bch2_fs_open (env : collaborators) (denv : dev_collaborators)
    (devices : list string) (o : bch_opts) (w : registry)
    : option (registry * option string) :=
  match devices with
  | [] => Some (w, Some "need at least one device"%string)
  | _ :: _ =>
      if try_module_get_fails denv then Some (w, Some "module unloading"%string)
      else if sb_array_nomem denv
      then Some (w, Some "cannot allocate memory"%string)
      else
        match read_supers env denv devices with
        | inl err => Some (w, Some err)
        | inr sbs =>
            let best := nth (best_sb sbs) sbs zero_sb in
            match first_err (bch2_dev_in_fs best) sbs with
            | Some err => Some (w, Some err)
            | None =>
                match bch2_fs_alloc env (next_ptr w) best o with
                | Err _ => Some (w, Some "cannot allocate memory"%string)
                | Undefined => None
                | Ok c =>
                    let w := mk_registry (bch_fs_list w) (S (next_ptr w)) in
                    match online_each env c sbs with
                    | None => None
                    | Some (c, false) =>
                        fs_open_err w c "bch2_dev_online() error"%string
                    | Some (c, true) =>
                        match bch2_fs_may_start env c with
                        | None => None
                        | Some false =>
                            fs_open_err w c "insufficient devices"%string
                        | Some true =>
                            let res :=
                              if nostart (opts c) =? 0
                              then __bch2_fs_start env c
                              else Some (c, None) in
                            match res with
                            | None => None
                            | Some (c, Some err) => fs_open_err w c err
                            | Some (c, None) =>
                                match __bch2_fs_online env c (bch_fs_list w) with
                                | (l, None) =>
                                    Some (mk_registry l (next_ptr w), None)
                                | (_, Some err) => fs_open_err w c err
                                end
                            end
                        end
                    end
                end
            end
        end
  end.

(** Every device record sits in the slot its [dev_idx] names
    ([bch2_dev_alloc] stores [ca->dev_idx = dev_idx] and publishes the record
    in [c->devs[dev_idx]]). *)
Definition slots_ok (ds : list (option bch_dev)) : Prop :=
  forall j ca, nth_error ds j = Some (Some ca) -> dev_idx ca = j.

(** The calls [__bch2_dev_read_only] makes on the device of slot [idx]. *)
Definition dev_stop_events (idx : nat) : list event :=
  [EvMovingGcStop idx; EvAllocatorStop idx; EvAllocatorRemove idx].

(** The calls of a successful [__bch2_dev_read_write]. *)
Definition dev_start_events (idx : nat) : list event :=
  [EvAllocatorAdd idx; EvRecalcCapacity; EvAllocatorStart idx;
   EvMovingGcStart idx; EvTieringStart].

(** The device is detached and none of its workers runs. *)
Definition dev_stopped (ca : bch_dev) : Prop :=
  in_alloc_pool ca = false /\ alloc_thread ca = false /\
  moving_gc_thread ca = false.

(** The device is attached, in the allocation pool, and its workers run. *)
Definition dev_running (ca : bch_dev) : Prop :=
  bdev ca = true /\ in_alloc_pool ca = true /\ alloc_thread ca = true /\
  moving_gc_thread ca = true.

(** What a successful [__bch2_dev_read_write] does to the device record. *)
Definition start_dev (ca : bch_dev) : bch_dev :=
  set_moving_gc_thread true (set_alloc_thread true (set_in_alloc_pool true ca)).

(** What a successful [__bch2_dev_online] does to the device record. *)
Definition attach_dev (ca : bch_dev) : bch_dev :=
  if is_rw ca then set_in_alloc_pool true (set_bdev true ca)
  else set_bdev true ca.

(** The calls of a successful [__bch2_dev_online] on the record [ca]. *)
Definition dev_attach_events (ca : bch_dev) : list event :=
  [EvDevJournalInit (dev_idx ca); EvMarkDevMetadata (dev_idx ca)] ++
  (if is_rw ca then [EvAllocatorAdd (dev_idx ca)] else []).

(** ** Vocabulary of the lifecycle properties *)

(** The last call recorded in the trace is [e]. *)
Definition ends_with (e : event) (c : bch_fs) : Prop :=
  exists tr, trace c = tr ++ [e].

(** What [__bch2_fs_start] leaves behind when it returns NULL on an instance
    with options [o]: the state the [read_only] option asks for, no error
    mark, and a superblock marked initialised and not clean, written last. *)
Definition started (o : bch_opts) (c : bch_fs) : Prop :=
  state c = (if read_only o =? 0 then BCH_FS_RW else BCH_FS_RO) /\
  test_bit BCH_FS_ERROR (flags c) = false /\
  BCH_SB_INITIALIZED (disk_sb c) = true /\
  BCH_SB_CLEAN (disk_sb c) = false /\
  ends_with EvWriteSuper c.

(** What [__bch2_fs_start] leaves behind when it returns an error string on
    an instance whose superblock was [sb]: the state is still STARTING, the
    error mark is set and the superblock is untouched. *)
Definition start_failed (sb : bch_sb) (c : bch_fs) : Prop :=
  state c = BCH_FS_STARTING /\
  test_bit BCH_FS_ERROR (flags c) = true /\
  disk_sb c = sb.

(** The calls of a completed [bch2_fs_read_write] on an instance that was in
    state [st] and whose attached RW members sit in the slots [idxs]. *)
Definition read_write_events (st : bch_fs_state) (idxs : list nat) : list event :=
  map EvAllocatorAdd idxs ++ [EvRecalcCapacity] ++
  map EvAllocatorStart idxs ++ [EvGcThreadStart] ++
  map EvMovingGcStart idxs ++ [EvTieringStart; EvSchedulePdControllers] ++
  (if fs_state_eqb st BCH_FS_STARTING then [] else [EvWritesReinit]).

(** Every worker of the instance runs: the GC and tiering workers, and for
    every RW member that has a block device attached the allocator and
    moving-GC workers, the member being in the allocation pool.  Nothing is
    said of a member without a block device. *)
Definition all_workers_running (c : bch_fs) : Prop :=
  gc_thread c = true /\ tiering_thread c = true /\
  forall i ca,
    dev_at c i = Some ca -> bdev ca = true -> is_rw ca = true ->
    in_alloc_pool ca = true /\ alloc_thread ca = true /\
    moving_gc_thread ca = true.

(** The instance is quiescent when RO and fully running when RW; the write
    gate [c->writes] is open outside RO. *)
Definition lifecycle_ok (c : bch_fs) : Prop :=
  match state c with
  | BCH_FS_STARTING => writes_live c = true
  | BCH_FS_RW => writes_live c = true /\ all_workers_running c
  | BCH_FS_RO => writes_live c = false /\ no_worker_running c
  | BCH_FS_STOPPING => True
  end.

(** The record [bch2_dev_alloc] builds for slot [i] from the member table of
    [sb]: it carries the slot and the member's UUID, caches the member's
    information, and is detached and stopped. *)
Definition fresh_record (sb : bch_sb) (i : nat) (ca : bch_dev) : Prop :=
  dev_idx ca = i /\ bdev ca = false /\ dev_stopped ca /\
  exists m, nth_error (members sb) i = Some m /\
            mi ca = bch2_mi_to_cpu m /\ dev_uuid ca = m_uuid m.

(** Slot [i] of the device table [ds] is as [bch2_fs_alloc] leaves it: a
    fresh record when the member exists in [sb], empty when it does not. *)
Definition slot_allocated (sb : bch_sb) (ds : list (option bch_dev)) (i : nat)
    : Prop :=
  match nth_error ds i with
  | Some (Some ca) => bch2_dev_exists sb i = true /\ fresh_record sb i ca
  | Some None => bch2_dev_exists sb i = false
  | None => False
  end.

(** What [bch2_dev_add] has committed to the instance [c'] when it got past
    its slot search on [c]: the member [m] sits in slot [idx] of the
    superblock's table, the other entries are as before, the table covers
    the slot, and no other device record was touched. *)
Definition member_committed (c c' : bch_fs) (idx : nat) (m : bch_member)
    : Prop :=
  nth_error (members (disk_sb c')) idx = Some m /\
  (forall j, j <> idx ->
     nth_error (members (disk_sb c')) j = nth_error (members (disk_sb c)) j) /\
  nr_devices (disk_sb c') = Nat.max (S idx) (nr_devices (disk_sb c)) /\
  (forall j, j <> idx -> dev_at c' j = dev_at c j).

(** The record of a device that was added successfully. *)
Definition device_added (c' : bch_fs) (idx : nat) (m : bch_member) : Prop :=
  exists ca,
    dev_at c' idx = Some ca /\ bdev ca = true /\ dev_idx ca = idx /\
    mi ca = bch2_mi_to_cpu m /\ (is_rw ca = true -> dev_running ca).

(** ** Sample devices *)
Module DevExamples.

Definition denv_ok : dev_collaborators :=
  {| BCH_SB_MEMBERS_MAX := 64;
     BCH_SB_BTREE_NODE_SIZE := fun _ => 512;
     bch2_read_super := fun _ => inr (Examples.sb_two 0);
     bch2_flag_data_bad_ret := fun _ => 0;
     bch2_dev_has_data := fun _ => 0;
     dynamic_fault_add_no_slot := false;
     bch2_fs_sb_resize_members_fails := false;
     bch2_sb_resize_members_fails := false;
     try_module_get_fails := false;
     sb_array_nomem := false |}.

(** As [denv_ok], but every device still holds data. *)
Definition denv_has_data : dev_collaborators :=
  {| BCH_SB_MEMBERS_MAX := 64;
     BCH_SB_BTREE_NODE_SIZE := fun _ => 512;
     bch2_read_super := fun _ => inr (Examples.sb_two 0);
     bch2_flag_data_bad_ret := fun _ => 0;
     bch2_dev_has_data := fun _ => 1;
     dynamic_fault_add_no_slot := false;
     bch2_fs_sb_resize_members_fails := false;
     bch2_sb_resize_members_fails := false;
     try_module_get_fails := false;
     sb_array_nomem := false |}.

(** A running device: attached, in the pool, workers started. *)
Definition dev_up (idx : nat) (st : bch_member_state) : bch_dev :=
  set_moving_gc_thread true
    (set_alloc_thread true (set_in_alloc_pool true (Examples.dev idx st))).

(** A mounted two-device filesystem: device 0 is RW and running, device 1
    is RO. *)
Definition fs_mixed : bch_fs :=
  {| fs_ptr := 0; state := BCH_FS_RW; flags := 0;
     opts := Examples.opts_one_replica;
     sb_uuid := 7;
     disk_sb :=
       {| uuid := 7; seq := 1; sb_block_size := 8; sb_dev_idx := 0;
          nr_devices := 2;
          members := [Examples.member_rw 11 4096;
                      mk_member 12 65536 1024 BCH_MEMBER_STATE_RO 0];
          sb_opts := Examples.opts_empty;
          BCH_SB_INITIALIZED := true; BCH_SB_CLEAN := false |};
     devs := [Some (dev_up 0 BCH_MEMBER_STATE_RW);
              Some (Examples.dev 1 BCH_MEMBER_STATE_RO)];
     journal_halted := false; gc_thread := true; tiering_thread := true;
     writes_live := true; pd_controllers_update := true;
     read_only_work := false; trace := [] |}.


(** A degraded two-device filesystem in state RO: both devices are RW
    members, device 1 has no block device attached. *)
Definition fs_degraded : bch_fs :=
  set_devs [Some (Examples.dev 0 BCH_MEMBER_STATE_RW);
            Some (set_bdev false (Examples.dev 1 BCH_MEMBER_STATE_RW))]
           (Examples.fs_rw_devs BCH_FS_RO 0 Examples.opts_one_replica 2).

(** As [fs_mixed], but device 1 has no block device attached. *)
Definition fs_ro_detached : bch_fs :=
  set_devs [Some (dev_up 0 BCH_MEMBER_STATE_RW);
            Some (set_bdev false (Examples.dev 1 BCH_MEMBER_STATE_RO))]
           fs_mixed.

(** [fs_mixed] after device 0 has been set RO. *)
Definition fs_mixed_ro : bch_fs :=
  Eval vm_compute in
    match __bch2_dev_set_state Examples.env_ok 0 BCH_MEMBER_STATE_RO 0 fs_mixed with
    | Some (c, _) => c
    | None => fs_mixed
    end.

(** As [Examples.env_ok], but no set of devices is ever enough. *)
Definition env_never_enough : collaborators :=
  {| BTREE_NODE_RESERVE := 8;
     BTREE_ID_NR := 5;
     BTREE_ID_ALLOC := 4;
     bch2_opts_default := Examples.opts_one_replica;
     bch2_fs_init_fault := fun _ => false;
     dev_alloc_nomem := fun _ => false;
     fs_alloc_nomem := false;
     bch2_dev_allocator_start_fails := fun _ => false;
     bch2_gc_thread_start_fails := false;
     bch2_moving_gc_start_fails := fun _ => false;
     bch2_tiering_start_fails := false;
     bch2_have_enough_devs := fun _ _ => false;
     bch2_journal_read_ret := 0;
     bch2_journal_find_btree_root := fun _ => true;
     bch2_btree_root_read_fails := fun _ => false;
     bch2_alloc_read_ret := 0;
     bch2_initial_gc_ret := 0;
     bch2_btree_root_alloc_fails := fun _ => false;
     bch2_journal_replay_ret := 0;
     bch2_fsck_ret := 0;
     bch2_dev_journal_alloc_fails := fun _ => false;
     bch2_btree_insert_fails := false;
     bch2_journal_meta_fails := false;
     bch2_dev_journal_init_ret := fun _ => 0;
     bch2_sb_validate_err := fun _ => None;
     bch2_fs_chardev_init_fails := false;
     kobject_add_fails := false;
     bch2_dev_sysfs_online_fails := fun _ => false;
     ktime_get_seconds := 1000 |}.

(** [fs_mixed] after device 0 has been taken offline. *)
Definition fs_mixed_offline : bch_fs :=
  Eval vm_compute in
    match bch2_dev_offline Examples.env_ok 0 0 fs_mixed with
    | Some (c, _) => c
    | None => fs_mixed
    end.

(** The record of device 0 in [fs_mixed_offline]. *)
Definition dev0_offline : bch_dev :=
  Eval vm_compute in
    match dev_at fs_mixed_offline 0 with
    | Some ca => ca
    | None => Examples.dev 0 BCH_MEMBER_STATE_RW
    end.

(** The instance listed in [Examples.registry_two]. *)
Definition fs_listed : bch_fs :=
  Eval vm_compute in
    match bch_fs_list Examples.registry_two with
    | c :: _ => c
    | [] => zeroed_fs 0
    end.

(** [fs_mixed_offline] after device 0 has been attached again by
    [__bch2_dev_online]. *)
Definition fs_mixed_reattached : bch_fs :=
  Eval vm_compute in
    match __bch2_dev_online Examples.env_ok fs_mixed_offline (Examples.sb_two 0) with
    | Some (c, _) => c
    | None => fs_mixed_offline
    end.

(** Two paths, one per device of the two-device filesystem. *)
Definition denv_two : dev_collaborators :=
  {| BCH_SB_MEMBERS_MAX := 64;
     BCH_SB_BTREE_NODE_SIZE := fun _ => 512;
     bch2_read_super := fun path =>
       if String.eqb path "/dev/sdb" then inr (Examples.sb_two 1)
       else inr (Examples.sb_two 0);
     bch2_flag_data_bad_ret := fun _ => 0;
     bch2_dev_has_data := fun _ => 0;
     dynamic_fault_add_no_slot := false;
     bch2_fs_sb_resize_members_fails := false;
     bch2_sb_resize_members_fails := false;
     try_module_get_fails := false;
     sb_array_nomem := false |}.

(** The registry after [bch2_fs_open] of both devices. *)
Definition registry_opened : registry :=
  Eval vm_compute in
    match bch2_fs_open Examples.env_ok denv_two ["/dev/sda"; "/dev/sdb"]%string
            Examples.opts_empty (mk_registry [] 0) with
    | Some (w, _) => w
    | None => mk_registry [] 0
    end.

(** [fs_mixed] after device 1 has been removed. *)
Definition fs_removed : bch_fs :=
  Eval vm_compute in
    match bch2_dev_remove Examples.env_ok denv_ok 1 0 fs_mixed with
    | Some (c, _) => c
    | None => fs_mixed
    end.

(** As [Examples.env_ok], but no device record can be allocated. *)
Definition env_no_dev_alloc : collaborators :=
  {| BTREE_NODE_RESERVE := 8;
     BTREE_ID_NR := 5;
     BTREE_ID_ALLOC := 4;
     bch2_opts_default := Examples.opts_one_replica;
     bch2_fs_init_fault := fun _ => false;
     dev_alloc_nomem := fun _ => true;
     fs_alloc_nomem := false;
     bch2_dev_allocator_start_fails := fun _ => false;
     bch2_gc_thread_start_fails := false;
     bch2_moving_gc_start_fails := fun _ => false;
     bch2_tiering_start_fails := false;
     bch2_have_enough_devs := fun _ _ => true;
     bch2_journal_read_ret := 0;
     bch2_journal_find_btree_root := fun _ => true;
     bch2_btree_root_read_fails := fun _ => false;
     bch2_alloc_read_ret := 0;
     bch2_initial_gc_ret := 0;
     bch2_btree_root_alloc_fails := fun _ => false;
     bch2_journal_replay_ret := 0;
     bch2_fsck_ret := 0;
     bch2_dev_journal_alloc_fails := fun _ => false;
     bch2_btree_insert_fails := false;
     bch2_journal_meta_fails := false;
     bch2_dev_journal_init_ret := fun _ => 0;
     bch2_sb_validate_err := fun _ => None;
     bch2_fs_chardev_init_fails := false;
     kobject_add_fails := false;
     bch2_dev_sysfs_online_fails := fun _ => false;
     ktime_get_seconds := 1000 |}.

(** [fs_removed] after a [bch2_dev_add] whose record allocation failed. *)
Definition fs_add_failed : bch_fs :=
  Eval vm_compute in
    match bch2_dev_add env_no_dev_alloc denv_two "/dev/sdb" fs_removed with
    | Some (c, _) => c
    | None => fs_removed
    end.

(** [fs_removed] after a successful [bch2_dev_add]. *)
Definition fs_added : bch_fs :=
  Eval vm_compute in
    match bch2_dev_add Examples.env_ok denv_two "/dev/sdb" fs_removed with
    | Some (c, _) => c
    | None => fs_removed
    end.

(** As [denv_two], but the member table has room for two members only. *)
Definition denv_full : dev_collaborators :=
  {| BCH_SB_MEMBERS_MAX := 2;
     BCH_SB_BTREE_NODE_SIZE := fun _ => 512;
     bch2_read_super := fun _ => inr (Examples.sb_two 1);
     bch2_flag_data_bad_ret := fun _ => 0;
     bch2_dev_has_data := fun _ => 0;
     dynamic_fault_add_no_slot := false;
     bch2_fs_sb_resize_members_fails := false;
     bch2_sb_resize_members_fails := false;
     try_module_get_fails := false;
     sb_array_nomem := false |}.

End DevExamples.

(** * Properties *)

(** Reduce the field updates of an instance given by its constructor. *)
Ltac fs_norm :=
  cbv [set_state set_flags set_opts set_sb_uuid set_disk_sb set_devs
       set_journal_halted set_gc_thread set_tiering_thread set_writes_live
       set_pd_controllers_update set_read_only_work set_trace log log_events
       fs_ptr state flags opts sb_uuid disk_sb devs journal_halted gc_thread
       tiering_thread writes_live pd_controllers_update read_only_work trace].

(** Equations between lists that differ by the bracketing of [++]. *)
Ltac reassoc :=
  repeat first [rewrite <- app_assoc | rewrite app_nil_r | progress simpl];
  reflexivity.

(** ** Flag words *)

Lemma flag_nr_nonneg (f : bch_fs_flag) : 0 <= flag_nr f.
Proof. destruct f; simpl; lia. Qed.

Lemma flag_nr_inj (f g : bch_fs_flag) : flag_nr f = flag_nr g -> f = g.
Proof. destruct f, g; simpl; intros H; try reflexivity; discriminate H. Qed.

Lemma test_bit_set_bit_same (f : bch_fs_flag) (w : Z) :
  test_bit f (set_bit f w) = true.
Proof. unfold test_bit, set_bit. apply Z.setbit_eq, flag_nr_nonneg. Qed.

Lemma test_bit_set_bit_other (f g : bch_fs_flag) (w : Z) :
  f <> g -> test_bit f (set_bit g w) = test_bit f w.
Proof.
  intros Hfg. unfold test_bit, set_bit. apply Z.setbit_neq.
  - apply flag_nr_nonneg.
  - intros H. apply Hfg. symmetry. now apply flag_nr_inj.
Qed.

Lemma test_bit_clear_bit_other (f g : bch_fs_flag) (w : Z) :
  f <> g -> test_bit f (clear_bit g w) = test_bit f w.
Proof.
  intros Hfg. unfold test_bit, clear_bit. apply Z.clearbit_neq.
  intros H. apply Hfg. symmetry. now apply flag_nr_inj.
Qed.

Lemma test_bit_clear_bit_same (f : bch_fs_flag) (w : Z) :
  test_bit f (clear_bit f w) = false.
Proof. unfold test_bit, clear_bit. apply Z.clearbit_eq. Qed.

(** ** Slot arrays *)

Lemma list_set_nth_error {A : Type} (i : nat) (x : A) (l l' : list A) :
  list_set i x l = Some l' -> nth_error l' i = Some x.
Proof.
  revert i l'. induction l as [|y l IH]; intros i l' H.
  - destruct i; discriminate H.
  - destruct i as [|i]; simpl in H.
    + injection H as <-. reflexivity.
    + destruct (list_set i x l) as [r|] eqn:E; [|discriminate H].
      injection H as <-. simpl. now apply IH.
Qed.

Lemma list_set_length {A : Type} (i : nat) (x : A) (l l' : list A) :
  list_set i x l = Some l' -> List.length l' = List.length l.
Proof.
  revert i l'. induction l as [|y l IH]; intros i l' H.
  - destruct i; discriminate H.
  - destruct i as [|i]; simpl in H.
    + injection H as <-. reflexivity.
    + destruct (list_set i x l) as [r|] eqn:E; [|discriminate H].
      injection H as <-. simpl. f_equal. now apply IH with (i := i).
Qed.

Lemma list_set_other {A : Type} (i j : nat) (x : A) (l l' : list A) :
  list_set i x l = Some l' -> j <> i -> nth_error l' j = nth_error l j.
Proof.
  revert i j l'. induction l as [|y l IH]; intros i j l' H Hj.
  - destruct i; discriminate H.
  - destruct i as [|i]; simpl in H.
    + injection H as <-. destruct j; [contradiction|reflexivity].
    + destruct (list_set i x l) as [r|] eqn:E; [|discriminate H].
      injection H as <-. destruct j; [reflexivity|]. simpl.
      apply (IH i); [exact E|]. intros ->. now apply Hj.
Qed.

(** ** Reserve sizes *)

Lemma to_u64_range (z : Z) : 0 <= to_u64 z < 2 ^ 64.
Proof. unfold to_u64. apply Z.mod_pos_bound. lia. Qed.

Lemma movinggc_reserve_of_u64 (n : Z) :
  0 <= n < 2 ^ 64 -> movinggc_reserve_of n = Z.max 16 (n / 128).
Proof.
  intros Hn. unfold movinggc_reserve_of, to_size_t, size_t_max.
  rewrite Z.shiftr_div_pow2 by lia. change (2 ^ 7) with 128.
  assert (0 <= n / 128 < 2 ^ 64).
  { split; [apply Z.div_pos; lia|]. apply Z.div_lt_upper_bound; lia. }
  rewrite (Z.mod_small 16) by lia. rewrite Z.mod_small by lia. reflexivity.
Qed.

Lemma reserve_none_of_u64 (n : Z) :
  0 <= n < 2 ^ 64 -> reserve_none_of n = Z.max 4 (n / 512).
Proof.
  intros Hn. unfold reserve_none_of, to_size_t, size_t_max.
  rewrite Z.shiftr_div_pow2 by lia. change (2 ^ 9) with 512.
  assert (0 <= n / 512 < 2 ^ 64).
  { split; [apply Z.div_pos; lia|]. apply Z.div_lt_upper_bound; lia. }
  rewrite (Z.mod_small 4) by lia. rewrite Z.mod_small by lia. reflexivity.
Qed.

Lemma heap_size_of_movinggc (n : Z) :
  0 <= n < 2 ^ 64 ->
  heap_size_of (movinggc_reserve_of n) = 8 * movinggc_reserve_of n.
Proof.
  intros Hn. rewrite movinggc_reserve_of_u64 by assumption.
  unfold heap_size_of, to_size_t, size_t_max.
  assert (0 <= n / 128 < 2 ^ 57).
  { split; [apply Z.div_pos; lia|]. apply Z.div_lt_upper_bound; lia. }
  rewrite Z.mod_small by lia. lia.
Qed.

(** C9: [bch2_dev_alloc] for slot [idx] stores in [c->devs[idx]] a record
    built from the member entry [idx] of the superblock: it carries the slot
    index and the member's UUID, and [ca->mi] is [bch2_mi_to_cpu] of the
    entry, so its bucket count [n] is the member's (a [u64]).  The record
    has a moving-GC reserve of [max(16, n/128)], a general-purpose reserve of
    [max(4, n/512)], a [free_inc] reserve of half the moving-GC reserve,
    which is strictly smaller than it, and a copygc heap of 8 times the
    moving-GC reserve.  The superblock and the other slots are untouched. *)
Theorem bch2_dev_alloc_reserve_sizes
    (env : collaborators) (c c' : bch_fs) (idx : nat) :
  bch2_dev_alloc env c idx = Ok c' ->
  exists (member : bch_member) (ca : bch_dev),
    nth_error (members (disk_sb c)) idx = Some member /\
    nth_error (devs c') idx = Some (Some ca) /\
    dev_idx ca = idx /\
    dev_uuid ca = m_uuid member /\
    mi ca = bch2_mi_to_cpu member /\
    nbuckets (mi ca) = m_nbuckets member mod 2 ^ 64 /\
    free_movinggc ca = Z.max 16 (nbuckets (mi ca) / 128) /\
    free_none ca = Z.max 4 (nbuckets (mi ca) / 512) /\
    free_inc ca = free_movinggc ca / 2 /\
    free_inc ca < free_movinggc ca /\
    copygc_heap ca = 8 * free_movinggc ca /\
    disk_sb c' = disk_sb c /\
    (forall j, j <> idx -> nth_error (devs c') j = nth_error (devs c) j).
Proof.
  unfold bch2_dev_alloc. intros H.
  destruct (bch2_fs_init_fault env "dev_alloc"); [discriminate H|].
  destruct (nth_error (members (disk_sb c)) idx) as [member|]; [|discriminate H].
  destruct ((btree_node_size (opts c) =? 0) ||
            (bucket_size (bch2_mi_to_cpu member) / btree_node_size (opts c) =? 0));
    [discriminate H|].
  destruct (dev_alloc_nomem env idx); [discriminate H|].
  match type of H with
  | match list_set idx (Some ?d) _ with _ => _ end = _ => set (ca := d) in *
  end.
  destruct (list_set idx (Some ca) (devs c)) as [ds|] eqn:E; [|discriminate H].
  injection H as <-. exists member, ca. simpl.
  pose proof (to_u64_range (m_nbuckets member)) as Hn.
  split; [reflexivity|].
  split; [now apply list_set_nth_error with (l := devs c)|].
  split; [reflexivity|]. split; [reflexivity|]. split; [reflexivity|].
  split; [reflexivity|].
  rewrite heap_size_of_movinggc, movinggc_reserve_of_u64, reserve_none_of_u64
    by assumption.
  unfold free_inc_reserve_of.
  assert (0 <= to_u64 (m_nbuckets member) / 128)
    by (apply Z.div_pos; lia).
  split; [reflexivity|]. split; [reflexivity|]. split; [reflexivity|].
  split; [apply Z.div_lt; lia|]. split; [reflexivity|].
  split; [reflexivity|].
  intros j Hj. now apply (list_set_other _ _ _ _ _ E).
Qed.

(** The member entry 1 of [Examples.sb_two] has 65536 buckets: its record
    gets a moving-GC reserve of 512. *)
Lemma bch2_dev_alloc_reserve_sizes_witness :
  bch2_dev_alloc Examples.env_ok Examples.fs_noreplay 1 = Ok Examples.fs_realloc /\
  exists ca : bch_dev,
    nth_error (devs Examples.fs_realloc) 1 = Some (Some ca) /\
    dev_idx ca = 1%nat /\ dev_uuid ca = 12 /\
    nbuckets (mi ca) = 65536 /\
    free_movinggc ca = 512 /\ free_none ca = 128 /\ free_inc ca = 256 /\
    copygc_heap ca = 4096.
Proof.
  assert (Halloc : bch2_dev_alloc Examples.env_ok Examples.fs_noreplay 1 =
                   Ok Examples.fs_realloc) by (vm_compute; reflexivity).
  split; [exact Halloc|].
  destruct (bch2_dev_alloc_reserve_sizes
              Examples.env_ok Examples.fs_noreplay Examples.fs_realloc 1 Halloc)
    as (member & ca & Hm & Hca & Hidx & Hu & _ & Hn & Hmg & Hnone & Hinc & _ &
        Hheap & _).
  exists ca.
  assert (Em : member = Examples.member_rw 12 65536)
    by (vm_compute in Hm; now injection Hm as <-).
  subst member.
  assert (En : nbuckets (mi ca) = 65536) by (rewrite Hn; reflexivity).
  rewrite En in Hmg, Hnone.
  rewrite Hinc, Hheap, Hmg.
  repeat split; assumption || reflexivity.
Defined.

(** ** The membership state-change guard *)

Lemma bch2_dev_state_allowed_ro_eq (env : collaborators) (c : bch_fs)
    (ca : bch_dev) (flags : Z) :
  mi_state (mi ca) = BCH_MEMBER_STATE_RW ->
  bch2_dev_state_allowed env c ca BCH_MEMBER_STATE_RO flags =
  (count_rw c - 1 <=? required_replicas c flags).
Proof. unfold bch2_dev_state_allowed. now intros ->. Qed.

(** C1: what the code does where the claim fails.  C1 says that an RW
    device may go RO only if the other RW devices are at least as many as
    the replicas wanted.  The code compares the other way round
    ([nr_rw - 1 <= required]): with two replicas wanted and no force flag,
    a device of a two-RW-device instance (one other RW device, fewer than
    two) is allowed to go RO, as is one of three, and a device of a
    four-RW-device instance (three others) is refused. *)
Theorem bch2_dev_state_allowed_ro_inverted :
  let two := Examples.fs_rw_devs BCH_FS_RW 0 Examples.opts_two_replicas 2 in
  let three := Examples.fs_rw_devs BCH_FS_RW 0 Examples.opts_two_replicas 3 in
  let four := Examples.fs_rw_devs BCH_FS_RW 0 Examples.opts_two_replicas 4 in
  let ca := Examples.dev 0 BCH_MEMBER_STATE_RW in
  required_replicas two 0 = 2 /\
  count_rw two = 2 /\
  bch2_dev_state_allowed Examples.env_ok two ca BCH_MEMBER_STATE_RO 0 = true /\
  count_rw three = 3 /\
  bch2_dev_state_allowed Examples.env_ok three ca BCH_MEMBER_STATE_RO 0 = true /\
  count_rw four = 4 /\
  bch2_dev_state_allowed Examples.env_ok four ca BCH_MEMBER_STATE_RO 0 = false.
Proof. vm_compute. repeat split. Qed.

(** ** The RW -> RO teardown *)

Lemma member_devices_map (f : bch_dev -> bch_dev) (ds : list (option bch_dev)) :
  member_devices (map (option_map f) ds) = map f (member_devices ds).
Proof.
  induction ds as [|[ca|] ds IH]; simpl; [reflexivity| |assumption].
  now rewrite IH.
Qed.

Lemma member_idxs_map (f : bch_dev -> bch_dev) (ds : list (option bch_dev)) :
  (forall ca, dev_idx (f ca) = dev_idx ca) ->
  map dev_idx (member_devices (map (option_map f) ds)) =
  map dev_idx (member_devices ds).
Proof.
  intros Hf. rewrite member_devices_map, map_map.
  apply map_ext. exact Hf.
Qed.

Lemma map_event_map (ev : nat -> event) (l : list bch_dev) :
  map (fun ca => ev (dev_idx ca)) l = map ev (map dev_idx l).
Proof. now rewrite map_map. Qed.

Lemma __bch2_fs_read_only_eq (c : bch_fs) :
  __bch2_fs_read_only c =
  mk_fs (fs_ptr c) (state c) (flags c) (opts c) (sb_uuid c) (disk_sb c)
        (map (option_map stop_dev) (devs c))
        (journal_halted c) false false (writes_live c)
        (pd_controllers_update c) (read_only_work c)
        (trace c ++ teardown_events c).
Proof.
  destruct c as [p st fl o u sb ds jh gc tier wl pd row tr].
  unfold __bch2_fs_read_only, teardown_events, member_idxs,
    for_each_member_device, bch2_fs_journal_stop, bch2_btree_verify_flushed,
    bch2_journal_flush_pins, bch2_gc_thread_stop, bch2_tiering_stop,
    bch2_journal_error.
  destruct jh; fs_norm; cbn [negb];  fs_norm;
    rewrite !map_event_map, ?member_idxs_map by reflexivity;
    rewrite !map_map, <- !app_assoc; f_equal;
    apply map_ext; intros [ca|]; reflexivity.
Qed.

Lemma __bch2_fs_read_only_trace (c : bch_fs) :
  trace (__bch2_fs_read_only c) = trace c ++ teardown_events c.
Proof. now rewrite __bch2_fs_read_only_eq. Qed.

Lemma __bch2_fs_read_only_state (c : bch_fs) :
  state (__bch2_fs_read_only c) = state c.
Proof. now rewrite __bch2_fs_read_only_eq. Qed.

Lemma __bch2_fs_read_only_flags (c : bch_fs) :
  flags (__bch2_fs_read_only c) = flags c.
Proof. now rewrite __bch2_fs_read_only_eq. Qed.

Lemma __bch2_fs_read_only_disk_sb (c : bch_fs) :
  disk_sb (__bch2_fs_read_only c) = disk_sb c.
Proof. now rewrite __bch2_fs_read_only_eq. Qed.

Lemma __bch2_fs_read_only_journal_halted (c : bch_fs) :
  journal_halted (__bch2_fs_read_only c) = journal_halted c.
Proof. now rewrite __bch2_fs_read_only_eq. Qed.

Lemma precedes_app_l (a b : event) (pre tr : list event) :
  precedes a b tr -> precedes a b (pre ++ tr).
Proof.
  intros (l1 & l2 & l3 & ->). exists (pre ++ l1), l2, l3.
  now rewrite <- app_assoc.
Qed.

Lemma precedes_app_r (a b : event) (tr post : list event) :
  precedes a b tr -> precedes a b (tr ++ post).
Proof.
  intros (l1 & l2 & l3 & ->). exists l1, l2, (l3 ++ post).
  rewrite <- ?app_assoc; simpl; rewrite <- ?app_assoc; reflexivity.
Qed.

Lemma precedes_split (a b : event) (l r : list event) :
  In a l -> In b r -> precedes a b (l ++ r).
Proof.
  intros Ha Hb.
  apply in_split in Ha as (l1 & l2 & ->).
  apply in_split in Hb as (r1 & r2 & ->).
  exists l1, (l2 ++ r1), r2.
  rewrite <- ?app_assoc; simpl; rewrite <- ?app_assoc; reflexivity.
Qed.

(** C4: the calls of [__bch2_fs_read_only] are, in order: stop tiering,
    stop the moving GC of every member device, stop the GC thread, flush the
    journal pins, (verify that the btree is flushed, when the journal is not
    in error,) stop the allocator of every member device, stop the journal,
    remove every member device from the allocation pool.  Hence the flush
    comes after the tiering, moving-GC and GC-thread stops and before every
    allocator stop, the journal stop follows the allocator stops, and the
    removal of the reserves from the pool ends the teardown. *)
Theorem __bch2_fs_read_only_order (c : bch_fs) :
  let evs := teardown_events c in
  trace (__bch2_fs_read_only c) = trace c ++ evs /\
  evs = [EvTieringStop] ++ map EvMovingGcStop (member_idxs c) ++
        [EvGcThreadStop; EvJournalFlushPins] ++
        (if bch2_journal_error c then [] else [EvBtreeVerifyFlushed]) ++
        map EvAllocatorStop (member_idxs c) ++
        [EvJournalStop] ++
        map EvAllocatorRemove (member_idxs c) /\
  precedes EvTieringStop EvJournalFlushPins evs /\
  precedes EvGcThreadStop EvJournalFlushPins evs /\
  (forall d, In d (member_idxs c) ->
     precedes (EvMovingGcStop d) EvJournalFlushPins evs /\
     precedes EvJournalFlushPins (EvAllocatorStop d) evs /\
     precedes (EvAllocatorStop d) EvJournalStop evs /\
     precedes EvJournalStop (EvAllocatorRemove d) evs) /\
  exists before, evs = before ++ map EvAllocatorRemove (member_idxs c).
Proof.
  intros evs. split; [apply __bch2_fs_read_only_trace|].
  split; [reflexivity|].
  subst evs. unfold teardown_events, bch2_journal_error.
  set (idxs := member_idxs c).
  set (verify := if journal_halted c then [] else [EvBtreeVerifyFlushed]).
  split.
  { exists [], (map EvMovingGcStop idxs ++ [EvGcThreadStop]),
      (verify ++ map EvAllocatorStop idxs ++ [EvJournalStop] ++
       map EvAllocatorRemove idxs).
    reassoc. }
  split.
  { exists ([EvTieringStop] ++ map EvMovingGcStop idxs), [],
      (verify ++ map EvAllocatorStop idxs ++ [EvJournalStop] ++
       map EvAllocatorRemove idxs).
    reassoc. }
  split.
  { intros d Hd. repeat split.
    - apply (precedes_app_l _ _ [EvTieringStop]).
      apply precedes_split; [now apply in_map|].
      simpl. auto.
    - apply (precedes_app_l _ _ [EvTieringStop]).
      apply (precedes_app_l _ _ (map EvMovingGcStop idxs)).
      apply precedes_split; [simpl; auto|].
      apply in_or_app. right. apply in_or_app. left. now apply in_map.
    - apply (precedes_app_l _ _ [EvTieringStop]).
      apply (precedes_app_l _ _ (map EvMovingGcStop idxs)).
      apply (precedes_app_l _ _ [EvGcThreadStop; EvJournalFlushPins]).
      apply (precedes_app_l _ _ verify).
      apply precedes_split; [now apply in_map|]. simpl. auto.
    - apply (precedes_app_l _ _ [EvTieringStop]).
      apply (precedes_app_l _ _ (map EvMovingGcStop idxs)).
      apply (precedes_app_l _ _ [EvGcThreadStop; EvJournalFlushPins]).
      apply (precedes_app_l _ _ verify).
      apply (precedes_app_l _ _ (map EvAllocatorStop idxs)).
      apply precedes_split; [simpl; auto|]. now apply in_map. }
  exists ([EvTieringStop] ++ map EvMovingGcStop idxs ++
          [EvGcThreadStop; EvJournalFlushPins] ++ verify ++
          map EvAllocatorStop idxs ++ [EvJournalStop]).
  reassoc.
Qed.

(** ** The RO -> RW transition *)

Lemma is_rw_key (ca cb : bch_dev) : dev_key ca = dev_key cb -> is_rw ca = is_rw cb.
Proof. unfold dev_key, is_rw. intros H. injection H as _ -> _. reflexivity. Qed.

Lemma is_online_rw_key (ca cb : bch_dev) :
  dev_key ca = dev_key cb -> is_online_rw ca = is_online_rw cb.
Proof.
  unfold dev_key, is_online_rw, is_rw. intros H. injection H as _ -> ->.
  reflexivity.
Qed.

Lemma keeps_key_on_rw (f : bch_dev -> bch_dev) : keeps_key f -> keeps_key (on_rw f).
Proof.
  intros Hf ca. unfold on_rw. destruct (is_online_rw ca); [apply Hf|reflexivity].
Qed.

Lemma slot_keys_map (f : bch_dev -> bch_dev) (ds : list (option bch_dev)) :
  keeps_key f -> slot_keys (map (option_map f) ds) = slot_keys ds.
Proof.
  intros Hf. unfold slot_keys. rewrite map_map. apply map_ext.
  intros [ca|]; simpl; [now rewrite Hf|reflexivity].
Qed.

Lemma rw_idxs_keys (ds ds' : list (option bch_dev)) :
  slot_keys ds = slot_keys ds' ->
  map dev_idx (rw_members ds) = map dev_idx (rw_members ds').
Proof.
  unfold rw_members. revert ds'.
  induction ds as [|[ca|] ds IH]; intros [|[cb|] ds'] H; simpl in H;
    try discriminate H; try reflexivity.
  - injection H as Hidx Hmi Hbdev Hrest. simpl.
    assert (Hrw : is_online_rw ca = is_online_rw cb)
      by (unfold is_online_rw, is_rw; now rewrite Hmi, Hbdev).
    rewrite Hrw. destruct (is_online_rw cb); simpl.
    + f_equal; [assumption|now apply IH].
    + now apply IH.
  - injection H as Hrest. simpl. now apply IH.
Qed.

Lemma member_idxs_keys (ds ds' : list (option bch_dev)) :
  slot_keys ds = slot_keys ds' ->
  map dev_idx (member_devices ds) = map dev_idx (member_devices ds').
Proof.
  revert ds'.
  induction ds as [|[ca|] ds IH]; intros [|[cb|] ds'] H; simpl in H;
    try discriminate H; try reflexivity.
  - injection H as Hidx _ _ Hrest. simpl.
    f_equal; [assumption|now apply IH].
  - injection H as Hrest. simpl. now apply IH.
Qed.

Lemma try_each_rw_keys (fails : nat -> bool) (f : bch_dev -> bch_dev)
    (ev : nat -> event) (ds : list (option bch_dev)) :
  keeps_key f ->
  slot_keys (fst (fst (try_each_rw fails f ev ds))) = slot_keys ds.
Proof.
  intros Hf. induction ds as [|[ca|] ds IH]; simpl; [reflexivity| |].
  - destruct (is_online_rw ca).
    + destruct (fails (dev_idx ca)); [reflexivity|].
      destruct (try_each_rw fails f ev ds) as [[r evs] ok]. simpl in *.
      now rewrite Hf, IH.
    + destruct (try_each_rw fails f ev ds) as [[r evs] ok]. simpl in *.
      now rewrite IH.
  - destruct (try_each_rw fails f ev ds) as [[r evs] ok]. simpl in *.
    now rewrite IH.
Qed.

Lemma try_each_rw_ok (fails : nat -> bool) (f : bch_dev -> bch_dev)
    (ev : nat -> event) (ds : list (option bch_dev)) :
  snd (try_each_rw fails f ev ds) =
  negb (existsb fails (map dev_idx (rw_members ds))).
Proof.
  unfold rw_members.
  induction ds as [|[ca|] ds IH]; simpl; [reflexivity| |].
  - destruct (is_online_rw ca); simpl.
    + destruct (fails (dev_idx ca)); [reflexivity|].
      destruct (try_each_rw fails f ev ds) as [[r evs] ok]. simpl in *.
      exact IH.
    + destruct (try_each_rw fails f ev ds) as [[r evs] ok]. exact IH.
  - destruct (try_each_rw fails f ev ds) as [[r evs] ok]. exact IH.
Qed.

Lemma __bch2_fs_read_only_no_worker (c : bch_fs) :
  no_worker_running (__bch2_fs_read_only c).
Proof.
  rewrite __bch2_fs_read_only_eq. unfold no_worker_running. simpl.
  split; [reflexivity|]. split; [reflexivity|].
  rewrite member_devices_map. apply Forall_map.
  apply Forall_forall. intros ca _. split; reflexivity.
Qed.

Lemma keeps_key_set_alloc_thread (v : bool) : keeps_key (set_alloc_thread v).
Proof. intros ca. reflexivity. Qed.

Lemma keeps_key_set_moving_gc_thread (v : bool) : keeps_key (set_moving_gc_thread v).
Proof. intros ca. reflexivity. Qed.

Lemma keeps_key_set_in_alloc_pool (v : bool) : keeps_key (set_in_alloc_pool v).
Proof. intros ca. reflexivity. Qed.

Lemma bch2_fs_read_write_steps_spec (env : collaborators) (c : bch_fs) :
  let r := bch2_fs_read_write_steps env c in
  flags (fst r) = flags c /\
  (fs_ptr (fst r) = fs_ptr c /\ sb_uuid (fst r) = sb_uuid c /\
   disk_sb (fst r) = disk_sb c /\ opts (fst r) = opts c /\
   slot_keys (devs (fst r)) = slot_keys (devs c)) /\
  match rw_start_failure env c with
  | Some e => snd r = inr e /\ state (fst r) = state c
  | None => snd r = inl tt /\ state (fst r) = BCH_FS_RW
  end.
Proof.
  destruct c as [p st fl o u sb ds jh gc tier wl pd row tr].
  unfold rw_start_failure, rw_idxs, bch2_fs_read_write_steps.
  unfold FsM.bind, FsM.lift, for_each_rw_member_try, add_rw_allocators,
    bch2_recalc_capacity, for_each_rw_member, bch2_gc_thread_start,
    bch2_tiering_start, percpu_ref_reinit_writes.
  fs_norm.
  set (ds0 := map (option_map (on_rw (set_in_alloc_pool true))) ds).
  assert (K0 : slot_keys ds0 = slot_keys ds)
    by (apply slot_keys_map, keeps_key_on_rw, keeps_key_set_in_alloc_pool).
  pose proof (try_each_rw_ok (bch2_dev_allocator_start_fails env)
                (set_alloc_thread true) EvAllocatorStart ds0) as Hok1.
  pose proof (try_each_rw_keys (bch2_dev_allocator_start_fails env)
                (set_alloc_thread true) EvAllocatorStart ds0
                (keeps_key_set_alloc_thread true)) as K1.
  destruct (try_each_rw (bch2_dev_allocator_start_fails env)
              (set_alloc_thread true) EvAllocatorStart ds0) as [[ds1 evs1] ok1].
  simpl in Hok1, K1. rewrite (rw_idxs_keys ds0 ds K0) in Hok1.
  destruct (existsb (bch2_dev_allocator_start_fails env)
              (map dev_idx (rw_members ds))); simpl in Hok1; subst ok1.
  { simpl. rewrite ?K2, ?K1, ?K0. auto 10. }
  fs_norm.
  destruct (bch2_gc_thread_start_fails env).
  { simpl. rewrite ?K2, ?K1, ?K0. auto 10. }
  fs_norm.
  pose proof (try_each_rw_ok (bch2_moving_gc_start_fails env)
                (set_moving_gc_thread true) EvMovingGcStart ds1) as Hok2.
  pose proof (try_each_rw_keys (bch2_moving_gc_start_fails env)
                (set_moving_gc_thread true) EvMovingGcStart ds1
                (keeps_key_set_moving_gc_thread true)) as K2.
  destruct (try_each_rw (bch2_moving_gc_start_fails env)
              (set_moving_gc_thread true) EvMovingGcStart ds1) as [[ds2 evs2] ok2].
  simpl in Hok2, K2.
  rewrite (rw_idxs_keys ds1 ds) in Hok2 by (now rewrite K1).
  destruct (existsb (bch2_moving_gc_start_fails env)
              (map dev_idx (rw_members ds))); simpl in Hok2; subst ok2.
  { simpl. rewrite ?K2, ?K1, ?K0. auto 10. }
  fs_norm.
  destruct (bch2_tiering_start_fails env).
  { simpl. rewrite ?K2, ?K1, ?K0. auto 10. }
  fs_norm. destruct st; simpl; rewrite ?K2, ?K1, ?K0; auto 10.
Qed.

Lemma rw_start_failure_descriptive (env : collaborators) (c : bch_fs) (err : string) :
  rw_start_failure env c = Some err ->
  In err ["error starting allocator thread"%string;
          "error starting btree GC thread"%string;
          "error starting moving GC thread"%string;
          "error starting tiering thread"%string].
Proof.
  unfold rw_start_failure. intros H.
  destruct (existsb (bch2_dev_allocator_start_fails env) (rw_idxs c));
    [injection H as <-; simpl; auto|].
  destruct (bch2_gc_thread_start_fails env);
    [injection H as <-; simpl; auto|].
  destruct (existsb (bch2_moving_gc_start_fails env) (rw_idxs c));
    [injection H as <-; simpl; auto|].
  destruct (bch2_tiering_start_fails env);
    [injection H as <-; simpl; auto 6|discriminate H].
Qed.

Lemma bch2_fs_read_write_enters (c : bch_fs) :
  state c = BCH_FS_STARTING \/ state c = BCH_FS_RO ->
  negb (fs_state_eqb (state c) BCH_FS_STARTING) &&
  negb (fs_state_eqb (state c) BCH_FS_RO) = false.
Proof. intros [-> | ->]; reflexivity. Qed.

Lemma try_each_rw_events (fails : nat -> bool) (f : bch_dev -> bch_dev)
    (ev : nat -> event) (ds : list (option bch_dev)) :
  snd (fst (try_each_rw fails f ev ds)) =
  map ev (upto_first fails (map dev_idx (rw_members ds))).
Proof.
  unfold rw_members.
  induction ds as [|[ca|] ds IH]; simpl; [reflexivity| |].
  - destruct (is_online_rw ca); simpl.
    + destruct (fails (dev_idx ca)); [reflexivity|].
      destruct (try_each_rw fails f ev ds) as [[r evs] ok]. simpl in *.
      now rewrite IH.
    + destruct (try_each_rw fails f ev ds) as [[r evs] ok]. exact IH.
  - destruct (try_each_rw fails f ev ds) as [[r evs] ok]. exact IH.
Qed.

(** A loop of starts changes nothing that the teardown does not undo. *)
Lemma try_each_rw_stopped (fails : nat -> bool) (f : bch_dev -> bch_dev)
    (ev : nat -> event) (ds : list (option bch_dev)) :
  (forall ca, stop_dev (f ca) = stop_dev ca) ->
  map (option_map stop_dev) (fst (fst (try_each_rw fails f ev ds))) =
  map (option_map stop_dev) ds.
Proof.
  intros Hf. induction ds as [|[ca|] ds IH]; simpl; [reflexivity| |].
  - destruct (is_online_rw ca).
    + destruct (fails (dev_idx ca)); [reflexivity|].
      destruct (try_each_rw fails f ev ds) as [[r evs] ok]. simpl in *.
      now rewrite Hf, IH.
    + destruct (try_each_rw fails f ev ds) as [[r evs] ok]. simpl in *.
      now rewrite IH.
  - destruct (try_each_rw fails f ev ds) as [[r evs] ok]. simpl in *.
    now rewrite IH.
Qed.

Lemma on_rw_stopped (f : bch_dev -> bch_dev) (ds : list (option bch_dev)) :
  (forall ca, stop_dev (f ca) = stop_dev ca) ->
  map (option_map stop_dev) (map (option_map (on_rw f)) ds) =
  map (option_map stop_dev) ds.
Proof.
  intros Hf. rewrite map_map. apply map_ext. intros [ca|]; [|reflexivity].
  simpl. unfold on_rw. destruct (is_online_rw ca); [now rewrite Hf|reflexivity].
Qed.

(** The instance [bch2_fs_read_write] hands to the teardown when a start
    fails: the instance it was called on, with some workers started and the
    calls made so far recorded. *)
Lemma bch2_fs_read_write_steps_failed (env : collaborators) (c : bch_fs)
    (err : string) :
  rw_start_failure env c = Some err ->
  exists ds gc tier,
    bch2_fs_read_write_steps env c =
    (mk_fs (fs_ptr c) (state c) (flags c) (opts c) (sb_uuid c) (disk_sb c) ds
           (journal_halted c) gc tier (writes_live c)
           (pd_controllers_update c) (read_only_work c)
           (trace c ++ failed_start_events env (rw_idxs c)), inr err) /\
    slot_keys ds = slot_keys (devs c) /\
    map (option_map stop_dev) ds = map (option_map stop_dev) (devs c).
Proof.
  destruct c as [p st fl o u sb ds jh gc tier wl pd row tr].
  unfold rw_start_failure, failed_start_events, rw_idxs,
    bch2_fs_read_write_steps.
  unfold FsM.bind, FsM.lift, for_each_rw_member_try, add_rw_allocators,
    bch2_recalc_capacity, for_each_rw_member, bch2_gc_thread_start,
    bch2_tiering_start, percpu_ref_reinit_writes.
  fs_norm.
  set (idxs := map dev_idx (rw_members ds)).
  set (ds0 := map (option_map (on_rw (set_in_alloc_pool true))) ds).
  assert (K0 : slot_keys ds0 = slot_keys ds)
    by (apply slot_keys_map, keeps_key_on_rw, keeps_key_set_in_alloc_pool).
  assert (S0 : map (option_map stop_dev) ds0 = map (option_map stop_dev) ds)
    by (apply on_rw_stopped; intros ca; reflexivity).
  assert (A0 : map (fun ca => EvAllocatorAdd (dev_idx ca)) (rw_members ds) =
               map EvAllocatorAdd idxs)
    by (unfold idxs; now rewrite map_map).
  rewrite A0.
  pose proof (try_each_rw_ok (bch2_dev_allocator_start_fails env)
                (set_alloc_thread true) EvAllocatorStart ds0) as Hok1.
  pose proof (try_each_rw_keys (bch2_dev_allocator_start_fails env)
                (set_alloc_thread true) EvAllocatorStart ds0
                (keeps_key_set_alloc_thread true)) as K1.
  pose proof (try_each_rw_events (bch2_dev_allocator_start_fails env)
                (set_alloc_thread true) EvAllocatorStart ds0) as E1.
  pose proof (try_each_rw_stopped (bch2_dev_allocator_start_fails env)
                (set_alloc_thread true) EvAllocatorStart ds0
                (fun ca => eq_refl)) as S1.
  destruct (try_each_rw (bch2_dev_allocator_start_fails env)
              (set_alloc_thread true) EvAllocatorStart ds0) as [[ds1 evs1] ok1].
  cbn [fst snd] in Hok1, K1, E1, S1.
  rewrite (rw_idxs_keys ds0 ds K0) in Hok1, E1. fold idxs in Hok1, E1.
  subst evs1 ok1.
  destruct (existsb (bch2_dev_allocator_start_fails env) idxs); cbn [negb].
  { intros [= <-]. exists ds1, gc, tier. fs_norm.
    split; [do 2 f_equal; reassoc|]. split; congruence. }
  fs_norm.
  destruct (bch2_gc_thread_start_fails env).
  { intros [= <-]. exists ds1, gc, tier. fs_norm.
    split; [do 2 f_equal; reassoc|]. split; congruence. }
  fs_norm.
  pose proof (try_each_rw_ok (bch2_moving_gc_start_fails env)
                (set_moving_gc_thread true) EvMovingGcStart ds1) as Hok2.
  pose proof (try_each_rw_keys (bch2_moving_gc_start_fails env)
                (set_moving_gc_thread true) EvMovingGcStart ds1
                (keeps_key_set_moving_gc_thread true)) as K2.
  pose proof (try_each_rw_events (bch2_moving_gc_start_fails env)
                (set_moving_gc_thread true) EvMovingGcStart ds1) as E2.
  pose proof (try_each_rw_stopped (bch2_moving_gc_start_fails env)
                (set_moving_gc_thread true) EvMovingGcStart ds1
                (fun ca => eq_refl)) as S2.
  destruct (try_each_rw (bch2_moving_gc_start_fails env)
              (set_moving_gc_thread true) EvMovingGcStart ds1) as [[ds2 evs2] ok2].
  cbn [fst snd] in Hok2, K2, E2, S2.
  rewrite (rw_idxs_keys ds1 ds) in Hok2, E2 by (now rewrite K1).
  fold idxs in Hok2, E2. subst evs2 ok2.
  destruct (existsb (bch2_moving_gc_start_fails env) idxs); cbn [negb].
  { intros [= <-]. exists ds2, true, tier. fs_norm.
    split; [do 2 f_equal; reassoc|]. split; congruence. }
  fs_norm.
  destruct (bch2_tiering_start_fails env); [|discriminate].
  intros [= <-]. exists ds2, true, tier. fs_norm.
  split; [do 2 f_equal; reassoc|]. split; congruence.
Qed.

(** C3: when a step of the RO/STARTING -> RW transition fails (the allocator
    start of some visited device, the GC thread start, the moving-GC start of
    some visited device or the tiering start), [bch2_fs_read_write] leaves
    for its [err:] label with the instance [c1]: the instance it was called
    on, with the same devices in the same slots and, recorded after the
    calls made before, the pool additions and the starts up to the failing
    one.  It then runs the full teardown [__bch2_fs_read_only] on [c1] and
    returns the non-NULL string of the failed step.  In the instance
    returned, the teardown calls follow the start calls, every device record
    is the one from before the call with its workers stopped and out of the
    pool, the state is the one before the call, not RW, no worker is left
    running, and flags, options and superblock are untouched. *)
Theorem bch2_fs_read_write_failure_rolls_back
    (env : collaborators) (c : bch_fs) (err : string) :
  state c = BCH_FS_STARTING \/ state c = BCH_FS_RO ->
  rw_start_failure env c = Some err ->
  exists c1 : bch_fs,
    bch2_fs_read_write_steps env c = (c1, inr err) /\
    trace c1 = trace c ++ failed_start_events env (rw_idxs c) /\
    slot_keys (devs c1) = slot_keys (devs c) /\
    bch2_fs_read_write env c = (__bch2_fs_read_only c1, Some err) /\
    trace (__bch2_fs_read_only c1) = trace c1 ++ teardown_events c1 /\
    trace (__bch2_fs_read_only c1) =
      trace c ++ failed_start_events env (rw_idxs c) ++ teardown_events c /\
    devs (__bch2_fs_read_only c1) = map (option_map stop_dev) (devs c) /\
    In err ["error starting allocator thread"%string;
            "error starting btree GC thread"%string;
            "error starting moving GC thread"%string;
            "error starting tiering thread"%string] /\
    state (__bch2_fs_read_only c1) = state c /\
    state (__bch2_fs_read_only c1) <> BCH_FS_RW /\
    no_worker_running (__bch2_fs_read_only c1) /\
    flags (__bch2_fs_read_only c1) = flags c /\
    opts (__bch2_fs_read_only c1) = opts c /\
    disk_sb (__bch2_fs_read_only c1) = disk_sb c /\
    writes_live (__bch2_fs_read_only c1) = writes_live c.
Proof.
  intros Hst Hfail.
  destruct (bch2_fs_read_write_steps_failed env c err Hfail)
    as (ds & gc & tier & Hsteps & Hkeys & Hstop).
  unfold bch2_fs_read_write. rewrite (bch2_fs_read_write_enters c Hst).
  rewrite Hsteps. eexists. split; [reflexivity|].
  assert (Hidx : map dev_idx (member_devices ds) = member_idxs c)
    by (now apply member_idxs_keys).
  rewrite __bch2_fs_read_only_eq.
  unfold teardown_events, member_idxs.
  cbn [fs_ptr state flags opts sb_uuid disk_sb devs journal_halted gc_thread
       tiering_thread writes_live pd_controllers_update read_only_work trace].
  rewrite Hidx, Hstop. fold (member_idxs c).
  split; [reflexivity|]. split; [exact Hkeys|].
  split; [reflexivity|]. split; [reflexivity|].
  split; [now rewrite <- app_assoc|]. split; [reflexivity|].
  split; [now apply rw_start_failure_descriptive with (env := env) (c := c)|].
  split; [reflexivity|].
  split; [destruct Hst as [-> | ->]; discriminate|].
  split; [|now repeat split].
  split; [reflexivity|]. split; [reflexivity|].
  cbn [devs]. rewrite member_devices_map. apply Forall_map.
  apply Forall_forall. intros ca _. split; reflexivity.
Qed.

Lemma bch2_fs_read_write_failure_rolls_back_witness :
  let c := Examples.fs_rw_devs BCH_FS_RO 0 Examples.opts_one_replica 2 in
  exists c1 : bch_fs,
    bch2_fs_read_write_steps Examples.env_allocator_1_fails c =
      (c1, inr "error starting allocator thread"%string) /\
    trace c1 =
      trace c ++ failed_start_events Examples.env_allocator_1_fails (rw_idxs c) /\
    slot_keys (devs c1) = slot_keys (devs c) /\
    bch2_fs_read_write Examples.env_allocator_1_fails c =
      (__bch2_fs_read_only c1, Some "error starting allocator thread"%string) /\
    trace (__bch2_fs_read_only c1) = trace c1 ++ teardown_events c1 /\
    trace (__bch2_fs_read_only c1) =
      trace c ++ failed_start_events Examples.env_allocator_1_fails (rw_idxs c) ++
      teardown_events c /\
    devs (__bch2_fs_read_only c1) = map (option_map stop_dev) (devs c) /\
    In "error starting allocator thread"%string
       ["error starting allocator thread"%string;
        "error starting btree GC thread"%string;
        "error starting moving GC thread"%string;
        "error starting tiering thread"%string] /\
    state (__bch2_fs_read_only c1) = state c /\
    state (__bch2_fs_read_only c1) <> BCH_FS_RW /\
    no_worker_running (__bch2_fs_read_only c1) /\
    flags (__bch2_fs_read_only c1) = flags c /\
    opts (__bch2_fs_read_only c1) = opts c /\
    disk_sb (__bch2_fs_read_only c1) = disk_sb c /\
    writes_live (__bch2_fs_read_only c1) = writes_live c.
Proof.
  apply (bch2_fs_read_write_failure_rolls_back
           Examples.env_allocator_1_fails
           (Examples.fs_rw_devs BCH_FS_RO 0 Examples.opts_one_replica 2)
           "error starting allocator thread"%string).
  - right. reflexivity.
  - reflexivity.
Defined.

(** C2 (as the code has it): [bch2_fs_read_write] does not look at the ERROR
    flag.  On an instance in state STARTING or RO with ERROR set, the call
    moves the state to RW and returns NULL when every worker start succeeds,
    and leaves the state as it was and returns the step's string when a
    start fails; the ERROR flag stays set either way. *)
Theorem bch2_fs_read_write_with_error_flag (env : collaborators) (c : bch_fs) :
  test_bit BCH_FS_ERROR (flags c) = true ->
  state c = BCH_FS_STARTING \/ state c = BCH_FS_RO ->
  let r := bch2_fs_read_write env c in
  test_bit BCH_FS_ERROR (flags (fst r)) = true /\
  (rw_start_failure env c = None ->
   state (fst r) = BCH_FS_RW /\ snd r = None) /\
  (forall err, rw_start_failure env c = Some err ->
   state (fst r) = state c /\ snd r = Some err).
Proof.
  intros Herr Hst.
  pose proof (bch2_fs_read_write_steps_spec env c) as Hspec.
  unfold bch2_fs_read_write. rewrite (bch2_fs_read_write_enters c Hst).
  simpl in Hspec.
  destruct (bch2_fs_read_write_steps env c) as [c1 r1].
  simpl in Hspec. destruct Hspec as (Hfl & _ & Hspec).
  destruct (rw_start_failure env c) as [e|]; destruct Hspec as (-> & Hstate);
    cbn [fst snd].
  - rewrite __bch2_fs_read_only_flags, __bch2_fs_read_only_state, Hfl.
    split; [assumption|]. split; [discriminate|].
    intros err [= <-]. split; [assumption|reflexivity].
  - rewrite Hfl. split; [assumption|]. split; [auto|discriminate].
Qed.

Lemma bch2_fs_read_write_with_error_flag_witness :
  let c := Examples.fs_rw_devs BCH_FS_RO (set_bit BCH_FS_ERROR 0)
             Examples.opts_one_replica 2 in
  let r := bch2_fs_read_write Examples.env_ok c in
  test_bit BCH_FS_ERROR (flags (fst r)) = true /\
  (rw_start_failure Examples.env_ok c = None ->
   state (fst r) = BCH_FS_RW /\ snd r = None) /\
  (forall err, rw_start_failure Examples.env_ok c = Some err ->
   state (fst r) = state c /\ snd r = Some err).
Proof.
  apply (bch2_fs_read_write_with_error_flag Examples.env_ok
           (Examples.fs_rw_devs BCH_FS_RO (set_bit BCH_FS_ERROR 0)
              Examples.opts_one_replica 2)).
  - reflexivity.
  - right. reflexivity.
Defined.

(** C2, as stated, fails: an instance in state RO with the ERROR flag set
    goes to RW, with its GC thread started, when every start succeeds. *)
Lemma bch2_fs_read_write_error_flag_counterexample :
  ~ (forall (env : collaborators) (c : bch_fs),
       test_bit BCH_FS_ERROR (flags c) = true ->
       state c = BCH_FS_STARTING \/ state c = BCH_FS_RO ->
       state (fst (bch2_fs_read_write env c)) = state c /\
       gc_thread (fst (bch2_fs_read_write env c)) = gc_thread c).
Proof.
  intros H.
  specialize (H Examples.env_ok
                (Examples.fs_rw_devs BCH_FS_RO (set_bit BCH_FS_ERROR 0)
                   Examples.opts_one_replica 2)
                eq_refl (or_intror eq_refl)).
  vm_compute in H. destruct H as [H _]. discriminate H.
Qed.

(** ** The RW -> RO transition *)

Lemma bch2_fs_read_only_skips (c : bch_fs) :
  will_teardown c = false -> bch2_fs_read_only c = c.
Proof.
  unfold will_teardown, bch2_fs_read_only. intros H.
  destruct (state c); cbn [fs_state_eqb negb andb orb] in *;
    try reflexivity; destruct (test_bit BCH_FS_ERROR (flags c));
    try reflexivity; discriminate H.
Qed.

Lemma bch2_fs_read_only_runs (c : bch_fs) :
  will_teardown c = true ->
  bch2_fs_read_only c =
  mk_fs (fs_ptr c) BCH_FS_RO
        (clear_bit BCH_FS_WRITE_DISABLE_COMPLETE
           (set_bit BCH_FS_WRITE_DISABLE_COMPLETE (flags c)))
        (opts c) (sb_uuid c)
        (if bch2_journal_error c then disk_sb c
         else SET_BCH_SB_CLEAN true (disk_sb c))
        (map (option_map stop_dev) (devs c))
        (journal_halted c) false false false false (read_only_work c)
        (trace c ++ read_only_prologue ++ teardown_events c ++
         (if bch2_journal_error c then [] else [EvWriteSuper])).
Proof.
  unfold will_teardown. intros H.
  apply andb_prop in H as [Hst Herr]. apply negb_true_iff in Herr.
  destruct c as [p st fl o u sb ds jh gc tier wl pd row tr].
  cbn [state flags] in Hst, Herr.
  unfold bch2_fs_read_only, bch2_journal_error.
  cbn [state flags].
  assert (Hguard : negb (fs_state_eqb st BCH_FS_STARTING) &&
                   negb (fs_state_eqb st BCH_FS_RW) = false)
    by (destruct st; try reflexivity; discriminate Hst).
  rewrite Hguard, Herr. clear Hguard Hst.
  cbv zeta.
  unfold percpu_ref_kill_writes, bch2_writes_disabled, bch2_write_super.
  fs_norm. rewrite __bch2_fs_read_only_eq. fs_norm.
  unfold teardown_events, member_idxs, read_only_prologue. fs_norm.
  rewrite test_bit_clear_bit_other, test_bit_set_bit_other, Herr by discriminate.
  destruct jh; fs_norm; cbn [negb andb]; fs_norm; f_equal; reassoc.
Qed.

(** C6 (as the code has it): when [bch2_fs_read_only] runs its teardown
    (state STARTING or RW, ERROR flag clear), the call ends in state RO.  The
    superblock is marked clean and written, after the teardown, when the
    journal is not in error; when the journal is in error the superblock is
    left as it was and is not written. *)
Theorem bch2_fs_read_only_marks_clean (c : bch_fs) :
  state c = BCH_FS_STARTING \/ state c = BCH_FS_RW ->
  test_bit BCH_FS_ERROR (flags c) = false ->
  let c' := bch2_fs_read_only c in
  state c' = BCH_FS_RO /\
  (bch2_journal_error c = false ->
   disk_sb c' = SET_BCH_SB_CLEAN true (disk_sb c) /\
   BCH_SB_CLEAN (disk_sb c') = true /\
   trace c' = trace c ++ read_only_prologue ++ teardown_events c ++ [EvWriteSuper]) /\
  (bch2_journal_error c = true ->
   disk_sb c' = disk_sb c /\
   trace c' = trace c ++ read_only_prologue ++ teardown_events c).
Proof.
  intros Hst Herr c'. subst c'.
  rewrite bch2_fs_read_only_runs
    by (unfold will_teardown; rewrite Herr; destruct Hst as [-> | ->]; reflexivity).
  cbn [state disk_sb trace].
  split; [reflexivity|]. split; intros ->.
  - repeat split; reflexivity.
  - split; [reflexivity|]. now rewrite app_nil_r.
Qed.

Lemma bch2_fs_read_only_marks_clean_witness :
  let c := Examples.fs_rw_devs BCH_FS_RW 0 Examples.opts_one_replica 2 in
  let c' := bch2_fs_read_only c in
  state c' = BCH_FS_RO /\
  (bch2_journal_error c = false ->
   disk_sb c' = SET_BCH_SB_CLEAN true (disk_sb c) /\
   BCH_SB_CLEAN (disk_sb c') = true /\
   trace c' = trace c ++ read_only_prologue ++ teardown_events c ++ [EvWriteSuper]) /\
  (bch2_journal_error c = true ->
   disk_sb c' = disk_sb c /\
   trace c' = trace c ++ read_only_prologue ++ teardown_events c).
Proof.
  apply (bch2_fs_read_only_marks_clean
           (Examples.fs_rw_devs BCH_FS_RW 0 Examples.opts_one_replica 2)).
  - right. reflexivity.
  - reflexivity.
Defined.

(** C6, as stated, fails: on an RW instance whose journal has been halted,
    with the ERROR flag clear, the teardown runs and the state becomes RO,
    but the superblock is neither marked clean nor written. *)
Lemma bch2_fs_read_only_clean_counterexample :
  ~ (forall c : bch_fs,
       state c = BCH_FS_STARTING \/ state c = BCH_FS_RW ->
       test_bit BCH_FS_ERROR (flags c) = false ->
       BCH_SB_CLEAN (disk_sb (bch2_fs_read_only c)) = true /\
       In EvWriteSuper (trace (bch2_fs_read_only c))).
Proof.
  intros H.
  specialize (H (set_journal_halted true
                   (Examples.fs_rw_devs BCH_FS_RW 0 Examples.opts_one_replica 2))
                (or_intror eq_refl) eq_refl).
  vm_compute in H. destruct H as [H _]. discriminate H.
Qed.

(** C7: [bch2_fs_read_only] on an instance whose state is RO returns at
    once: the instance, and so its state, its flags and its superblock, is
    unchanged. *)
Theorem bch2_fs_read_only_idempotent (c : bch_fs) :
  state c = BCH_FS_RO ->
  bch2_fs_read_only c = c /\
  state (bch2_fs_read_only c) = BCH_FS_RO /\
  flags (bch2_fs_read_only c) = flags c /\
  disk_sb (bch2_fs_read_only c) = disk_sb c /\
  trace (bch2_fs_read_only c) = trace c.
Proof.
  intros Hst.
  assert (E : bch2_fs_read_only c = c)
    by (apply bch2_fs_read_only_skips; unfold will_teardown; now rewrite Hst).
  rewrite E. repeat split; try reflexivity. exact Hst.
Qed.

Lemma bch2_fs_read_only_idempotent_witness :
  let c := Examples.fs_rw_devs BCH_FS_RO 0 Examples.opts_one_replica 2 in
  bch2_fs_read_only c = c /\
  state (bch2_fs_read_only c) = BCH_FS_RO /\
  flags (bch2_fs_read_only c) = flags c /\
  disk_sb (bch2_fs_read_only c) = disk_sb c /\
  trace (bch2_fs_read_only c) = trace c.
Proof.
  apply (bch2_fs_read_only_idempotent
           (Examples.fs_rw_devs BCH_FS_RO 0 Examples.opts_one_replica 2)).
  reflexivity.
Defined.

(** ** Properties kept by the steps of a [goto err] function *)

Section Keeps.

Context {E : Type}.

(** A property of the instance that depends on the device records only
    through their keys, and not on the trace or on the ALLOC_READ_DONE
    flag. *)
Variable P : bch_fs -> Prop.
Hypothesis P_set_devs :
  forall c ds, slot_keys ds = slot_keys (devs c) -> P c -> P (set_devs ds c).
Hypothesis P_set_trace : forall c tr, P c -> P (set_trace tr c).
Hypothesis P_alloc_read_done :
  forall c, P c -> P (set_flags (set_bit BCH_FS_ALLOC_READ_DONE (flags c)) c).

Lemma keeps_ret {A : Type} (a : A) : @keeps E _ P (FsM.ret a).
Proof. intros c H. exact H. Qed.

Lemma keeps_throw {A : Type} (e : E) : @keeps E _ P (@FsM.throw E A e).
Proof. intros c H. exact H. Qed.

Lemma keeps_get : @keeps E _ P (@FsM.get E).
Proof. intros c H. exact H. Qed.

Lemma keeps_check (b : bool) (e : E) : @keeps E _ P (FsM.check b e).
Proof. intros c H. destruct b; exact H. Qed.

Lemma keeps_lift (f : bch_fs -> bch_fs) :
  (forall c, P c -> P (f c)) -> @keeps E _ P (FsM.lift f).
Proof. intros Hf c H. apply Hf, H. Qed.

Lemma keeps_bind {A B : Type} (m : FsM.M E A) (k : A -> FsM.M E B) :
  @keeps E _ P m -> (forall a, @keeps E _ P (k a)) -> @keeps E _ P (FsM.bind m k).
Proof.
  intros Hm Hk c H. unfold FsM.bind. specialize (Hm c H).
  destruct (m c) as [c' [a|e]]; simpl in *; [now apply Hk|exact Hm].
Qed.

Lemma keeps_for_upto (n : nat) (body : nat -> FsM.M E unit) :
  (forall i, @keeps E _ P (body i)) -> @keeps E _ P (FsM.for_upto n body).
Proof.
  intros Hb. induction n as [|n IH]; simpl.
  - apply keeps_ret.
  - apply keeps_bind; [exact IH|intros _; apply Hb].
Qed.

Lemma P_log_events (evs : list event) (c : bch_fs) : P c -> P (log_events evs c).
Proof. intros H. unfold log_events. now apply P_set_trace. Qed.

Lemma keeps_log (e : event) : @keeps E _ P (FsM.lift (log e)).
Proof. apply keeps_lift. intros c H. now apply P_log_events. Qed.

Lemma keeps_for_each_rw_member_try (fails : nat -> bool)
    (f : bch_dev -> bch_dev) (ev : nat -> event) (e : E) :
  keeps_key f -> @keeps E _ P (for_each_rw_member_try fails f ev e).
Proof.
  intros Hf c H. unfold for_each_rw_member_try.
  pose proof (try_each_rw_keys fails f ev (devs c) Hf) as K.
  destruct (try_each_rw fails f ev (devs c)) as [[ds evs] ok]. simpl in *.
  now apply P_log_events, P_set_devs.
Qed.

Lemma P_add_rw_allocators (c : bch_fs) : P c -> P (add_rw_allocators c).
Proof.
  intros H. unfold add_rw_allocators, bch2_recalc_capacity, for_each_rw_member, log.
  apply P_log_events, P_log_events, P_set_devs; [|exact H].
  apply slot_keys_map, keeps_key_on_rw, keeps_key_set_in_alloc_pool.
Qed.

End Keeps.

Section KeepsStart.

Variable P : bch_fs -> Prop.
Hypothesis P_set_devs :
  forall c ds, slot_keys ds = slot_keys (devs c) -> P c -> P (set_devs ds c).
Hypothesis P_set_trace : forall c tr, P c -> P (set_trace tr c).
Hypothesis P_alloc_read_done :
  forall c, P c -> P (set_flags (set_bit BCH_FS_ALLOC_READ_DONE (flags c)) c).

Lemma keeps_call_ret (ev : event) (r : Z) (err : string) :
  keeps P (call_ret ev r err).
Proof.
  apply keeps_bind; [now apply keeps_log|intros _; apply keeps_check].
Qed.

Lemma keeps_call_fails (ev : event) (b : bool) (err : string) :
  keeps P (call_fails ev b err).
Proof.
  apply keeps_bind; [now apply keeps_log|intros _; apply keeps_check].
Qed.

Ltac keeps_step :=
  first [ apply keeps_call_ret | apply keeps_call_fails
        | apply keeps_for_each_rw_member_try;
          [assumption | assumption
          | first [ apply keeps_key_set_alloc_thread | intros ?; reflexivity ] ]
        | apply keeps_log; assumption
        | apply keeps_check | apply keeps_ret
        | apply keeps_lift; assumption
        | apply keeps_for_upto; intros ? ].

Lemma keeps_recover_existing (env : collaborators) (o : bch_opts) :
  keeps P (recover_existing env o).
Proof.
  unfold recover_existing, start_rw_allocators.
  apply keeps_bind; [keeps_step|intros _].
  apply keeps_bind.
  { keeps_step. destruct (bch2_journal_find_btree_root env i); keeps_step. }
  intros _.
  apply keeps_bind; [keeps_step|intros _].
  apply keeps_bind; [keeps_step|intros _].
  apply keeps_bind; [keeps_step|intros _].
  destruct (negb (noreplay o =? 0)); [keeps_step|].
  apply keeps_bind.
  { keeps_step. destruct (bch2_journal_find_btree_root env i); keeps_step. }
  intros _.
  apply keeps_bind; [keeps_step|intros _].
  apply keeps_bind; [keeps_step|intros _].
  apply keeps_bind; [keeps_step|intros _].
  destruct (negb (norecovery o =? 0)); keeps_step.
Qed.

Lemma keeps_initialize_new (env : collaborators) :
  keeps P (initialize_new env).
Proof.
  unfold initialize_new, start_rw_allocators.
  repeat (apply keeps_bind; [repeat keeps_step|intros _]).
  repeat keeps_step.
Qed.

Lemma keeps_recovery (env : collaborators) : keeps P (recovery env).
Proof.
  unfold recovery.
  apply keeps_bind.
  { apply keeps_lift. intros c H. now apply P_log_events. }
  intros _. apply keeps_bind.
  { apply keeps_lift. intros c H. now apply P_add_rw_allocators. }
  intros _. apply keeps_bind; [apply keeps_get|intros c].
  destruct (BCH_SB_INITIALIZED (disk_sb c));
    [apply keeps_recover_existing|apply keeps_initialize_new].
Qed.

End KeepsStart.

(** ** Emergency read-only *)

Lemma count_occ_map_other (ev : nat -> event) (e : event) (l : list nat) :
  (forall i, ev i <> e) -> count_occ event_eq_dec (map ev l) e = 0%nat.
Proof.
  intros H. induction l as [|i l IH]; simpl; [reflexivity|].
  destruct (event_eq_dec (ev i) e) as [E|_]; [now apply H in E|exact IH].
Qed.

Lemma teardown_events_one_flush (c : bch_fs) :
  count_occ event_eq_dec (teardown_events c) EvJournalFlushPins = 1%nat.
Proof.
  unfold teardown_events.
  rewrite !count_occ_app, !count_occ_map_other by discriminate.
  destruct (journal_halted c); reflexivity.
Qed.

Lemma bch2_fs_read_only_teardowns (c : bch_fs) :
  nr_teardowns (bch2_fs_read_only c) =
  (nr_teardowns c + if will_teardown c then 1 else 0)%nat.
Proof.
  unfold nr_teardowns. destruct (will_teardown c) eqn:W.
  - rewrite bch2_fs_read_only_runs by assumption. cbn [trace].
    rewrite !count_occ_app, teardown_events_one_flush.
    destruct (bch2_journal_error c); simpl; lia.
  - rewrite bch2_fs_read_only_skips by assumption. lia.
Qed.

Lemma bch2_fs_read_only_will_teardown (c : bch_fs) :
  will_teardown (bch2_fs_read_only c) = false.
Proof.
  destruct (will_teardown c) eqn:W.
  - rewrite bch2_fs_read_only_runs by assumption. reflexivity.
  - now rewrite bch2_fs_read_only_skips by assumption.
Qed.

Lemma bch2_fs_emergency_read_only_eq (c : bch_fs) :
  bch2_fs_emergency_read_only c =
  (mk_fs (fs_ptr c) (state c) (set_bit BCH_FS_EMERGENCY_RO (flags c)) (opts c)
         (sb_uuid c) (disk_sb c) (devs c) true (gc_thread c) (tiering_thread c)
         (writes_live c) (pd_controllers_update c) true
         (trace c ++ (if read_only_work c then [] else [EvQueueReadOnlyWork]) ++
          [EvJournalHalt; EvWakeUp]),
   negb (test_bit BCH_FS_EMERGENCY_RO (flags c))).
Proof.
  destruct c as [p st fl o u sb ds jh gc tier wl pd row tr].
  unfold bch2_fs_emergency_read_only, test_and_set_bit,
    bch2_fs_read_only_async, bch2_journal_halt.
  fs_norm. destruct row; fs_norm; f_equal; f_equal; reassoc.
Qed.

Lemma count_flush_emergency (tr : list event) (b : bool) :
  count_occ event_eq_dec
    (tr ++ (if b then [] else [EvQueueReadOnlyWork]) ++ [EvJournalHalt; EvWakeUp])
    EvJournalFlushPins =
  count_occ event_eq_dec tr EvJournalFlushPins.
Proof. rewrite !count_occ_app. destruct b; simpl; lia. Qed.

Lemma run_read_only_work_pending (c : bch_fs) :
  read_only_work c = true ->
  run_read_only_work c = bch2_fs_read_only (set_read_only_work false c).
Proof. unfold run_read_only_work, bch2_fs_read_only_work. now intros ->. Qed.

(** C8 (as the code has it): [bch2_fs_emergency_read_only] returns true
    exactly when the EMERGENCY_RO flag was clear before the call; the second
    of two calls returns false; and the two calls together lead to at most
    one teardown: exactly one when the instance was in state STARTING or RW
    with the ERROR flag clear, none otherwise. *)
Theorem bch2_fs_emergency_read_only_twice (between : bool) (c : bch_fs) :
  let '(c', r1, r2) := emergency_twice between c in
  r1 = negb (test_bit BCH_FS_EMERGENCY_RO (flags c)) /\
  r2 = false /\
  nr_teardowns c' = (nr_teardowns c + if will_teardown c then 1 else 0)%nat.
Proof.
  unfold emergency_twice.
  rewrite (bch2_fs_emergency_read_only_eq c).
  set (c1 := mk_fs _ _ _ _ _ _ _ _ _ _ _ _ _ _).
  assert (W1 : will_teardown c1 = will_teardown c).
  { unfold will_teardown, c1. cbn [state flags].
    now rewrite test_bit_set_bit_other by discriminate. }
  assert (N1 : nr_teardowns c1 = nr_teardowns c).
  { unfold nr_teardowns, c1. cbn [trace]. apply count_flush_emergency. }
  assert (F1 : test_bit BCH_FS_EMERGENCY_RO (flags c1) = true).
  { unfold c1. cbn [flags]. apply test_bit_set_bit_same. }
  destruct between; cbv beta iota zeta.
  - (* the work runs between the calls *)
    rewrite (run_read_only_work_pending c1) by reflexivity.
    set (c1' := bch2_fs_read_only (set_read_only_work false c1)).
    assert (W1' : will_teardown c1' = false)
      by apply bch2_fs_read_only_will_teardown.
    assert (N1' : nr_teardowns c1' =
                  (nr_teardowns c + if will_teardown c then 1 else 0)%nat).
    { unfold c1'. rewrite bch2_fs_read_only_teardowns.
      change (will_teardown (set_read_only_work false c1)) with (will_teardown c1).
      change (nr_teardowns (set_read_only_work false c1)) with (nr_teardowns c1).
      now rewrite W1, N1. }
    assert (F1' : test_bit BCH_FS_EMERGENCY_RO (flags c1') = true).
    { unfold c1'.
      destruct (will_teardown (set_read_only_work false c1)) eqn:W.
      - rewrite bch2_fs_read_only_runs by assumption. cbn [flags].
        rewrite test_bit_clear_bit_other, test_bit_set_bit_other by discriminate.
        exact F1.
      - rewrite bch2_fs_read_only_skips by assumption. exact F1. }
    rewrite (bch2_fs_emergency_read_only_eq c1').
    set (c2 := mk_fs _ _ _ _ _ _ _ _ _ _ _ _ _ _).
    split; [reflexivity|]. split; [now rewrite F1'|].
    rewrite (run_read_only_work_pending c2) by reflexivity.
    rewrite bch2_fs_read_only_teardowns.
    replace (will_teardown (set_read_only_work false c2)) with false.
    + replace (nr_teardowns (set_read_only_work false c2)) with (nr_teardowns c1').
      * rewrite N1'. lia.
      * unfold nr_teardowns, c2. cbn [trace set_read_only_work].
        symmetry. apply count_flush_emergency.
    + symmetry. rewrite <- W1'. unfold will_teardown, c2.
      cbn [state flags set_read_only_work].
      now rewrite test_bit_set_bit_other by discriminate.
  - (* the two calls are back to back *)
    rewrite (bch2_fs_emergency_read_only_eq c1).
    set (c2 := mk_fs _ _ _ _ _ _ _ _ _ _ _ _ _ _).
    split; [reflexivity|]. split; [now rewrite F1|].
    rewrite (run_read_only_work_pending c2) by reflexivity.
    rewrite bch2_fs_read_only_teardowns.
    replace (will_teardown (set_read_only_work false c2)) with (will_teardown c).
    + replace (nr_teardowns (set_read_only_work false c2)) with (nr_teardowns c);
        [reflexivity|].
      rewrite <- N1. unfold nr_teardowns, c2. cbn [trace set_read_only_work].
      symmetry. apply count_flush_emergency.
    + rewrite <- W1. unfold will_teardown, c2.
      cbn [state flags set_read_only_work].
      now rewrite test_bit_set_bit_other by discriminate.
Qed.

(** C8, as stated, fails: two calls on an instance that is already RO lead
    to no teardown at all. *)
Lemma bch2_fs_emergency_read_only_counterexample :
  ~ (forall (between : bool) (c : bch_fs),
       let '(c', _, _) := emergency_twice between c in
       nr_teardowns c' = (nr_teardowns c + 1)%nat).
Proof.
  intros H.
  specialize (H false (Examples.fs_rw_devs BCH_FS_RO 0 Examples.opts_one_replica 2)).
  vm_compute in H. discriminate H.
Qed.

(** ** Instance allocation and start-up *)

Lemma bch2_dev_alloc_frame (env : collaborators) (c c' : bch_fs) (idx : nat) :
  bch2_dev_alloc env c idx = Ok c' -> exists ds, c' = set_devs ds c.
Proof.
  unfold bch2_dev_alloc. intros H.
  destruct (bch2_fs_init_fault env "dev_alloc"); [discriminate H|].
  destruct (nth_error (members (disk_sb c)) idx) as [member|]; [|discriminate H].
  destruct ((btree_node_size (opts c) =? 0) ||
            (bucket_size (bch2_mi_to_cpu member) / btree_node_size (opts c) =? 0));
    [discriminate H|].
  destruct (dev_alloc_nomem env idx); [discriminate H|].
  destruct (list_set idx _ (devs c)) as [ds|]; [|discriminate H].
  injection H as <-. now exists ds.
Qed.

Lemma alloc_member_devs_frame (env : collaborators) (n from : nat) (c c' : bch_fs) :
  alloc_member_devs env n from c = Ok c' -> exists ds, c' = set_devs ds c.
Proof.
  revert from c. induction n as [|n IH]; intros from c H; simpl in H.
  - injection H as <-. exists (devs c). now destruct c.
  - destruct (bch2_dev_exists (disk_sb c) from).
    + destruct (bch2_dev_alloc env c from) as [c1| |] eqn:E; try discriminate H.
      apply bch2_dev_alloc_frame in E as [ds1 ->].
      apply IH in H as [ds ->]. now exists ds.
    + now apply IH in H.
Qed.

Lemma bch2_fs_alloc_ok (env : collaborators) (ptr : nat) (sb : bch_sb)
    (o : bch_opts) (c : bch_fs) :
  bch2_fs_alloc env ptr sb o = Ok c ->
  fs_ptr c = ptr /\ state c = BCH_FS_STARTING /\ flags c = 0 /\
  sb_uuid c = uuid sb /\ disk_sb c = sb /\
  nochanges (opts c) =
    Z.lor (nochanges (requested_opts env sb o)) (noreplay (requested_opts env sb o)) /\
  read_only (opts c) =
    Z.lor (read_only (requested_opts env sb o)) (nochanges (opts c)).
Proof.
  unfold bch2_fs_alloc. intros H.
  destruct (fs_alloc_nomem env); [discriminate H|].
  destruct (bch2_fs_init_fault env "fs_alloc"); [discriminate H|].
  destruct (alloc_member_devs env (nr_devices sb) 0 _) as [c'| |] eqn:E;
    try discriminate H.
  injection H as <-.
  apply alloc_member_devs_frame in E as [ds ->].
  repeat split; reflexivity.
Qed.

Lemma mark_started_state (env : collaborators) (c : bch_fs) :
  state (mark_started env c) = state c.
Proof. reflexivity. Qed.











(** ** What start-up leaves alone *)

Lemma same_instance_refl (c : bch_fs) : same_instance c c.
Proof. repeat split. Qed.

Lemma same_instance_trans (a b c : bch_fs) :
  same_instance a b -> same_instance b c -> same_instance a c.
Proof.
  intros (H1 & H2 & H3 & H4) (K1 & K2 & K3 & K4).
  repeat split; congruence.
Qed.

Lemma keeps_key_stop_dev : keeps_key stop_dev.
Proof. intros ca. reflexivity. Qed.

Lemma __bch2_fs_read_only_same (c : bch_fs) :
  same_instance c (__bch2_fs_read_only c).
Proof.
  rewrite __bch2_fs_read_only_eq. repeat split. cbn [devs].
  apply slot_keys_map, keeps_key_stop_dev.
Qed.

Lemma bch2_fs_read_only_same (c : bch_fs) : same_instance c (bch2_fs_read_only c).
Proof.
  destruct (will_teardown c) eqn:W.
  - rewrite bch2_fs_read_only_runs by assumption.
    repeat split; cbn [disk_sb devs].
    + now destruct (bch2_journal_error c).
    + apply slot_keys_map, keeps_key_stop_dev.
  - rewrite bch2_fs_read_only_skips by assumption. apply same_instance_refl.
Qed.

Lemma bch2_fs_read_write_same (env : collaborators) (c : bch_fs) :
  same_instance c (fst (bch2_fs_read_write env c)).
Proof.
  unfold bch2_fs_read_write.
  destruct (negb (fs_state_eqb (state c) BCH_FS_STARTING) &&
            negb (fs_state_eqb (state c) BCH_FS_RO));
    [apply same_instance_refl|].
  pose proof (bch2_fs_read_write_steps_spec env c) as Hspec. simpl in Hspec.
  destruct Hspec as (_ & (Hp & Hu & Hsb & _ & Hk) & _).
  destruct (bch2_fs_read_write_steps env c) as [c1 [[]|e]]; cbn [fst] in *.
  - repeat split; congruence.
  - apply same_instance_trans with (b := c1);
      [repeat split; congruence|apply __bch2_fs_read_only_same].
Qed.

Lemma mark_started_same (env : collaborators) (c : bch_fs) :
  same_instance c (mark_started env c).
Proof. repeat split. Qed.

Lemma recovery_same (env : collaborators) (c0 c : bch_fs) :
  same_instance c0 c -> same_instance c0 (fst (recovery env c)).
Proof.
  apply (keeps_recovery (same_instance c0)).
  - intros c1 ds K (H1 & H2 & H3 & H4). repeat split; try assumption.
    cbn [devs set_devs]. congruence.
  - intros c1 tr H. exact H.
  - intros c1 H. exact H.
Qed.

Lemma recovery_done_same (env : collaborators) (c : bch_fs) :
  same_instance c (fst (recovery_done env c)).
Proof.
  unfold recovery_done, FsM.bind, FsM.check.
  destruct (bch2_fs_init_fault env "fs_start"); cbn [FsM.throw FsM.ret FsM.get];
    [apply same_instance_refl|].
  destruct (negb (read_only (opts c) =? 0)); cbn [FsM.lift fst].
  - apply same_instance_trans with (b := bch2_fs_read_only c);
      [apply bch2_fs_read_only_same|apply mark_started_same].
  - pose proof (bch2_fs_read_write_same env c) as H.
    destruct (bch2_fs_read_write env c) as [c1 [err|]]; cbn [fst] in *;
      [exact H|].
    apply same_instance_trans with (b := c1); [exact H|apply mark_started_same].
Qed.

Lemma __bch2_fs_start_same (env : collaborators) (c c' : bch_fs)
    (r : option string) :
  __bch2_fs_start env c = Some (c', r) -> same_instance c c'.
Proof.
  unfold __bch2_fs_start, __bch2_fs_start_steps, FsM.bind.
  destruct (negb (fs_state_eqb (state c) BCH_FS_STARTING)); [discriminate|].
  pose proof (recovery_same env c c (same_instance_refl c)) as H1.
  destruct (recovery env c) as [c1 [[]|e]]; cbn [fst] in *.
  - pose proof (recovery_done_same env c1) as H2.
    destruct (recovery_done env c1) as [c2 [[]|e]]; cbn [fst] in *;
      intros [= <- <-].
    + now apply same_instance_trans with (b := c1).
    + apply same_instance_trans with (b := c2); [|repeat split].
      now apply same_instance_trans with (b := c1).
  - intros [= <- <-].
    apply same_instance_trans with (b := c1); [exact H1|repeat split].
Qed.

Lemma slot_keys_online (ds ds' : list (option bch_dev)) (i : nat) (ca : bch_dev) :
  slot_keys ds' = slot_keys ds ->
  nth_error ds i = Some (Some ca) -> bdev ca = true ->
  exists ca', nth_error ds' i = Some (Some ca') /\ bdev ca' = true.
Proof.
  intros K Hnth Hb.
  assert (H : nth_error (slot_keys ds') i = Some (Some (dev_key ca))).
  { rewrite K. unfold slot_keys. now rewrite nth_error_map, Hnth. }
  unfold slot_keys in H. rewrite nth_error_map in H.
  destruct (nth_error ds' i) as [[ca'|]|]; try discriminate H.
  exists ca'. split; [reflexivity|].
  simpl in H. unfold dev_key in H. injection H as _ _ ->. exact Hb.
Qed.

Lemma bch2_sb_to_fs_uuid (sb : bch_sb) (c : bch_fs) :
  fs_ptr (bch2_sb_to_fs sb c) = fs_ptr c /\
  sb_uuid (bch2_sb_to_fs sb c) = uuid sb /\
  disk_sb (bch2_sb_to_fs sb c) = sb.
Proof. repeat split. Qed.

Lemma __bch2_dev_online_spec (env : collaborators) (c c' : bch_fs) (sb : bch_sb)
    (r : Z) :
  __bch2_dev_online env c sb = Some (c', r) ->
  uuid sb = uuid (disk_sb c) ->
  sb_uuid c = uuid (disk_sb c) ->
  fs_ptr c' = fs_ptr c /\
  uuid (disk_sb c') = uuid (disk_sb c) /\
  sb_uuid c' = uuid (disk_sb c') /\
  (r = 0 -> exists ca, nth_error (devs c') (sb_dev_idx sb) = Some (Some ca) /\
                       bdev ca = true).
Proof.
  unfold __bch2_dev_online. intros H Hu Hc.
  set (c0 := if seq (disk_sb c) <? seq sb then bch2_sb_to_fs sb c else c) in *.
  assert (H0 : fs_ptr c0 = fs_ptr c /\ uuid (disk_sb c0) = uuid (disk_sb c) /\
               sb_uuid c0 = uuid (disk_sb c0)).
  { unfold c0. destruct (seq (disk_sb c) <? seq sb); [|now repeat split].
    repeat split. exact Hu. }
  destruct H0 as (Hp0 & Hu0 & Hc0). clearbody c0.
  destruct (nth_error (devs c0) (sb_dev_idx sb)) as [[ca|]|]; try discriminate H.
  destruct (bdev ca).
  { injection H as <- <-. repeat split; try assumption. intros E. discriminate E. }
  destruct (negb (bch2_dev_journal_init_ret env (dev_idx ca) =? 0)) eqn:Hj.
  { injection H as <- <-. repeat split; try assumption.
    intros E. rewrite E in Hj. discriminate Hj. }
  match type of H with
  | match list_set _ (Some ?d) _ with _ => _ end = _ => set (ca' := d) in *
  end.
  assert (Hb : bdev ca' = true).
  { unfold ca'.
    destruct (member_state_eqb (mi_state (mi (set_bdev true ca))) BCH_MEMBER_STATE_RW);
      reflexivity. }
  match type of H with
  | match list_set _ _ ?l with _ => _ end = _ =>
      destruct (list_set (sb_dev_idx sb) (Some ca') l) as [ds|] eqn:E;
        [|discriminate H]
  end.
  injection H as <- <-.
  split; [|split; [|split]].
  - destruct (member_state_eqb (mi_state (mi ca')) BCH_MEMBER_STATE_RW);
      exact Hp0.
  - destruct (member_state_eqb (mi_state (mi ca')) BCH_MEMBER_STATE_RW);
      exact Hu0.
  - destruct (member_state_eqb (mi_state (mi ca')) BCH_MEMBER_STATE_RW);
      exact Hc0.
  - intros _. exists ca'. split; [|exact Hb].
    cbn [devs set_devs]. now apply list_set_nth_error in E.
Qed.

(** ** The registry *)


Lemma __bch2_uuid_to_fs_none (u : Z) (l : list bch_fs) :
  __bch2_uuid_to_fs u l = None -> ~ In u (uuids l).
Proof.
  unfold __bch2_uuid_to_fs, uuids. intros H Hin.
  apply in_map_iff in Hin as (c & Hc & Hl).
  pose proof (find_none _ _ H c Hl) as K. simpl in K.
  rewrite Hc, Z.eqb_refl in K. discriminate K.
Qed.



Lemma fresh_not_on_list (n : nat) (c : bch_fs) (l : list bch_fs) :
  Forall (fun x => (fs_ptr x < n)%nat) l -> fs_ptr c = n -> on_list c l = false.
Proof.
  intros Hall E. unfold on_list. induction Hall as [|x l Hx _ IH]; simpl.
  - reflexivity.
  - rewrite IH, orb_false_r. apply Nat.eqb_neq. lia.
Qed.


Lemma list_del_fresh (n : nat) (c : bch_fs) (l : list bch_fs) :
  Forall (fun x => (fs_ptr x < n)%nat) l -> fs_ptr c = n -> list_del c l = l.
Proof.
  intros Hall E. unfold list_del. induction Hall as [|x l Hx _ IH]; simpl.
  - reflexivity.
  - rewrite IH. replace (fs_ptr x =? fs_ptr c)%nat with false; [reflexivity|].
    symmetry. apply Nat.eqb_neq. lia.
Qed.







(** What [__bch2_fs_online] does with an instance that is not yet listed:
    it fails and leaves the list alone, or it puts the instance, whose UUID
    was not listed, at the head of the list. *)
Lemma __bch2_fs_online_cases (env : collaborators) (c : bch_fs) (l : list bch_fs) :
  on_list c l = false ->
  (exists err, __bch2_fs_online env c l = (l, Some err)) \/
  (exists c', __bch2_fs_online env c l = (c' :: l, None) /\
              fs_ptr c' = fs_ptr c /\ sb_uuid c' = sb_uuid c /\
              disk_sb c' = disk_sb c /\ devs c' = devs c /\
              ~ In (sb_uuid c) (uuids l)).
Proof.
  unfold __bch2_fs_online. intros ->.
  destruct (__bch2_uuid_to_fs (sb_uuid c) l) eqn:E; [left; eauto|].
  apply __bch2_uuid_to_fs_none in E.
  destruct (bch2_fs_chardev_init_fails env); [left; eauto|].
  destruct (kobject_add_fails env); [left; eauto|].
  destruct (sysfs_online_each env (member_devices (devs c))) as [evs [|]];
    [|left; eauto].
  right. eexists. split; [reflexivity|]. now repeat split.
Qed.





Lemma registry_ok_next (l : list bch_fs) (n : nat) :
  registry_ok (mk_registry l n) -> registry_ok (mk_registry l (S n)).
Proof.
  intros (Hu & Hp & Hall). repeat split; try assumption.
  cbn [bch_fs_list next_ptr] in *. rewrite Forall_forall in *.
  intros x Hx. destruct (Hall x Hx). split; [assumption|lia].
Qed.

Lemma registry_fresh (l : list bch_fs) (n : nat) :
  registry_ok (mk_registry l n) -> Forall (fun x => (fs_ptr x < n)%nat) l.
Proof.
  intros (_ & _ & Hall). cbn [bch_fs_list next_ptr] in *.
  rewrite Forall_forall in *. intros x Hx. now apply Hall.
Qed.






(** * Further properties *)

(** ** [write_field] *)

Lemma le_encode_length (n : nat) (v : Z) : List.length (le_encode n v) = n.
Proof. revert v. induction n as [|n IH]; intros v; simpl; [reflexivity|now rewrite IH]. Qed.

Lemma le_encode_bytes_ok (n : nat) (v : Z) : bytes_ok (le_encode n v).
Proof.
  revert v. induction n as [|n IH]; intros v; simpl; constructor.
  - apply Z.mod_pos_bound. lia.
  - apply IH.
Qed.

Lemma le_decode_encode (n : nat) (v : Z) :
  le_decode (le_encode n v) = v mod field_modulus n.
Proof.
  unfold field_modulus. revert v. induction n as [|n IH]; intros v.
  - simpl. now rewrite Z.mod_1_r.
  - cbn [le_encode le_decode]. rewrite IH.
    replace (8 * Z.of_nat (S n)) with (8 + 8 * Z.of_nat n) by lia.
    rewrite Z.pow_add_r by lia. change (2 ^ 8) with 256.
    rewrite Z.rem_mul_r by lia. reflexivity.
Qed.

Lemma le_encode_decode (bs : list Z) :
  bytes_ok bs -> le_encode (List.length bs) (le_decode bs) = bs.
Proof.
  induction 1 as [|b bs Hb _ IH]; [reflexivity|].
  cbn [List.length le_decode le_encode].
  assert (Hm : (b + 256 * le_decode bs) mod 256 = b).
  { rewrite Z.mul_comm, Z.mod_add by lia. apply Z.mod_small. lia. }
  assert (Hd : (b + 256 * le_decode bs) / 256 = le_decode bs).
  { rewrite Z.mul_comm, Z.div_add by lia. rewrite Z.div_small by lia. lia. }
  now rewrite Hm, Hd, IH.
Qed.

Lemma le_encode_mod (n : nat) (v : Z) :
  le_encode n (v mod field_modulus n) = le_encode n v.
Proof.
  unfold field_modulus. revert v. induction n as [|n IH]; intros v; [reflexivity|].
  cbn [le_encode].
  replace (8 * Z.of_nat (S n)) with (8 + 8 * Z.of_nat n) by lia.
  rewrite Z.pow_add_r by lia. change (2 ^ 8) with 256.
  assert (Hp : 0 < 2 ^ (8 * Z.of_nat n)) by (apply Z.pow_pos_nonneg; lia).
  rewrite Z.rem_mul_r by lia.
  f_equal.
  - rewrite Z.mul_comm, Z.mod_add by lia. apply Z.mod_mod. lia.
  - rewrite Z.mul_comm, Z.div_add by lia.
    rewrite (Z.div_small (v mod 256)) by (apply Z.mod_pos_bound; lia).
    rewrite Z.add_0_l. apply IH.
Qed.

Lemma store_field_length (m m' : list Z) (offset size : nat) (v : Z) :
  store_field m offset size v = Some m' -> List.length m' = List.length m.
Proof.
  unfold store_field. destruct (Nat.leb_spec (offset + size) (List.length m)) as [H|H];
    [|discriminate].
  intros [= <-].
  rewrite !length_app, le_encode_length, length_firstn, length_skipn. lia.
Qed.

Lemma load_store_field (m m' : list Z) (offset size : nat) (v : Z) :
  store_field m offset size v = Some m' ->
  load_field m' offset size = Some (v mod field_modulus size).
Proof.
  intros H. pose proof (store_field_length _ _ _ _ _ H) as Hlen.
  unfold store_field in H. unfold load_field. rewrite Hlen.
  destruct (Nat.leb_spec (offset + size) (List.length m)) as [Hle|Hle];
    [|discriminate].
  injection H as <-. f_equal.
  rewrite skipn_app, skipn_firstn_comm, length_firstn.
  replace (offset - offset)%nat with 0%nat by lia.
  replace (offset - Nat.min offset (List.length m))%nat with 0%nat by lia.
  cbn [firstn skipn app].
  rewrite firstn_app, le_encode_length, Nat.sub_diag, firstn_O, app_nil_r.
  rewrite firstn_all2 by (rewrite le_encode_length; lia).
  apply le_decode_encode.
Qed.

Lemma store_field_frame (m m' : list Z) (offset size : nat) (v : Z) (i : nat) :
  store_field m offset size v = Some m' ->
  (i < offset \/ offset + size <= i)%nat ->
  nth_error m' i = nth_error m i.
Proof.
  unfold store_field.
  destruct (Nat.leb_spec (offset + size) (List.length m)) as [Hle|Hle];
    [|discriminate].
  intros [= <-] [Hi|Hi].
  - rewrite nth_error_app1 by (rewrite length_firstn; lia).
    rewrite nth_error_firstn.
    destruct (Nat.ltb_spec i offset); [reflexivity|lia].
  - rewrite nth_error_app2 by (rewrite length_firstn; lia).
    rewrite nth_error_app2 by (rewrite le_encode_length, length_firstn; lia).
    rewrite le_encode_length, length_firstn, nth_error_skipn.
    f_equal. lia.
Qed.

Lemma bytes_ok_firstn (n : nat) (m : list Z) : bytes_ok m -> bytes_ok (firstn n m).
Proof.
  unfold bytes_ok. intros H. revert n.
  induction H as [|b m Hb _ IH]; intros [|n]; simpl; constructor; auto.
Qed.

Lemma bytes_ok_skipn (n : nat) (m : list Z) : bytes_ok m -> bytes_ok (skipn n m).
Proof.
  unfold bytes_ok. intros H. revert n.
  induction H as [|b m Hb Hm IH]; intros [|n]; simpl; auto.
Qed.

Lemma store_field_bytes_ok (m m' : list Z) (offset size : nat) (v : Z) :
  bytes_ok m -> store_field m offset size v = Some m' -> bytes_ok m'.
Proof.
  unfold store_field, bytes_ok. intros Hm.
  destruct (offset + size <=? List.length m)%nat; [|discriminate].
  intros [= <-].
  apply Forall_app; split; [now apply bytes_ok_firstn|].
  apply Forall_app; split; [apply le_encode_bytes_ok|now apply bytes_ok_skipn].
Qed.

Lemma store_store_field (m m1 : list Z) (offset size : nat) (v w : Z) :
  store_field m offset size v = Some m1 ->
  store_field m1 offset size w = store_field m offset size w.
Proof.
  intros H. pose proof (store_field_length _ _ _ _ _ H) as Hlen.
  unfold store_field in *. rewrite Hlen.
  destruct (Nat.leb_spec (offset + size) (List.length m)) as [Hle|Hle];
    [|discriminate].
  injection H as <-. f_equal.
  rewrite firstn_app, firstn_firstn, Nat.min_id, length_firstn.
  replace (offset - Nat.min offset (List.length m))%nat with 0%nat by lia.
  rewrite firstn_O, app_nil_r. f_equal. f_equal.
  rewrite skipn_app, length_firstn.
  rewrite (skipn_all2 (firstn offset m)) by (rewrite length_firstn; lia).
  cbn [app].
  replace (offset + size - Nat.min offset (List.length m))%nat with size by lia.
  rewrite skipn_app, le_encode_length, Nat.sub_diag.
  rewrite skipn_all2 by (rewrite le_encode_length; lia).
  reflexivity.
Qed.

Lemma store_field_same (m : list Z) (offset size : nat) (old : Z) :
  bytes_ok m ->
  load_field m offset size = Some old ->
  store_field m offset size old = Some m.
Proof.
  unfold load_field, store_field. intros Hm.
  destruct (Nat.leb_spec (offset + size) (List.length m)) as [Hle|Hle];
    [|discriminate].
  intros [= <-]. f_equal.
  set (fld := firstn size (skipn offset m)).
  assert (Hlen : List.length fld = size)
    by (unfold fld; rewrite length_firstn, length_skipn; lia).
  assert (Hok : bytes_ok fld)
    by (unfold fld; now apply bytes_ok_firstn, bytes_ok_skipn).
  rewrite <- Hlen at 1. rewrite le_encode_decode by assumption.
  unfold fld.
  rewrite <- (firstn_skipn offset m) at 4.
  f_equal.
  rewrite <- (firstn_skipn size (skipn offset m)) at 2.
  f_equal. rewrite skipn_skipn. f_equal. lia.
Qed.

Lemma field_size_write (op : Z) (m : list Z) (size : Z) (n offset : nat) (value : Z) :
  field_size size = Some n ->
  write_field op m size offset value = write_sized op m n offset value.
Proof.
  unfold field_size, write_field.
  destruct (size =? 1); [now intros [= <-]|].
  destruct (size =? 2); [now intros [= <-]|].
  destruct (size =? 4); [now intros [= <-]|].
  destruct (size =? 8); [now intros [= <-]|discriminate].
Qed.

Lemma field_modulus_pos (n : nat) : 0 < field_modulus n.
Proof. unfold field_modulus. apply Z.pow_pos_nonneg; lia. Qed.

(** X1: [write_field] with [BKEY_CMD_SET] on a field of 1, 2, 4 or 8 bytes
    that lies inside the memory stores the value truncated to the field's
    width: the field then reads [value mod 2^(8*size)], every byte outside
    the field is unchanged, the memory keeps its length, and a second SET on
    the same field makes the first one invisible. *)
Theorem write_field_set (m : list Z) (size : Z) (n offset : nat) (value : Z) :
  field_size size = Some n ->
  (offset + n <= List.length m)%nat ->
  exists m' : list Z,
    write_field BKEY_CMD_SET m size offset value = Some m' /\
    List.length m' = List.length m /\
    load_field m' offset n = Some (value mod field_modulus n) /\
    (forall i, (i < offset \/ offset + n <= i)%nat ->
               nth_error m' i = nth_error m i) /\
    (bytes_ok m -> bytes_ok m') /\
    (forall w, write_field BKEY_CMD_SET m' size offset w =
               write_field BKEY_CMD_SET m size offset w).
Proof.
  intros Hsz Hin.
  rewrite (field_size_write _ _ _ _ _ _ Hsz). unfold write_sized.
  cbn [BKEY_CMD_SET Z.eqb].
  destruct (store_field m offset n (value mod field_modulus n)) as [m'|] eqn:E.
  - exists m'. split; [reflexivity|].
    split; [now apply store_field_length in E|].
    split.
    { apply load_store_field in E. rewrite E. f_equal.
      apply Z.mod_mod. pose proof (field_modulus_pos n). lia. }
    split; [intros i Hi; now apply store_field_frame with (i := i) in E|].
    split; [intros Hm; now apply store_field_bytes_ok with (2 := E)|].
    intros w. rewrite !(field_size_write _ _ _ _ _ _ Hsz). unfold write_sized.
    cbn [BKEY_CMD_SET Z.eqb]. now apply store_store_field with (1 := E).
  - unfold store_field in E.
    destruct (Nat.leb_spec (offset + n) (List.length m)); [discriminate E|lia].
Qed.

Lemma write_field_set_witness :
  exists m' : list Z,
    write_field BKEY_CMD_SET [1; 2; 3; 4; 5; 6] 2 1%nat 70000 = Some m' /\
    List.length m' = List.length [1; 2; 3; 4; 5; 6] /\
    load_field m' 1 2 = Some (70000 mod field_modulus 2) /\
    (forall i, (i < 1 \/ 1 + 2 <= i)%nat ->
               nth_error m' i = nth_error [1; 2; 3; 4; 5; 6] i) /\
    (bytes_ok [1; 2; 3; 4; 5; 6] -> bytes_ok m') /\
    (forall w, write_field BKEY_CMD_SET m' 2 1%nat w =
               write_field BKEY_CMD_SET [1; 2; 3; 4; 5; 6] 2 1%nat w).
Proof.
  apply (write_field_set [1; 2; 3; 4; 5; 6] 2 2 1 70000).
  - reflexivity.
  - simpl. lia.
Defined.

Lemma load_field_in_range (m : list Z) (offset n : nat) :
  (offset + n <= List.length m)%nat ->
  exists old, load_field m offset n = Some old.
Proof.
  intros H. unfold load_field.
  destruct (Nat.leb_spec (offset + n) (List.length m)); [eauto|lia].
Qed.

Lemma store_field_in_range (m : list Z) (offset n : nat) (v : Z) :
  (offset + n <= List.length m)%nat ->
  exists m', store_field m offset n v = Some m'.
Proof.
  intros H. unfold store_field.
  destruct (Nat.leb_spec (offset + n) (List.length m)); [eauto|lia].
Qed.

Lemma store_field_mod (m : list Z) (offset n : nat) (v : Z) :
  store_field m offset n (v mod field_modulus n) = store_field m offset n v.
Proof. unfold store_field. now rewrite le_encode_mod. Qed.

Lemma write_sized_set_eq (m : list Z) (n offset : nat) (value : Z) :
  write_sized BKEY_CMD_SET m n offset value =
  store_field m offset n (value mod field_modulus n).
Proof. reflexivity. Qed.

Lemma write_sized_add_eq (m : list Z) (n offset : nat) (value : Z) :
  write_sized BKEY_CMD_ADD m n offset value =
  match load_field m offset n with
  | Some old =>
      store_field m offset n
        ((old + value mod field_modulus n) mod field_modulus n)
  | None => None
  end.
Proof. reflexivity. Qed.

Lemma write_sized_add (m : list Z) (n offset : nat) (value old : Z) :
  load_field m offset n = Some old ->
  write_sized BKEY_CMD_ADD m n offset value = store_field m offset n (old + value).
Proof.
  intros H. rewrite write_sized_add_eq, H.
  rewrite <- (store_field_mod m offset n (old + value)).
  f_equal. apply Z.add_mod_idemp_r. pose proof (field_modulus_pos n). lia.
Qed.

(** X2: [write_field] with [BKEY_CMD_ADD] on a field of 1, 2, 4 or 8 bytes
    that lies inside the memory adds with wrap-around at the field's width:
    the field then reads [(old + value) mod 2^(8*size)], where [old] is what
    it read before; every byte outside the field is unchanged and the memory
    keeps its length. *)
Theorem write_field_add (m : list Z) (size : Z) (n offset : nat) (value : Z) :
  field_size size = Some n ->
  (offset + n <= List.length m)%nat ->
  exists (old : Z) (m' : list Z),
    load_field m offset n = Some old /\
    write_field BKEY_CMD_ADD m size offset value = Some m' /\
    List.length m' = List.length m /\
    load_field m' offset n = Some ((old + value) mod field_modulus n) /\
    (forall i, (i < offset \/ offset + n <= i)%nat ->
               nth_error m' i = nth_error m i) /\
    (bytes_ok m -> bytes_ok m').
Proof.
  intros Hsz Hin.
  destruct (load_field_in_range m offset n Hin) as [old Hold].
  destruct (store_field_in_range m offset n (old + value) Hin) as [m' E].
  exists old, m'. split; [exact Hold|].
  rewrite (field_size_write _ _ _ _ _ _ Hsz), (write_sized_add _ _ _ _ _ Hold).
  split; [exact E|].
  split; [now apply store_field_length in E|].
  split; [now apply load_store_field in E|].
  split; [intros i Hi; now apply store_field_frame with (i := i) in E|].
  intros Hm. now apply store_field_bytes_ok with (2 := E).
Qed.

Lemma write_field_add_witness :
  exists (old : Z) (m' : list Z),
    load_field [255; 255; 7] 0 2 = Some old /\
    write_field BKEY_CMD_ADD [255; 255; 7] 2 0%nat 3 = Some m' /\
    List.length m' = List.length [255; 255; 7] /\
    load_field m' 0 2 = Some ((old + 3) mod field_modulus 2) /\
    (forall i, (i < 0 \/ 0 + 2 <= i)%nat ->
               nth_error m' i = nth_error [255; 255; 7] i) /\
    (bytes_ok [255; 255; 7] -> bytes_ok m').
Proof.
  apply (write_field_add [255; 255; 7] 2 2 0 3).
  - reflexivity.
  - simpl. lia.
Defined.

(** X3: on one field of 1, 2, 4 or 8 bytes inside the memory, two ADDs are
    one ADD of the sum, an ADD after a SET is a SET of the sum, and an ADD of
    zero leaves well-formed memory as it is; so adding [2^(8*size) - v]
    undoes adding [v]. *)
Theorem write_field_add_composes (m : list Z) (size : Z) (n offset : nat)
    (v w : Z) :
  field_size size = Some n ->
  (offset + n <= List.length m)%nat ->
  then_write (write_field BKEY_CMD_ADD m size offset v) BKEY_CMD_ADD size offset w =
    write_field BKEY_CMD_ADD m size offset (v + w) /\
  then_write (write_field BKEY_CMD_SET m size offset v) BKEY_CMD_ADD size offset w =
    write_field BKEY_CMD_SET m size offset (v + w) /\
  (bytes_ok m ->
   write_field BKEY_CMD_ADD m size offset 0 = Some m /\
   then_write (write_field BKEY_CMD_ADD m size offset v) BKEY_CMD_ADD size offset
              (field_modulus n - v) = Some m).
Proof.
  intros Hsz Hin.
  destruct (load_field_in_range m offset n Hin) as [old Hold].
  assert (Hadd : forall x y,
             then_write (write_field BKEY_CMD_ADD m size offset x)
                        BKEY_CMD_ADD size offset y =
             store_field m offset n (old + (x + y))).
  { intros x y.
    rewrite (field_size_write _ _ _ _ _ _ Hsz), (write_sized_add _ _ _ _ _ Hold).
    destruct (store_field_in_range m offset n (old + x) Hin) as [m1 E1].
    rewrite E1. cbn [then_write].
    rewrite (field_size_write _ _ _ _ _ _ Hsz).
    rewrite (write_sized_add m1 n offset y _ (load_store_field _ _ _ _ _ E1)).
    rewrite (store_store_field _ _ _ _ _ _ E1).
    rewrite <- store_field_mod, Z.add_mod_idemp_l
      by (pose proof (field_modulus_pos n); lia).
    rewrite store_field_mod. f_equal. lia. }
  split; [|split].
  - rewrite Hadd.
    now rewrite (field_size_write _ _ _ _ _ _ Hsz), (write_sized_add _ _ _ _ _ Hold).
  - rewrite !(field_size_write _ _ _ _ _ _ Hsz), !write_sized_set_eq.
    destruct (store_field_in_range m offset n (v mod field_modulus n) Hin)
      as [m1 E1].
    rewrite E1. cbn [then_write].
    rewrite (field_size_write _ _ _ _ _ _ Hsz).
    rewrite (write_sized_add m1 n offset w _ (load_store_field _ _ _ _ _ E1)).
    rewrite (store_store_field _ _ _ _ _ _ E1).
    rewrite Z.mod_mod by (pose proof (field_modulus_pos n); lia).
    rewrite <- store_field_mod, Z.add_mod_idemp_l
      by (pose proof (field_modulus_pos n); lia).
    reflexivity.
  - intros Hm. split.
    + rewrite (field_size_write _ _ _ _ _ _ Hsz), (write_sized_add _ _ _ _ _ Hold).
      rewrite Z.add_0_r. now apply store_field_same.
    + rewrite Hadd.
      replace (old + (v + (field_modulus n - v))) with (old + 1 * field_modulus n)
        by lia.
      rewrite <- store_field_mod, Z.mod_add
        by (pose proof (field_modulus_pos n); lia).
      rewrite store_field_mod. now apply store_field_same.
Qed.

Lemma write_field_add_composes_witness :
  then_write (write_field BKEY_CMD_ADD [9; 8; 7; 6; 5] 4 1%nat 300)
             BKEY_CMD_ADD 4 1%nat 500 =
    write_field BKEY_CMD_ADD [9; 8; 7; 6; 5] 4 1%nat (300 + 500) /\
  then_write (write_field BKEY_CMD_SET [9; 8; 7; 6; 5] 4 1%nat 300)
             BKEY_CMD_ADD 4 1%nat 500 =
    write_field BKEY_CMD_SET [9; 8; 7; 6; 5] 4 1%nat (300 + 500) /\
  (bytes_ok [9; 8; 7; 6; 5] ->
   write_field BKEY_CMD_ADD [9; 8; 7; 6; 5] 4 1%nat 0 = Some [9; 8; 7; 6; 5] /\
   then_write (write_field BKEY_CMD_ADD [9; 8; 7; 6; 5] 4 1%nat 300)
              BKEY_CMD_ADD 4 1%nat (field_modulus 4 - 300) =
   Some [9; 8; 7; 6; 5]).
Proof.
  apply (write_field_add_composes [9; 8; 7; 6; 5] 4 4 1 300 500).
  - reflexivity.
  - simpl. lia.
Defined.

(** X4: [write_field] touches no memory when it has no arm for the request:
    with a [size] other than 1, 2, 4 or 8, or with an [op] that is neither
    SET nor ADD, the memory is returned as it was, wherever [offset]
    points. *)
Theorem write_field_rejects (op : Z) (m : list Z) (size : Z) (offset : nat)
    (value : Z) :
  field_size size = None \/ (op <> BKEY_CMD_SET /\ op <> BKEY_CMD_ADD) ->
  write_field op m size offset value = Some m.
Proof.
  intros [Hsz|[Hset Hadd]].
  - unfold field_size in Hsz. unfold write_field.
    destruct (size =? 1); [discriminate|].
    destruct (size =? 2); [discriminate|].
    destruct (size =? 4); [discriminate|].
    destruct (size =? 8); [discriminate|reflexivity].
  - assert (H : forall n, write_sized op m n offset value = Some m).
    { intros n. unfold write_sized.
      destruct (Z.eqb_spec op BKEY_CMD_SET); [contradiction|].
      destruct (Z.eqb_spec op BKEY_CMD_ADD); [contradiction|reflexivity]. }
    unfold write_field.
    destruct (size =? 1); [apply H|].
    destruct (size =? 2); [apply H|].
    destruct (size =? 4); [apply H|].
    destruct (size =? 8); [apply H|reflexivity].
Qed.

Lemma write_field_rejects_witness :
  write_field BKEY_CMD_ADD [1; 2; 3] 3 100%nat 5 = Some [1; 2; 3].
Proof.
  apply (write_field_rejects BKEY_CMD_ADD [1; 2; 3] 3 100 5).
  left. reflexivity.
Defined.

(** ** Device slots *)

Lemma update_slot_nth (idx j : nat) (f : bch_dev -> bch_dev)
    (ds : list (option bch_dev)) :
  nth_error (update_slot idx f ds) j =
  if Nat.eqb j idx then option_map (option_map f) (nth_error ds j)
  else nth_error ds j.
Proof.
  revert idx j. induction ds as [|o ds IH]; intros [|idx] [|j]; simpl;
    try reflexivity.
  - now destruct (Nat.eqb j idx).
  - apply IH.
Qed.

Lemma update_slot_compose (idx : nat) (f g : bch_dev -> bch_dev)
    (ds : list (option bch_dev)) :
  update_slot idx g (update_slot idx f ds) = update_slot idx (fun ca => g (f ca)) ds.
Proof.
  revert idx. induction ds as [|o ds IH]; intros [|idx]; simpl; try reflexivity.
  - now destruct o.
  - now rewrite IH.
Qed.

Lemma update_slot_length (idx : nat) (f : bch_dev -> bch_dev)
    (ds : list (option bch_dev)) :
  List.length (update_slot idx f ds) = List.length ds.
Proof.
  revert idx. induction ds as [|o ds IH]; intros [|idx]; simpl; try reflexivity.
  now rewrite IH.
Qed.

Lemma update_slot_other (idx j : nat) (f : bch_dev -> bch_dev)
    (ds : list (option bch_dev)) :
  j <> idx -> nth_error (update_slot idx f ds) j = nth_error ds j.
Proof.
  intros H. rewrite update_slot_nth.
  destruct (Nat.eqb_spec j idx); [contradiction|reflexivity].
Qed.

Lemma update_slot_same (idx : nat) (f : bch_dev -> bch_dev)
    (ds : list (option bch_dev)) (ca : bch_dev) :
  nth_error ds idx = Some (Some ca) ->
  nth_error (update_slot idx f ds) idx = Some (Some (f ca)).
Proof. intros H. now rewrite update_slot_nth, Nat.eqb_refl, H. Qed.

Lemma dev_at_nth (c : bch_fs) (idx : nat) (ca : bch_dev) :
  dev_at c idx = Some ca <-> nth_error (devs c) idx = Some (Some ca).
Proof.
  unfold dev_at. destruct (nth_error (devs c) idx) as [[x|]|]; split; intros H;
    try discriminate H; now injection H as ->.
Qed.

Lemma list_set_in_range {A : Type} (i : nat) (x : A) (l : list A) :
  (i < List.length l)%nat -> exists l', list_set i x l = Some l'.
Proof.
  revert i. induction l as [|y l IH]; intros i H; [simpl in H; lia|].
  destruct i as [|i]; simpl; [eauto|].
  destruct (IH i) as [r ->]; [simpl in H; lia|]. eauto.
Qed.

Lemma __bch2_dev_read_only_eq (idx : nat) (c : bch_fs) :
  __bch2_dev_read_only idx c =
  set_trace (trace c ++ dev_stop_events idx)
            (set_devs (update_slot idx stop_dev (devs c)) c).
Proof.
  destruct c as [p st fl o u sb ds jh gc tier wl pd row tr].
  unfold __bch2_dev_read_only, dev_call, dev_stop_events. fs_norm.
  rewrite !update_slot_compose. f_equal. reassoc.
Qed.

Lemma stop_dev_stopped (ca : bch_dev) : dev_stopped (stop_dev ca).
Proof. repeat split. Qed.

(** ** [__bch2_dev_set_state] *)

Lemma member_state_eqb_eq (a b : bch_member_state) :
  member_state_eqb a b = true <-> a = b.
Proof. destruct a, b; split; intros H; try reflexivity; discriminate H. Qed.

Lemma member_state_eqb_neq (a b : bch_member_state) :
  member_state_eqb a b = false <-> a <> b.
Proof.
  destruct a, b; split; intros H; try reflexivity; try discriminate H;
    try (intros E; discriminate E); now contradiction H.
Qed.

Lemma SET_BCH_MEMBER_STATE_spec (idx : nat) (st : bch_member_state) (sb : bch_sb)
    (m : bch_member) :
  nth_error (members sb) idx = Some m ->
  exists ms,
    SET_BCH_MEMBER_STATE idx st sb = Some (set_members ms sb) /\
    nth_error ms idx =
      Some (mk_member (m_uuid m) (m_nbuckets m) (m_bucket_size m) st
                      (m_last_mount m)) /\
    List.length ms = List.length (members sb) /\
    (forall j, j <> idx -> nth_error ms j = nth_error (members sb) j).
Proof.
  intros Hm. unfold SET_BCH_MEMBER_STATE. rewrite Hm.
  destruct (list_set_in_range idx
              (mk_member (m_uuid m) (m_nbuckets m) (m_bucket_size m) st
                         (m_last_mount m)) (members sb)) as [ms E].
  { apply nth_error_Some. now rewrite Hm. }
  rewrite E. exists ms. repeat split.
  - now apply list_set_nth_error in E.
  - now apply list_set_length in E.
  - intros j Hj. now apply (list_set_other _ _ _ _ _ E).
Qed.

(** X5: [__bch2_dev_set_state] cannot bring a device to RW.  When the
    device's cached membership state is already RW the call returns 0 and
    changes nothing; for a device in any other state the request passes
    [bch2_dev_state_allowed] and then reaches
    [BUG_ON(ca->mi.state != BCH_MEMBER_STATE_RW)] in
    [__bch2_dev_read_write], which is called before the state is updated. *)
Theorem __bch2_dev_set_state_to_rw (env : collaborators) (idx : nat)
    (flags : Z) (c : bch_fs) (ca : bch_dev) :
  dev_at c idx = Some ca ->
  __bch2_dev_set_state env idx BCH_MEMBER_STATE_RW flags c =
  if is_rw ca then Some (c, 0) else None.
Proof.
  intros H. unfold __bch2_dev_set_state, __bch2_dev_read_write, is_rw.
  rewrite H.
  destruct (member_state_eqb (mi_state (mi ca)) BCH_MEMBER_STATE_RW);
    reflexivity.
Qed.

Lemma __bch2_dev_set_state_to_rw_witness :
  dev_at DevExamples.fs_mixed 1 = Some (Examples.dev 1 BCH_MEMBER_STATE_RO) /\
  __bch2_dev_set_state Examples.env_ok 1 BCH_MEMBER_STATE_RW 0
    DevExamples.fs_mixed = None.
Proof.
  split; [reflexivity|].
  exact (__bch2_dev_set_state_to_rw Examples.env_ok 1 0 DevExamples.fs_mixed
           (Examples.dev 1 BCH_MEMBER_STATE_RO) eq_refl).
Defined.

(** X6: the return codes of [__bch2_dev_set_state].  A call that returns
    does so with 0 or with [-EINVAL]; the [-ENOMEM] of the source is never
    returned, because [__bch2_dev_read_write] is only reached with a device
    that fails its [BUG_ON].  A call that returns [-EINVAL] was refused by
    [bch2_dev_state_allowed] and leaves the instance as it was. *)
Theorem __bch2_dev_set_state_codes (env : collaborators) (idx : nat)
    (new_state : bch_member_state) (flags : Z) (c c' : bch_fs) (r : Z) :
  __bch2_dev_set_state env idx new_state flags c = Some (c', r) ->
  r <> - ENOMEM /\
  (r = 0 \/
   r = - EINVAL /\ c' = c /\
   exists ca, dev_at c idx = Some ca /\
              bch2_dev_state_allowed env c ca new_state flags = false).
Proof.
  unfold __bch2_dev_set_state. intros H.
  destruct (dev_at c idx) as [ca|] eqn:Hca; [|discriminate H].
  destruct (member_state_eqb (mi_state (mi ca)) new_state) eqn:E.
  { injection H as <- <-. split; [discriminate|now left]. }
  destruct (bch2_dev_state_allowed env c ca new_state flags) eqn:Ha;
    cbn [negb] in H.
  2:{ injection H as <- <-. split; [discriminate|].
      right. repeat split. now exists ca. }
  destruct new_state; cbn [member_state_eqb] in H.
  - unfold __bch2_dev_read_write in H. rewrite Hca, E in H. discriminate H.
  - destruct (SET_BCH_MEMBER_STATE idx BCH_MEMBER_STATE_RO _); [|discriminate H].
    injection H as <- <-. split; [discriminate|now left].
  - destruct (SET_BCH_MEMBER_STATE idx BCH_MEMBER_STATE_FAILED _); [|discriminate H].
    injection H as <- <-. split; [discriminate|now left].
  - destruct (SET_BCH_MEMBER_STATE idx BCH_MEMBER_STATE_SPARE _); [|discriminate H].
    injection H as <- <-. split; [discriminate|now left].
Qed.

Lemma __bch2_dev_set_state_codes_witness :
  __bch2_dev_set_state DevExamples.env_never_enough 1 BCH_MEMBER_STATE_FAILED 0
    DevExamples.fs_mixed = Some (DevExamples.fs_mixed, - EINVAL) /\
  (- EINVAL <> - ENOMEM /\
   (- EINVAL = 0 \/
    - EINVAL = - EINVAL /\ DevExamples.fs_mixed = DevExamples.fs_mixed /\
    exists ca, dev_at DevExamples.fs_mixed 1 = Some ca /\
               bch2_dev_state_allowed DevExamples.env_never_enough
                 DevExamples.fs_mixed ca BCH_MEMBER_STATE_FAILED 0 = false)).
Proof.
  split; [reflexivity|].
  exact (__bch2_dev_set_state_codes DevExamples.env_never_enough 1
           BCH_MEMBER_STATE_FAILED 0 DevExamples.fs_mixed DevExamples.fs_mixed
           (- EINVAL) eq_refl).
Defined.

(** X7: a granted change of a device to RO, FAILED or SPARE.  When the
    device is in another state and [bch2_dev_state_allowed] grants the
    request, [__bch2_dev_set_state] returns 0; the device's moving-GC and
    allocator workers are stopped and the device is taken out of the
    allocation pool, in that order, before the superblock is written; the
    member entry of the device in the superblock carries the new state and is
    otherwise unchanged; no other device record, no other member entry and
    not the filesystem state is touched. *)
Theorem __bch2_dev_set_state_stops (env : collaborators) (idx : nat)
    (new_state : bch_member_state) (force : Z) (c : bch_fs) (ca : bch_dev)
    (m : bch_member) :
  dev_at c idx = Some ca ->
  nth_error (members (disk_sb c)) idx = Some m ->
  new_state <> BCH_MEMBER_STATE_RW ->
  mi_state (mi ca) <> new_state ->
  bch2_dev_state_allowed env c ca new_state force = true ->
  exists c',
    __bch2_dev_set_state env idx new_state force c = Some (c', 0) /\
    dev_at c' idx = Some (stop_dev ca) /\
    (forall j, j <> idx -> nth_error (devs c') j = nth_error (devs c) j) /\
    nth_error (members (disk_sb c')) idx =
      Some (mk_member (m_uuid m) (m_nbuckets m) (m_bucket_size m) new_state
                      (m_last_mount m)) /\
    (forall j, j <> idx ->
       nth_error (members (disk_sb c')) j = nth_error (members (disk_sb c)) j) /\
    trace c' = trace c ++ dev_stop_events idx ++ [EvWriteSuper] /\
    state c' = state c /\ flags c' = flags c.
Proof.
  intros Hca Hm Hrw Hne Ha.
  unfold __bch2_dev_set_state. rewrite Hca.
  apply member_state_eqb_neq in Hne. rewrite Hne, Ha. cbn [negb].
  apply member_state_eqb_neq in Hrw. rewrite Hrw.
  rewrite __bch2_dev_read_only_eq.
  apply dev_at_nth in Hca.
  destruct c as [p st fl o u sb ds jh gc tier wl pd row tr].
  unfold bch2_write_super, dev_at. fs_norm. cbn [devs disk_sb] in Hca, Hm.
  destruct (SET_BCH_MEMBER_STATE_spec idx new_state sb m Hm)
    as (ms & -> & Hidx & _ & Hother).
  eexists. split; [reflexivity|]. fs_norm. cbn [members set_members].
  repeat split.
  - now rewrite (update_slot_same _ _ _ _ Hca).
  - intros j Hj. now apply update_slot_other.
  - exact Hidx.
  - exact Hother.
  - reassoc.
Qed.

Lemma __bch2_dev_set_state_stops_witness :
  exists c',
    __bch2_dev_set_state Examples.env_ok 0 BCH_MEMBER_STATE_RO 0
      DevExamples.fs_mixed = Some (c', 0) /\
    dev_at c' 0 = Some (stop_dev (DevExamples.dev_up 0 BCH_MEMBER_STATE_RW)) /\
    (forall j, j <> 0%nat ->
       nth_error (devs c') j = nth_error (devs DevExamples.fs_mixed) j) /\
    nth_error (members (disk_sb c')) 0 =
      Some (mk_member 11 4096 1024 BCH_MEMBER_STATE_RO 0) /\
    (forall j, j <> 0%nat ->
       nth_error (members (disk_sb c')) j =
       nth_error (members (disk_sb DevExamples.fs_mixed)) j) /\
    trace c' = trace DevExamples.fs_mixed ++ dev_stop_events 0 ++ [EvWriteSuper] /\
    state c' = state DevExamples.fs_mixed /\
    flags c' = flags DevExamples.fs_mixed.
Proof.
  apply (__bch2_dev_set_state_stops Examples.env_ok 0 BCH_MEMBER_STATE_RO 0
           DevExamples.fs_mixed (DevExamples.dev_up 0 BCH_MEMBER_STATE_RW)
           (Examples.member_rw 11 4096)).
  - reflexivity.
  - reflexivity.
  - discriminate.
  - discriminate.
  - reflexivity.
Defined.

(** ** [bch2_dev_offline] *)

Lemma __bch2_dev_offline_eq (idx : nat) (c : bch_fs) (ca : bch_dev) :
  dev_at c idx = Some ca ->
  __bch2_dev_offline idx c =
  if bdev ca
  then Some (set_trace (trace c ++ dev_stop_events idx)
               (set_devs (update_slot idx (fun ca => set_bdev false (stop_dev ca))
                                      (devs c)) c))
  else None.
Proof.
  intros Hca. unfold __bch2_dev_offline. rewrite Hca.
  destruct (bdev ca); [|reflexivity].
  rewrite __bch2_dev_read_only_eq.
  destruct c as [p st fl o u sb ds jh gc tier wl pd row tr]. fs_norm.
  now rewrite update_slot_compose.
Qed.

Lemma __bch2_dev_read_only_dev_at (idx : nat) (c : bch_fs) (ca : bch_dev) :
  dev_at c idx = Some ca ->
  dev_at (__bch2_dev_read_only idx c) idx = Some (stop_dev ca).
Proof.
  intros Hca. rewrite __bch2_dev_read_only_eq. apply dev_at_nth.
  apply dev_at_nth in Hca. cbn [devs set_trace set_devs].
  now apply update_slot_same.
Qed.

Lemma bch2_dev_offline_eq (env : collaborators) (idx : nat) (force : Z)
    (c : bch_fs) (ca : bch_dev) :
  dev_at c idx = Some ca ->
  bch2_dev_state_allowed env c ca BCH_MEMBER_STATE_FAILED force = true ->
  bch2_dev_offline env idx force c =
  if bdev ca
  then Some (set_trace (trace c ++ dev_stop_events idx ++ dev_stop_events idx)
               (set_devs (update_slot idx (fun ca => set_bdev false (stop_dev ca))
                                      (devs c)) c), 0)
  else None.
Proof.
  intros Hca Ha. unfold bch2_dev_offline. rewrite Hca, Ha. cbn [negb].
  rewrite (__bch2_dev_offline_eq idx _ (stop_dev ca))
    by (now apply __bch2_dev_read_only_dev_at).
  change (bdev (stop_dev ca)) with (bdev ca).
  destruct (bdev ca); [|reflexivity].
  rewrite __bch2_dev_read_only_eq.
  destruct c as [p st fl o u sb ds jh gc tier wl pd row tr]. fs_norm.
  rewrite !update_slot_compose. do 2 f_equal. f_equal. reassoc.
Qed.

(** X8: a granted [bch2_dev_offline] of an attached device.  The call
    returns 0; the device's workers are stopped, it is out of the allocation
    pool and its block device is detached; its cached member information,
    every other device record, the superblock (the member's state included)
    and the filesystem state are unchanged.  The stop calls are made twice:
    once by [bch2_dev_offline] and once by [__bch2_dev_offline].  The call
    does not test whether the device is attached: a further
    [bch2_dev_offline] of the now detached device, when it is granted as
    well, kills an [io_ref] that is already dead and waits for a completion
    nothing signals, so it does not return. *)
Theorem bch2_dev_offline_detaches (env : collaborators) (idx : nat)
    (force : Z) (c : bch_fs) (ca : bch_dev) :
  dev_at c idx = Some ca ->
  bdev ca = true ->
  bch2_dev_state_allowed env c ca BCH_MEMBER_STATE_FAILED force = true ->
  exists c' ca',
    bch2_dev_offline env idx force c = Some (c', 0) /\
    dev_at c' idx = Some ca' /\
    bdev ca' = false /\ dev_stopped ca' /\ mi ca' = mi ca /\
    (forall j, j <> idx -> nth_error (devs c') j = nth_error (devs c) j) /\
    disk_sb c' = disk_sb c /\ state c' = state c /\
    trace c' = trace c ++ dev_stop_events idx ++ dev_stop_events idx /\
    (forall force',
       bch2_dev_state_allowed env c' ca' BCH_MEMBER_STATE_FAILED force' = true ->
       bch2_dev_offline env idx force' c' = None).
Proof.
  intros Hca Hb Ha. rewrite (bch2_dev_offline_eq _ _ _ _ _ Hca Ha), Hb.
  assert (Hca' : dev_at
            (set_trace (trace c ++ dev_stop_events idx ++ dev_stop_events idx)
               (set_devs (update_slot idx (fun ca => set_bdev false (stop_dev ca))
                                      (devs c)) c)) idx =
          Some (set_bdev false (stop_dev ca))).
  { apply dev_at_nth. apply dev_at_nth in Hca. cbn [devs set_trace set_devs].
    now apply (update_slot_same idx (fun ca => set_bdev false (stop_dev ca))). }
  eexists. exists (set_bdev false (stop_dev ca)).
  split; [reflexivity|].
  split; [exact Hca'|].
  repeat split.
  - intros j Hj. cbn [devs set_trace set_devs]. now apply update_slot_other.
  - intros force' Ha'. now rewrite (bch2_dev_offline_eq _ _ _ _ _ Hca' Ha').
Qed.

Lemma bch2_dev_offline_detaches_witness :
  exists c' ca',
    bch2_dev_offline Examples.env_ok 0 0 DevExamples.fs_mixed = Some (c', 0) /\
    dev_at c' 0 = Some ca' /\
    bdev ca' = false /\ dev_stopped ca' /\
    mi ca' = mi (DevExamples.dev_up 0 BCH_MEMBER_STATE_RW) /\
    (forall j, j <> 0%nat ->
       nth_error (devs c') j = nth_error (devs DevExamples.fs_mixed) j) /\
    disk_sb c' = disk_sb DevExamples.fs_mixed /\
    state c' = state DevExamples.fs_mixed /\
    trace c' = trace DevExamples.fs_mixed ++ dev_stop_events 0 ++ dev_stop_events 0 /\
    bch2_dev_offline Examples.env_ok 0 0 c' = None.
Proof.
  destruct (bch2_dev_offline_detaches Examples.env_ok 0 0 DevExamples.fs_mixed
              (DevExamples.dev_up 0 BCH_MEMBER_STATE_RW) eq_refl eq_refl eq_refl)
    as (c' & ca' & Hoff & Hca & Hb & Hstop & Hmi & Hothers & Hsb & Hst & Htr &
        Hagain).
  exists c', ca'. repeat (split; [assumption|]).
  apply Hagain. unfold bch2_dev_state_allowed. rewrite Hmi. reflexivity.
Defined.

Lemma filter_neq_id (n : nat) (l : list nat) :
  ~ In n l -> filter (fun i => negb (Nat.eqb i n)) l = l.
Proof.
  induction l as [|x l IH]; intros H; [reflexivity|]. simpl.
  destruct (Nat.eqb_spec x n) as [->|_]; simpl.
  - exfalso. apply H. now left.
  - f_equal. apply IH. intros Hin. apply H. now right.
Qed.

Lemma online_idx_range (k : nat) (ds : list (option bch_dev)) (x : nat) :
  (forall j ca, nth_error ds j = Some (Some ca) -> dev_idx ca = (k + j)%nat) ->
  In x (map dev_idx (filter bdev (member_devices ds))) -> (k <= x)%nat.
Proof.
  revert k. induction ds as [|o ds IH]; intros k H Hin; [contradiction Hin|].
  assert (Hds : forall j ca, nth_error ds j = Some (Some ca) ->
                             dev_idx ca = (S k + j)%nat).
  { intros j ca Hj. rewrite (H (S j) ca Hj). lia. }
  destruct o as [ca|]; simpl in Hin.
  - destruct (bdev ca); simpl in Hin.
    + destruct Hin as [<-|Hin].
      * rewrite (H 0%nat ca eq_refl). lia.
      * specialize (IH (S k) Hds Hin). lia.
    + specialize (IH (S k) Hds Hin). lia.
  - specialize (IH (S k) Hds Hin). lia.
Qed.

Lemma online_update_slot (k idx : nat) (f : bch_dev -> bch_dev)
    (ds : list (option bch_dev)) :
  (forall ca, bdev (f ca) = false) ->
  (forall j ca, nth_error ds j = Some (Some ca) -> dev_idx ca = (k + j)%nat) ->
  map dev_idx (filter bdev (member_devices (update_slot idx f ds))) =
  filter (fun i => negb (Nat.eqb i (k + idx)))
         (map dev_idx (filter bdev (member_devices ds))).
Proof.
  intros Hf. revert k idx. induction ds as [|o ds IH]; intros k idx H.
  { destruct idx; reflexivity. }
  assert (Hds : forall j ca, nth_error ds j = Some (Some ca) ->
                             dev_idx ca = (S k + j)%nat).
  { intros j ca Hj. rewrite (H (S j) ca Hj). lia. }
  assert (Hk : ~ In k (map dev_idx (filter bdev (member_devices ds)))).
  { intros Hin. apply (online_idx_range (S k)) in Hin; [lia|exact Hds]. }
  destruct idx as [|idx].
  - rewrite Nat.add_0_r. destruct o as [ca|]; simpl.
    + rewrite Hf. destruct (bdev ca); simpl.
      * rewrite (H 0%nat ca eq_refl), Nat.add_0_r, Nat.eqb_refl. simpl.
        now rewrite filter_neq_id.
      * now rewrite filter_neq_id.
    + now rewrite filter_neq_id.
  - replace (k + S idx)%nat with (S k + idx)%nat by lia.
    destruct o as [ca|]; simpl.
    + destruct (bdev ca); simpl.
      * rewrite (H 0%nat ca eq_refl), Nat.add_0_r.
        destruct (Nat.eqb_spec k (S (k + idx))) as [E|_]; [lia|]. simpl.
        f_equal. apply (IH (S k) idx Hds).
      * apply (IH (S k) idx Hds).
    + apply (IH (S k) idx Hds).
Qed.

(** X9: a required device is not taken offline.  On an instance whose
    records sit in their slots, a [bch2_dev_offline] that returns 0 for a
    device in membership state RW or RO leaves exactly the set of online
    devices that [bch2_have_enough_devs] accepted: the online devices after
    the call are those before it without the device, and that set was
    judged sufficient under the caller's force flags. *)
Theorem bch2_dev_offline_enough_devs (env : collaborators) (idx : nat)
    (force : Z) (c c' : bch_fs) (ca : bch_dev) :
  slots_ok (devs c) ->
  dev_at c idx = Some ca ->
  mi_state (mi ca) = BCH_MEMBER_STATE_RW \/
  mi_state (mi ca) = BCH_MEMBER_STATE_RO ->
  bch2_dev_offline env idx force c = Some (c', 0) ->
  bch2_online_devs c' = clear_dev idx (bch2_online_devs c) /\
  ~ In idx (bch2_online_devs c') /\
  bch2_have_enough_devs env (bch2_online_devs c') force = true.
Proof.
  intros Hok Hca Hst H.
  destruct (bch2_dev_state_allowed env c ca BCH_MEMBER_STATE_FAILED force)
    eqn:Ha.
  2:{ unfold bch2_dev_offline in H. rewrite Hca, Ha in H. discriminate H. }
  rewrite (bch2_dev_offline_eq _ _ _ _ _ Hca Ha) in H.
  destruct (bdev ca); [|discriminate H]. injection H as <-.
  match goal with
  | |- bch2_online_devs ?x = _ /\ _ =>
      assert (E : bch2_online_devs x = clear_dev idx (bch2_online_devs c))
  end.
  { unfold bch2_online_devs, clear_dev. cbn [devs set_trace set_devs].
    apply (online_update_slot 0 idx); [reflexivity|exact Hok]. }
  rewrite E. split; [reflexivity|]. split.
  - unfold clear_dev. intros Hin. apply filter_In in Hin as [_ Hin].
    now rewrite Nat.eqb_refl in Hin.
  - unfold bch2_dev_state_allowed in Ha.
    apply dev_at_nth in Hca. rewrite (Hok idx ca Hca) in Ha.
    destruct Hst as [Hst|Hst]; rewrite Hst in Ha; exact Ha.
Qed.

Lemma bch2_dev_offline_enough_devs_witness :
  bch2_online_devs DevExamples.fs_mixed_offline =
    clear_dev 0 (bch2_online_devs DevExamples.fs_mixed) /\
  ~ In 0%nat (bch2_online_devs DevExamples.fs_mixed_offline) /\
  bch2_have_enough_devs Examples.env_ok
    (bch2_online_devs DevExamples.fs_mixed_offline) 0 = true.
Proof.
  apply (bch2_dev_offline_enough_devs Examples.env_ok 0 0 DevExamples.fs_mixed
           DevExamples.fs_mixed_offline
           (DevExamples.dev_up 0 BCH_MEMBER_STATE_RW)).
  - intros [|[|j]] ca H; try (injection H as <-; reflexivity).
    destruct j; discriminate H.
  - reflexivity.
  - now left.
  - reflexivity.
Defined.

(** ** [bch2_dev_remove] *)

Lemma zero_member_uuid_spec (idx : nat) (sb : bch_sb) (m : bch_member) :
  nth_error (members sb) idx = Some m ->
  exists ms,
    zero_member_uuid idx sb = Some (set_members ms sb) /\
    nth_error ms idx =
      Some (mk_member 0 (m_nbuckets m) (m_bucket_size m) (m_state m)
                      (m_last_mount m)) /\
    (forall j, j <> idx -> nth_error ms j = nth_error (members sb) j).
Proof.
  intros Hm. unfold zero_member_uuid. rewrite Hm.
  destruct (list_set_in_range idx
              (mk_member 0 (m_nbuckets m) (m_bucket_size m) (m_state m)
                         (m_last_mount m)) (members sb)) as [ms E].
  { apply nth_error_Some. now rewrite Hm. }
  rewrite E. exists ms. repeat split.
  - now apply list_set_nth_error in E.
  - intros j Hj. now apply (list_set_other _ _ _ _ _ E).
Qed.

(** X10: [bch2_dev_remove] reports success for a device that still has
    data.  When the device is not RW, the removal is allowed and
    [bch2_flag_data_bad] returns 0, but [bch2_dev_has_data] is non-zero, the
    [goto err] returns the value [ret] holds at that point, which is the 0
    of [bch2_flag_data_bad]: the call returns 0 and nothing was removed. *)
Theorem bch2_dev_remove_still_has_data (env : collaborators)
    (denv : dev_collaborators) (idx : nat) (force : Z) (c : bch_fs)
    (ca : bch_dev) :
  dev_at c idx = Some ca ->
  mi_state (mi ca) <> BCH_MEMBER_STATE_RW ->
  bch2_dev_state_allowed env c ca BCH_MEMBER_STATE_FAILED force = true ->
  bch2_flag_data_bad_ret denv idx = 0 ->
  bch2_dev_has_data denv idx <> 0 ->
  bch2_dev_remove env denv idx force c = Some (c, 0).
Proof.
  intros Hca Hrw Ha Hflag Hdata. unfold bch2_dev_remove.
  apply member_state_eqb_neq in Hrw. rewrite Hca, Hrw, Ha, Hflag.
  apply Z.eqb_neq in Hdata. now rewrite Hdata.
Qed.

Lemma bch2_dev_remove_still_has_data_witness :
  bch2_dev_remove Examples.env_ok DevExamples.denv_has_data 1 0
    DevExamples.fs_mixed = Some (DevExamples.fs_mixed, 0).
Proof.
  apply (bch2_dev_remove_still_has_data Examples.env_ok
           DevExamples.denv_has_data 1 0 DevExamples.fs_mixed
           (Examples.dev 1 BCH_MEMBER_STATE_RO)).
  - reflexivity.
  - discriminate.
  - reflexivity.
  - reflexivity.
  - discriminate.
Defined.

(** X11: a completed [bch2_dev_remove].  When the device is attached and
    not RW, the removal is allowed, [bch2_flag_data_bad] returns 0 and the
    device holds no data, the call returns 0; the device's slot in [c->devs]
    is empty and the UUID of its member entry is zero, so [bch2_dev_exists]
    no longer holds for the slot; every other slot and member is as before
    and the member table keeps its size.  The journal is written first, then
    the device is stopped, then the superblock is written.  When the device
    passes the same checks but has no block device attached, the call does
    not return: [__bch2_dev_offline] waits for a completion that nothing
    signals. *)
Theorem bch2_dev_remove_frees_slot (env : collaborators)
    (denv : dev_collaborators) (idx : nat) (force : Z) (c : bch_fs)
    (ca : bch_dev) (m : bch_member) :
  dev_at c idx = Some ca ->
  nth_error (members (disk_sb c)) idx = Some m ->
  mi_state (mi ca) <> BCH_MEMBER_STATE_RW ->
  bch2_dev_state_allowed env c ca BCH_MEMBER_STATE_FAILED force = true ->
  bch2_flag_data_bad_ret denv idx = 0 ->
  bch2_dev_has_data denv idx = 0 ->
  (bdev ca = false -> bch2_dev_remove env denv idx force c = None) /\
  (bdev ca = true ->
   exists c',
     bch2_dev_remove env denv idx force c = Some (c', 0) /\
     nth_error (devs c') idx = Some None /\
     (forall j, j <> idx -> nth_error (devs c') j = nth_error (devs c) j) /\
     bch2_dev_exists (disk_sb c') idx = false /\
     (forall j, j <> idx ->
        bch2_dev_exists (disk_sb c') j = bch2_dev_exists (disk_sb c) j) /\
     nr_devices (disk_sb c') = nr_devices (disk_sb c) /\
     trace c' =
       trace c ++ [EvJournalMeta] ++ dev_stop_events idx ++ [EvWriteSuper]).
Proof.
  intros Hca Hm Hrw Ha Hflag Hdata. unfold bch2_dev_remove.
  apply member_state_eqb_neq in Hrw. rewrite Hca, Hrw, Ha, Hflag, Hdata.
  cbn [Z.eqb negb].
  rewrite (__bch2_dev_offline_eq idx (log EvJournalMeta c) ca)
    by (exact Hca).
  split; intros Hb; rewrite Hb; [reflexivity|].
  apply dev_at_nth in Hca.
  destruct c as [p st fl o u sb ds jh gc tier wl pd row tr].
  cbn [devs disk_sb] in Hca, Hm.
  unfold bch2_dev_stop, bch2_write_super. fs_norm.
  destruct (list_set_in_range idx (@None bch_dev)
              (update_slot idx (fun ca => set_bdev false (stop_dev ca)) ds))
    as [ds' E].
  { rewrite update_slot_length. apply nth_error_Some. now rewrite Hca. }
  rewrite E. fs_norm.
  destruct (zero_member_uuid_spec idx sb m Hm) as (ms & -> & Hidx & Hother).
  eexists. split; [reflexivity|]. fs_norm.
  split; [now apply list_set_nth_error in E|].
  split.
  { intros j Hj. rewrite (list_set_other _ _ _ _ _ E Hj).
    now apply update_slot_other. }
  unfold bch2_dev_exists. cbn [members set_members nr_devices].
  split; [rewrite Hidx; cbn [m_uuid Z.eqb negb]; apply andb_false_r|].
  split; [intros j Hj; now rewrite (Hother j Hj)|].
  split; [reflexivity|reassoc].
Qed.

Lemma bch2_dev_remove_frees_slot_witness :
  (exists c',
     bch2_dev_remove Examples.env_ok DevExamples.denv_ok 1 0
       DevExamples.fs_mixed = Some (c', 0) /\
     nth_error (devs c') 1 = Some None /\
     (forall j, j <> 1%nat ->
        nth_error (devs c') j = nth_error (devs DevExamples.fs_mixed) j) /\
     bch2_dev_exists (disk_sb c') 1 = false /\
     (forall j, j <> 1%nat ->
        bch2_dev_exists (disk_sb c') j =
        bch2_dev_exists (disk_sb DevExamples.fs_mixed) j) /\
     nr_devices (disk_sb c') = nr_devices (disk_sb DevExamples.fs_mixed) /\
     trace c' =
       trace DevExamples.fs_mixed ++ [EvJournalMeta] ++ dev_stop_events 1 ++
       [EvWriteSuper]) /\
  bch2_dev_remove Examples.env_ok DevExamples.denv_ok 1 0
    DevExamples.fs_ro_detached = None.
Proof.
  split.
  - apply (bch2_dev_remove_frees_slot Examples.env_ok DevExamples.denv_ok 1 0
             DevExamples.fs_mixed (Examples.dev 1 BCH_MEMBER_STATE_RO)
             (mk_member 12 65536 1024 BCH_MEMBER_STATE_RO 0));
      first [reflexivity|discriminate].
  - apply (bch2_dev_remove_frees_slot Examples.env_ok DevExamples.denv_ok 1 0
             DevExamples.fs_ro_detached
             (set_bdev false (Examples.dev 1 BCH_MEMBER_STATE_RO))
             (mk_member 12 65536 1024 BCH_MEMBER_STATE_RO 0));
      first [reflexivity|discriminate].
Defined.

(** X12: [bch2_dev_remove] changes the instance only on its success path.
    Whenever the call returns, either the instance is exactly as before, or
    the return code is 0 and every check had passed: the device is not RW,
    [bch2_dev_state_allowed] granted the removal, [bch2_flag_data_bad]
    returned 0 and the device held no data.  In particular a device in
    membership state RW is never removed, and that request is answered
    [-EINVAL]. *)
Theorem bch2_dev_remove_only_if (env : collaborators)
    (denv : dev_collaborators) (idx : nat) (force : Z) (c c' : bch_fs)
    (r : Z) :
  bch2_dev_remove env denv idx force c = Some (c', r) ->
  exists ca,
    dev_at c idx = Some ca /\
    (is_rw ca = true -> r = - EINVAL) /\
    (c' = c \/
     r = 0 /\ is_rw ca = false /\
     bch2_dev_state_allowed env c ca BCH_MEMBER_STATE_FAILED force = true /\
     bch2_flag_data_bad_ret denv idx = 0 /\
     bch2_dev_has_data denv idx = 0).
Proof.
  unfold bch2_dev_remove, is_rw. intros H.
  destruct (dev_at c idx) as [ca|]; [|discriminate H].
  exists ca. split; [reflexivity|].
  destruct (member_state_eqb (mi_state (mi ca)) BCH_MEMBER_STATE_RW).
  { injection H as <- <-. split; [reflexivity|now left]. }
  split; [discriminate|].
  destruct (bch2_dev_state_allowed env c ca BCH_MEMBER_STATE_FAILED force);
    cbn [negb] in H.
  2:{ injection H as <- <-. now left. }
  destruct (Z.eqb_spec (bch2_flag_data_bad_ret denv idx) 0) as [Hf|Hf];
    cbn [negb] in H.
  2:{ injection H as <- <-. now left. }
  destruct (Z.eqb_spec (bch2_dev_has_data denv idx) 0) as [Hd|Hd];
    cbn [negb] in H.
  2:{ injection H as <- <-. now left. }
  destruct (__bch2_dev_offline idx _) as [c1|]; [|discriminate H].
  destruct (zero_member_uuid idx _) as [sb|]; [|discriminate H].
  injection H as <- <-. right. repeat split; assumption.
Qed.

Lemma bch2_dev_remove_only_if_witness :
  exists ca,
    dev_at DevExamples.fs_mixed 0 = Some ca /\
    (is_rw ca = true -> - EINVAL = - EINVAL) /\
    (DevExamples.fs_mixed = DevExamples.fs_mixed \/
     - EINVAL = 0 /\ is_rw ca = false /\
     bch2_dev_state_allowed Examples.env_ok DevExamples.fs_mixed ca
       BCH_MEMBER_STATE_FAILED 0 = true /\
     bch2_flag_data_bad_ret DevExamples.denv_ok 0 = 0 /\
     bch2_dev_has_data DevExamples.denv_ok 0 = 0).
Proof.
  exact (bch2_dev_remove_only_if Examples.env_ok DevExamples.denv_ok 0 0
           DevExamples.fs_mixed DevExamples.fs_mixed (- EINVAL) eq_refl).
Defined.

(** ** [__bch2_dev_read_write] and [bch2_dev_online] *)

Lemma list_set_update_slot (idx : nat) (f : bch_dev -> bch_dev)
    (ds : list (option bch_dev)) (ca : bch_dev) :
  nth_error ds idx = Some (Some ca) ->
  list_set idx (Some (f ca)) ds = Some (update_slot idx f ds).
Proof.
  revert idx. induction ds as [|o ds IH]; intros [|idx] H; try discriminate H.
  - simpl in H. injection H as ->. reflexivity.
  - simpl in H. simpl. now rewrite (IH idx H).
Qed.

Lemma __bch2_dev_read_write_ok (env : collaborators) (idx : nat) (c : bch_fs)
    (ca : bch_dev) :
  dev_at c idx = Some ca ->
  is_rw ca = true ->
  bch2_dev_allocator_start_fails env idx = false ->
  bch2_moving_gc_start_fails env idx = false ->
  bch2_tiering_start_fails env = false ->
  __bch2_dev_read_write env idx c =
  Some (set_tiering_thread true
          (set_trace (trace c ++ dev_start_events idx)
             (set_devs (update_slot idx start_dev (devs c)) c)), None).
Proof.
  intros Hca Hrw Hal Hmg Htier. unfold __bch2_dev_read_write.
  unfold is_rw in Hrw. rewrite Hca, Hrw. cbn [negb].
  destruct c as [p st fl o u sb ds jh gc tier wl pd row tr].
  unfold FsM.bind, FsM.lift, dev_start, bch2_tiering_start, dev_call,
    bch2_recalc_capacity.
  rewrite Hal, Hmg, Htier. fs_norm.
  rewrite !update_slot_compose. unfold dev_start_events.
  do 2 f_equal. f_equal. reassoc.
Qed.

Lemma __bch2_dev_online_attaches (env : collaborators) (c : bch_fs)
    (sb : bch_sb) (ca : bch_dev) :
  seq sb <= seq (disk_sb c) ->
  dev_at c (sb_dev_idx sb) = Some ca ->
  bdev ca = false ->
  bch2_dev_journal_init_ret env (dev_idx ca) = 0 ->
  __bch2_dev_online env c sb =
  Some (set_trace (trace c ++ dev_attach_events ca)
          (set_devs (update_slot (sb_dev_idx sb) attach_dev (devs c)) c), 0).
Proof.
  intros Hseq Hca Hb Hj. unfold __bch2_dev_online.
  assert (E : (seq (disk_sb c) <? seq sb) = false) by (apply Z.ltb_ge; lia).
  rewrite E. apply dev_at_nth in Hca. rewrite Hca, Hb, Hj. cbn [Z.eqb negb].
  destruct c as [p st fl o u sb0 ds jh gc tier wl pd row tr].
  cbn [devs] in Hca. unfold dev_attach_events, is_rw.
  cbv zeta.
  change (mi (set_bdev true ca)) with (mi ca).
  change (dev_idx (set_bdev true ca)) with (dev_idx ca).
  destruct (member_state_eqb (mi_state (mi ca)) BCH_MEMBER_STATE_RW) eqn:Hrw.
  - change (dev_idx (set_in_alloc_pool true (set_bdev true ca)))
      with (dev_idx ca).
    change (mi (set_in_alloc_pool true (set_bdev true ca))) with (mi ca).
    rewrite Hrw.
    replace (set_in_alloc_pool true (set_bdev true ca)) with (attach_dev ca)
      by (unfold attach_dev, is_rw; now rewrite Hrw).
    fs_norm. rewrite (list_set_update_slot _ attach_dev _ _ Hca).
    do 2 f_equal. f_equal. reassoc.
  - cbv beta iota. change (mi (set_bdev true ca)) with (mi ca). rewrite Hrw.
    replace (set_bdev true ca) with (attach_dev ca)
      by (unfold attach_dev, is_rw; now rewrite Hrw).
    fs_norm. rewrite (list_set_update_slot _ attach_dev _ _ Hca).
    do 2 f_equal. f_equal. reassoc.
Qed.

Lemma attach_dev_key (ca : bch_dev) :
  mi (attach_dev ca) = mi ca /\ dev_idx (attach_dev ca) = dev_idx ca /\
  bdev (attach_dev ca) = true.
Proof. unfold attach_dev. now destruct (is_rw ca). Qed.

Lemma __bch2_dev_online_occupied (env : collaborators) (c : bch_fs)
    (sb : bch_sb) (ca : bch_dev) :
  seq sb <= seq (disk_sb c) ->
  dev_at c (sb_dev_idx sb) = Some ca ->
  bdev ca = true ->
  __bch2_dev_online env c sb = Some (c, - EINVAL).
Proof.
  intros Hseq Hca Hb. unfold __bch2_dev_online.
  assert (E : (seq (disk_sb c) <? seq sb) = false) by (apply Z.ltb_ge; lia).
  rewrite E. apply dev_at_nth in Hca. now rewrite Hca, Hb.
Qed.

Lemma bch2_dev_online_occupied (env : collaborators) (denv : dev_collaborators)
    (path : string) (c : bch_fs) (sb : bch_sb) (ca : bch_dev) :
  bch2_read_super denv path = inr sb ->
  seq sb <= seq (disk_sb c) ->
  dev_at c (sb_dev_idx sb) = Some ca ->
  bdev ca = true ->
  bch2_dev_online env denv path c = Some (c, - EINVAL).
Proof.
  intros Hread Hseq Hca Hb. unfold bch2_dev_online. rewrite Hread.
  destruct (bch2_dev_in_fs (disk_sb c) sb); [reflexivity|].
  now rewrite (__bch2_dev_online_occupied _ _ _ _ Hseq Hca Hb).
Qed.

Lemma bch2_dev_online_spec (env : collaborators)
    (denv : dev_collaborators) (path : string) (c : bch_fs) (sb : bch_sb)
    (ca : bch_dev) :
  bch2_read_super denv path = inr sb ->
  bch2_dev_in_fs (disk_sb c) sb = None ->
  seq sb <= seq (disk_sb c) ->
  dev_at c (sb_dev_idx sb) = Some ca ->
  dev_idx ca = sb_dev_idx sb ->
  bdev ca = false ->
  bch2_dev_journal_init_ret env (sb_dev_idx sb) = 0 ->
  (is_rw ca = true ->
   bch2_dev_allocator_start_fails env (sb_dev_idx sb) = false /\
   bch2_moving_gc_start_fails env (sb_dev_idx sb) = false /\
   bch2_tiering_start_fails env = false) ->
  exists c' ca',
    bch2_dev_online env denv path c = Some (c', 0) /\
    dev_at c' (sb_dev_idx sb) = Some ca' /\
    bdev ca' = true /\ mi ca' = mi ca /\
    (if is_rw ca then dev_running ca' /\ tiering_thread c' = true
     else ca' = set_bdev true ca) /\
    (forall j, j <> sb_dev_idx sb ->
       nth_error (devs c') j = nth_error (devs c) j) /\
    disk_sb c' = disk_sb c /\ state c' = state c.
Proof.
  intros Hread Hin Hseq Hca Hidx Hb Hj Hstart.
  rewrite <- Hidx in Hj.
  pose proof (__bch2_dev_online_attaches env c sb ca Hseq Hca Hb Hj) as Hon.
  destruct (attach_dev_key ca) as (Hmi & _ & Hbd).
  set (c1 := set_trace (trace c ++ dev_attach_events ca)
               (set_devs (update_slot (sb_dev_idx sb) attach_dev (devs c)) c))
    in *.
  assert (Hca1 : dev_at c1 (sb_dev_idx sb) = Some (attach_dev ca)).
  { apply dev_at_nth. apply dev_at_nth in Hca. unfold c1.
    cbn [devs set_trace set_devs]. now apply update_slot_same. }
  assert (Hother1 : forall j, j <> sb_dev_idx sb ->
                      nth_error (devs c1) j = nth_error (devs c) j).
  { intros j Hne. unfold c1. cbn [devs set_trace set_devs].
    now apply update_slot_other. }
  unfold bch2_dev_online at 1. rewrite Hread, Hin, Hon. cbn [Z.eqb negb].
  rewrite Hca1, Hmi.
  destruct (is_rw ca) eqn:Hrw.
  - unfold is_rw in Hrw. rewrite Hrw.
    destruct (Hstart eq_refl) as (Hal & Hmg & Htier).
    assert (Hrw1 : is_rw (attach_dev ca) = true)
      by (unfold is_rw; now rewrite Hmi).
    rewrite (__bch2_dev_read_write_ok env _ c1 _ Hca1 Hrw1 Hal Hmg Htier).
    eexists. exists (start_dev (attach_dev ca)).
    split; [reflexivity|].
    assert (Hca2 : dev_at
                     (set_tiering_thread true
                        (set_trace (trace c1 ++ dev_start_events (sb_dev_idx sb))
                           (set_devs (update_slot (sb_dev_idx sb) start_dev
                                                  (devs c1)) c1)))
                     (sb_dev_idx sb) = Some (start_dev (attach_dev ca))).
    { apply dev_at_nth. apply dev_at_nth in Hca1.
      cbn [devs set_tiering_thread set_trace set_devs].
      now apply update_slot_same. }
    split; [exact Hca2|].
    split; [exact Hbd|]. split; [exact Hmi|].
    split; [split; [repeat split; exact Hbd|reflexivity]|].
    split.
    { intros j Hne. cbn [devs set_tiering_thread set_trace set_devs].
      rewrite update_slot_other by exact Hne. now apply Hother1. }
    split; reflexivity.
  - unfold is_rw in Hrw. rewrite Hrw.
    exists c1, (attach_dev ca).
    split; [reflexivity|]. split; [exact Hca1|].
    split; [exact Hbd|]. split; [exact Hmi|].
    split; [unfold attach_dev, is_rw; now rewrite Hrw|].
    split; [exact Hother1|].
    split; reflexivity.
Qed.

(** X13: [bch2_dev_online] on a detached member.  When the superblock read
    from [path] belongs to the filesystem, is not newer than the instance's,
    names a slot whose record has no block device, and the journal
    initialisation and (for an RW member) the worker starts succeed, the call
    returns 0 with the block device attached; an RW member is then in the
    allocation pool with its allocator and moving-GC workers and the
    tiering worker running, a member in another state is only attached.
    The cached member information, every other slot and the superblock are
    unchanged.  A second call with the same path finds the slot occupied:
    it returns [-EINVAL] and changes nothing. *)
Theorem bch2_dev_online_attaches (env : collaborators)
    (denv : dev_collaborators) (path : string) (c : bch_fs) (sb : bch_sb)
    (ca : bch_dev) :
  bch2_read_super denv path = inr sb ->
  bch2_dev_in_fs (disk_sb c) sb = None ->
  seq sb <= seq (disk_sb c) ->
  dev_at c (sb_dev_idx sb) = Some ca ->
  dev_idx ca = sb_dev_idx sb ->
  bdev ca = false ->
  bch2_dev_journal_init_ret env (sb_dev_idx sb) = 0 ->
  (is_rw ca = true ->
   bch2_dev_allocator_start_fails env (sb_dev_idx sb) = false /\
   bch2_moving_gc_start_fails env (sb_dev_idx sb) = false /\
   bch2_tiering_start_fails env = false) ->
  exists c' ca',
    bch2_dev_online env denv path c = Some (c', 0) /\
    dev_at c' (sb_dev_idx sb) = Some ca' /\
    bdev ca' = true /\ mi ca' = mi ca /\
    (if is_rw ca then dev_running ca' /\ tiering_thread c' = true
     else ca' = set_bdev true ca) /\
    (forall j, j <> sb_dev_idx sb ->
       nth_error (devs c') j = nth_error (devs c) j) /\
    disk_sb c' = disk_sb c /\ state c' = state c /\
    bch2_dev_online env denv path c' = Some (c', - EINVAL).
Proof.
  intros Hread Hin Hseq Hca Hidx Hb Hj Hstart.
  destruct (bch2_dev_online_spec env denv path c sb ca Hread Hin Hseq Hca
              Hidx Hb Hj Hstart)
    as (c' & ca' & Hon & Hca' & Hbd & Hmi & Hrun & Hother & Hsb & Hst).
  exists c', ca'. repeat (split; [assumption|]).
  apply (bch2_dev_online_occupied env denv path c' sb ca' Hread);
    [now rewrite Hsb|exact Hca'|exact Hbd].
Qed.

Lemma bch2_dev_online_attaches_witness :
  exists c' ca',
    bch2_dev_online Examples.env_ok DevExamples.denv_ok "/dev/sda"
      DevExamples.fs_mixed_offline = Some (c', 0) /\
    dev_at c' 0 = Some ca' /\
    bdev ca' = true /\ mi ca' = mi DevExamples.dev0_offline /\
    (dev_running ca' /\ tiering_thread c' = true) /\
    (forall j, j <> 0%nat ->
       nth_error (devs c') j = nth_error (devs DevExamples.fs_mixed_offline) j) /\
    disk_sb c' = disk_sb DevExamples.fs_mixed_offline /\
    state c' = state DevExamples.fs_mixed_offline /\
    bch2_dev_online Examples.env_ok DevExamples.denv_ok "/dev/sda" c' =
      Some (c', - EINVAL).
Proof.
  apply (bch2_dev_online_attaches Examples.env_ok DevExamples.denv_ok
           "/dev/sda" DevExamples.fs_mixed_offline (Examples.sb_two 0)
           DevExamples.dev0_offline).
  - reflexivity.
  - reflexivity.
  - vm_compute. discriminate.
  - reflexivity.
  - reflexivity.
  - reflexivity.
  - reflexivity.
  - intros _. repeat split.
Defined.

Lemma update_slot_id (idx : nat) (f : bch_dev -> bch_dev)
    (ds : list (option bch_dev)) (ca : bch_dev) :
  nth_error ds idx = Some (Some ca) -> f ca = ca -> update_slot idx f ds = ds.
Proof.
  revert idx. induction ds as [|o ds IH]; intros [|idx] H Hf; try discriminate H.
  - simpl in H. injection H as ->. simpl. now rewrite Hf.
  - simpl in H. simpl. now rewrite (IH idx H Hf).
Qed.

Lemma bch2_dev_online_rw_eq (env : collaborators) (denv : dev_collaborators)
    (path : string) (c : bch_fs) (sb : bch_sb) (ca : bch_dev) :
  bch2_read_super denv path = inr sb ->
  bch2_dev_in_fs (disk_sb c) sb = None ->
  seq sb <= seq (disk_sb c) ->
  dev_at c (sb_dev_idx sb) = Some ca ->
  dev_idx ca = sb_dev_idx sb ->
  bdev ca = false ->
  is_rw ca = true ->
  bch2_dev_journal_init_ret env (sb_dev_idx sb) = 0 ->
  bch2_dev_allocator_start_fails env (sb_dev_idx sb) = false ->
  bch2_moving_gc_start_fails env (sb_dev_idx sb) = false ->
  bch2_tiering_start_fails env = false ->
  exists c',
    bch2_dev_online env denv path c = Some (c', 0) /\
    devs c' =
      update_slot (sb_dev_idx sb) (fun ca => start_dev (attach_dev ca)) (devs c) /\
    disk_sb c' = disk_sb c /\ state c' = state c /\
    trace c' =
      trace c ++ dev_attach_events ca ++ dev_start_events (sb_dev_idx sb).
Proof.
  intros Hread Hin Hseq Hca Hidx Hb Hrw Hj Hal Hmg Htier.
  rewrite <- Hidx in Hj.
  pose proof (__bch2_dev_online_attaches env c sb ca Hseq Hca Hb Hj) as Hon.
  destruct (attach_dev_key ca) as (Hmi & _ & Hbd).
  set (c1 := set_trace (trace c ++ dev_attach_events ca)
               (set_devs (update_slot (sb_dev_idx sb) attach_dev (devs c)) c))
    in *.
  assert (Hca1 : dev_at c1 (sb_dev_idx sb) = Some (attach_dev ca)).
  { apply dev_at_nth. apply dev_at_nth in Hca. unfold c1.
    cbn [devs set_trace set_devs]. now apply update_slot_same. }
  assert (Hrw1 : is_rw (attach_dev ca) = true)
    by (unfold is_rw; rewrite Hmi; exact Hrw).
  unfold bch2_dev_online. rewrite Hread, Hin, Hon. cbn [Z.eqb negb].
  rewrite Hca1. unfold is_rw in Hrw1. rewrite Hrw1.
  rewrite (__bch2_dev_read_write_ok env _ c1 _ Hca1 Hrw1 Hal Hmg Htier).
  eexists. split; [reflexivity|].
  unfold c1. cbn [devs disk_sb state trace set_tiering_thread set_trace set_devs].
  split; [apply update_slot_compose|].
  split; [reflexivity|]. split; [reflexivity|]. now rewrite <- app_assoc.
Qed.

(** X14: offline and online again.  A running RW device that
    [bch2_dev_offline] may take offline and that is then brought back by
    [bch2_dev_online] from a superblock of the filesystem ends up with the
    very record it started with: attached, in the allocation pool, with both
    workers running.  The device table, the superblock and the filesystem
    state are those from before the two calls. *)
Theorem bch2_dev_offline_online_round_trip (env : collaborators)
    (denv : dev_collaborators) (path : string) (force : Z) (c : bch_fs)
    (sb : bch_sb) (ca : bch_dev) :
  dev_at c (sb_dev_idx sb) = Some ca ->
  dev_idx ca = sb_dev_idx sb ->
  is_rw ca = true ->
  dev_running ca ->
  bch2_dev_state_allowed env c ca BCH_MEMBER_STATE_FAILED force = true ->
  bch2_read_super denv path = inr sb ->
  bch2_dev_in_fs (disk_sb c) sb = None ->
  seq sb <= seq (disk_sb c) ->
  bch2_dev_journal_init_ret env (sb_dev_idx sb) = 0 ->
  bch2_dev_allocator_start_fails env (sb_dev_idx sb) = false ->
  bch2_moving_gc_start_fails env (sb_dev_idx sb) = false ->
  bch2_tiering_start_fails env = false ->
  exists c1 c2,
    bch2_dev_offline env (sb_dev_idx sb) force c = Some (c1, 0) /\
    bch2_dev_online env denv path c1 = Some (c2, 0) /\
    devs c2 = devs c /\ disk_sb c2 = disk_sb c /\ state c2 = state c.
Proof.
  intros Hca Hidx Hrw Hrun Ha Hread Hin Hseq Hj Hal Hmg Htier.
  pose proof (bch2_dev_offline_eq env _ force c ca Hca Ha) as Hoff.
  rewrite (proj1 Hrun) in Hoff.
  set (c1 := set_trace _ _) in Hoff.
  assert (Hca1 : dev_at c1 (sb_dev_idx sb) = Some (set_bdev false (stop_dev ca))).
  { apply dev_at_nth. apply dev_at_nth in Hca. unfold c1.
    cbn [devs set_trace set_devs].
    now apply (update_slot_same _ (fun ca => set_bdev false (stop_dev ca))). }
  destruct (bch2_dev_online_rw_eq env denv path c1 sb
              (set_bdev false (stop_dev ca)) Hread Hin Hseq Hca1 Hidx eq_refl
              Hrw Hj Hal Hmg Htier)
    as (c2 & Hon & Hdevs & Hsb & Hst & _).
  exists c1, c2. split; [exact Hoff|]. split; [exact Hon|].
  split; [|split; [exact Hsb|exact Hst]].
  rewrite Hdevs. unfold c1. cbn [devs set_trace set_devs].
  rewrite update_slot_compose.
  apply dev_at_nth in Hca. apply (update_slot_id _ _ _ ca Hca).
  unfold attach_dev.
  change (is_rw (set_bdev false (stop_dev ca))) with (is_rw ca). rewrite Hrw.
  destruct Hrun as (R1 & R2 & R3 & R4).
  destruct ca as [i uu m b fb fm fn fi ah ch pool alt mgt].
  cbn in R1, R2, R3, R4. subst. reflexivity.
Qed.

Lemma bch2_dev_offline_online_round_trip_witness :
  exists c1 c2,
    bch2_dev_offline Examples.env_ok 0 0 DevExamples.fs_mixed = Some (c1, 0) /\
    bch2_dev_online Examples.env_ok DevExamples.denv_ok "/dev/sda" c1 =
      Some (c2, 0) /\
    devs c2 = devs DevExamples.fs_mixed /\
    disk_sb c2 = disk_sb DevExamples.fs_mixed /\
    state c2 = state DevExamples.fs_mixed.
Proof.
  apply (bch2_dev_offline_online_round_trip Examples.env_ok DevExamples.denv_ok
           "/dev/sda" 0 DevExamples.fs_mixed (Examples.sb_two 0)
           (DevExamples.dev_up 0 BCH_MEMBER_STATE_RW)).
  - reflexivity.
  - reflexivity.
  - reflexivity.
  - repeat split.
  - reflexivity.
  - reflexivity.
  - reflexivity.
  - vm_compute. discriminate.
  - reflexivity.
  - reflexivity.
  - reflexivity.
  - reflexivity.
Defined.

(** ** Outcome of [__bch2_fs_start] *)

Lemma recovery_keeps_sb (env : collaborators) (c : bch_fs) :
  state c = BCH_FS_STARTING ->
  test_bit BCH_FS_ERROR (flags c) = false ->
  let c1 := fst (recovery env c) in
  state c1 = BCH_FS_STARTING /\ opts c1 = opts c /\
  test_bit BCH_FS_ERROR (flags c1) = false /\ disk_sb c1 = disk_sb c.
Proof.
  intros Hst Herr.
  apply (keeps_recovery
           (fun c1 => state c1 = BCH_FS_STARTING /\ opts c1 = opts c /\
                      test_bit BCH_FS_ERROR (flags c1) = false /\
                      disk_sb c1 = disk_sb c)).
  - intros c0 ds _ H. exact H.
  - intros c0 tr H. exact H.
  - intros c0 (Hs & Ho & He & Hsb). repeat split; try assumption.
    cbn [flags set_flags]. now rewrite test_bit_set_bit_other by discriminate.
  - now repeat split.
Qed.

Lemma mark_started_started (env : collaborators) (o : bch_opts) (c : bch_fs) :
  state c = (if read_only o =? 0 then BCH_FS_RW else BCH_FS_RO) ->
  test_bit BCH_FS_ERROR (flags c) = false ->
  started o (mark_started env c).
Proof.
  intros Hs He. unfold started. rewrite mark_started_state.
  split; [exact Hs|]. split; [exact He|].
  split; [reflexivity|]. split; [reflexivity|]. now exists (trace c).
Qed.

Lemma bch2_fs_read_write_starting (env : collaborators) (c : bch_fs) :
  state c = BCH_FS_STARTING ->
  let r := bch2_fs_read_write env c in
  flags (fst r) = flags c /\ disk_sb (fst r) = disk_sb c /\
  match snd r with
  | None => state (fst r) = BCH_FS_RW
  | Some _ => state (fst r) = BCH_FS_STARTING
  end.
Proof.
  intros Hs. unfold bch2_fs_read_write. rewrite Hs.
  cbn [fs_state_eqb negb andb].
  pose proof (bch2_fs_read_write_steps_spec env c) as Hspec.
  cbv zeta in Hspec.
  destruct (bch2_fs_read_write_steps env c) as [c2 [[]|e]];
    cbn [fst snd] in Hspec |- *;
    destruct Hspec as (Hfl & (_ & _ & Hsb2 & _ & _) & Hcase).
  - destruct (rw_start_failure env c);
      [destruct Hcase as [Hcase _]; discriminate Hcase|].
    destruct Hcase as [_ Hrw]. now repeat split.
  - rewrite __bch2_fs_read_only_state, __bch2_fs_read_only_disk_sb,
      __bch2_fs_read_only_flags.
    destruct (rw_start_failure env c);
      [|destruct Hcase as [Hcase _]; discriminate Hcase].
    destruct Hcase as [_ Hstate]. repeat split; try assumption.
    now rewrite Hstate.
Qed.

Lemma bch2_fs_read_only_starting (c : bch_fs) :
  state c = BCH_FS_STARTING ->
  test_bit BCH_FS_ERROR (flags c) = false ->
  state (bch2_fs_read_only c) = BCH_FS_RO /\
  test_bit BCH_FS_ERROR (flags (bch2_fs_read_only c)) = false.
Proof.
  intros Hs He.
  assert (W : will_teardown c = true)
    by (unfold will_teardown; now rewrite Hs, He).
  rewrite (bch2_fs_read_only_runs c W). cbn [state flags].
  split; [reflexivity|].
  now rewrite test_bit_clear_bit_other, test_bit_set_bit_other by discriminate.
Qed.

Lemma recovery_done_outcome (env : collaborators) (c : bch_fs) :
  state c = BCH_FS_STARTING ->
  test_bit BCH_FS_ERROR (flags c) = false ->
  match recovery_done env c with
  | (c', inl _) => started (opts c) c'
  | (c', inr _) =>
      state c' = BCH_FS_STARTING /\ disk_sb c' = disk_sb c
  end.
Proof.
  intros Hs He. unfold recovery_done, FsM.bind, FsM.check.
  destruct (bch2_fs_init_fault env "fs_start"); cbn [FsM.throw FsM.ret].
  { now split. }
  cbn [FsM.get].
  destruct (read_only (opts c) =? 0) eqn:Hro; cbn [negb FsM.lift].
  - pose proof (bch2_fs_read_write_starting env c Hs) as Hrw.
    cbv zeta in Hrw.
    destruct (bch2_fs_read_write env c) as [c2 [err|]]; cbn [fst snd] in Hrw;
      destruct Hrw as (Hfl & Hsb & Hstate).
    + now split.
    + apply mark_started_started; [now rewrite Hro|now rewrite Hfl].
  - destruct (bch2_fs_read_only_starting c Hs He) as [Hstate Hflag].
    apply mark_started_started; [now rewrite Hro|exact Hflag].
Qed.

(** X15: the two outcomes of [__bch2_fs_start].  On an instance in state
    STARTING without the error mark the call always returns.  When it
    returns NULL the state is RW, or RO if the [read_only] option is set;
    the error mark is clear and the superblock is marked initialised and not
    clean, its write being the last call made.  When it returns an error
    string, whichever step failed, the state is still STARTING, the error
    mark is set and the superblock is the one from before the call. *)
Theorem __bch2_fs_start_outcome (env : collaborators) (c : bch_fs) :
  state c = BCH_FS_STARTING ->
  test_bit BCH_FS_ERROR (flags c) = false ->
  exists c' r,
    __bch2_fs_start env c = Some (c', r) /\
    match r with
    | None => started (opts c) c'
    | Some _ => start_failed (disk_sb c) c'
    end.
Proof.
  intros Hst Herr.
  unfold __bch2_fs_start. rewrite Hst. cbn [fs_state_eqb negb].
  unfold __bch2_fs_start_steps, FsM.bind.
  pose proof (recovery_keeps_sb env c Hst Herr) as H1. cbv zeta in H1.
  destruct (recovery env c) as [c1 [[]|e]]; cbn [fst] in H1;
    destruct H1 as (Hs1 & Ho1 & He1 & Hsb1).
  - pose proof (recovery_done_outcome env c1 Hs1 He1) as H2.
    destruct (recovery_done env c1) as [c2 [[]|e]].
    + eexists _, _. split; [reflexivity|]. now rewrite <- Ho1.
    + destruct H2 as [Hs2 Hsb2].
      eexists _, _. split; [reflexivity|]. unfold start_failed.
      split; [exact Hs2|]. split; [apply test_bit_set_bit_same|].
      now rewrite <- Hsb1.
  - eexists _, _. split; [reflexivity|]. unfold start_failed.
    split; [exact Hs1|]. split; [apply test_bit_set_bit_same|exact Hsb1].
Qed.

Lemma __bch2_fs_start_outcome_witness :
  exists c' r,
    __bch2_fs_start Examples.env_allocator_1_fails
      (Examples.fs_rw_devs BCH_FS_STARTING 0 Examples.opts_one_replica 2) =
      Some (c', r) /\
    match r with
    | None => started Examples.opts_one_replica c'
    | Some _ => start_failed (Examples.sb_two 0) c'
    end.
Proof.
  apply (__bch2_fs_start_outcome Examples.env_allocator_1_fails
           (Examples.fs_rw_devs BCH_FS_STARTING 0 Examples.opts_one_replica 2));
    reflexivity.
Defined.

(** ** A completed RO -> RW transition *)

Lemma try_each_rw_all (fails : nat -> bool) (f : bch_dev -> bch_dev)
    (ev : nat -> event) (ds : list (option bch_dev)) :
  existsb fails (map dev_idx (rw_members ds)) = false ->
  try_each_rw fails f ev ds =
  (map (option_map (on_rw f)) ds,
   map (fun ca => ev (dev_idx ca)) (rw_members ds), true).
Proof.
  unfold rw_members.
  induction ds as [|[ca|] ds IH]; intros H; simpl in *; [reflexivity| |].
  - unfold on_rw at 1. destruct (is_online_rw ca); simpl in *.
    + apply orb_false_iff in H as [H1 H2]. rewrite H1, (IH H2). reflexivity.
    + now rewrite (IH H).
  - now rewrite (IH H).
Qed.

Lemma on_rw_compose (f g : bch_dev -> bch_dev) (ds : list (option bch_dev)) :
  keeps_key f ->
  map (option_map (on_rw g)) (map (option_map (on_rw f)) ds) =
  map (option_map (on_rw (fun ca => g (f ca)))) ds.
Proof.
  intros Hf. rewrite map_map. apply map_ext. intros [ca|]; [|reflexivity].
  simpl. f_equal. unfold on_rw.
  destruct (is_online_rw ca) eqn:E.
  - now rewrite (is_online_rw_key (f ca) ca (Hf ca)), E.
  - now rewrite E.
Qed.

Lemma rw_members_on_rw (f : bch_dev -> bch_dev) (ds : list (option bch_dev)) :
  keeps_key f ->
  map dev_idx (rw_members (map (option_map (on_rw f)) ds)) =
  map dev_idx (rw_members ds).
Proof.
  intros Hf. apply rw_idxs_keys, slot_keys_map, keeps_key_on_rw, Hf.
Qed.

Lemma rw_events_keys (ev : nat -> event) (ds ds' : list (option bch_dev)) :
  slot_keys ds' = slot_keys ds ->
  map (fun ca => ev (dev_idx ca)) (rw_members ds') =
  map ev (map dev_idx (rw_members ds)).
Proof.
  intros K. rewrite <- (rw_idxs_keys ds' ds K). now rewrite map_map.
Qed.

Lemma rw_start_failure_none (env : collaborators) (c : bch_fs) :
  rw_start_failure env c = None ->
  existsb (bch2_dev_allocator_start_fails env) (rw_idxs c) = false /\
  bch2_gc_thread_start_fails env = false /\
  existsb (bch2_moving_gc_start_fails env) (rw_idxs c) = false /\
  bch2_tiering_start_fails env = false.
Proof.
  unfold rw_start_failure. intros H.
  destruct (existsb (bch2_dev_allocator_start_fails env) (rw_idxs c));
    [discriminate H|].
  destruct (bch2_gc_thread_start_fails env); [discriminate H|].
  destruct (existsb (bch2_moving_gc_start_fails env) (rw_idxs c));
    [discriminate H|].
  destruct (bch2_tiering_start_fails env); [discriminate H|].
  now repeat split.
Qed.

Lemma bch2_fs_read_write_steps_ok (env : collaborators) (c : bch_fs) :
  rw_start_failure env c = None ->
  bch2_fs_read_write_steps env c =
  (mk_fs (fs_ptr c) BCH_FS_RW (flags c) (opts c) (sb_uuid c) (disk_sb c)
         (map (option_map (on_rw start_dev)) (devs c))
         (journal_halted c) true true
         (if fs_state_eqb (state c) BCH_FS_STARTING then writes_live c else true)
         true (read_only_work c)
         (trace c ++ read_write_events (state c) (rw_idxs c)), inl tt).
Proof.
  intros H. apply rw_start_failure_none in H as (Hal & Hgc & Hmg & Htier).
  destruct c as [p st fl o u sb ds jh gc tier wl pd row tr].
  unfold rw_idxs in *. cbn [devs] in Hal, Hmg.
  unfold bch2_fs_read_write_steps.
  unfold FsM.bind, FsM.lift, for_each_rw_member_try, add_rw_allocators,
    bch2_recalc_capacity, for_each_rw_member, bch2_gc_thread_start,
    bch2_tiering_start, percpu_ref_reinit_writes.
  fs_norm.
  set (ds0 := map (option_map (on_rw (set_in_alloc_pool true))) ds).
  assert (K0 : slot_keys ds0 = slot_keys ds)
    by (apply slot_keys_map, keeps_key_on_rw, keeps_key_set_in_alloc_pool).
  rewrite (try_each_rw_all _ _ _ ds0)
    by (now rewrite (rw_idxs_keys ds0 ds K0)).
  fs_norm. rewrite Hgc. fs_norm.
  set (ds1 := map (option_map (on_rw (set_alloc_thread true))) ds0).
  assert (K1 : slot_keys ds1 = slot_keys ds).
  { unfold ds1. rewrite slot_keys_map; [exact K0|].
    apply keeps_key_on_rw, keeps_key_set_alloc_thread. }
  rewrite (try_each_rw_all _ _ _ ds1)
    by (now rewrite (rw_idxs_keys ds1 ds K1)).
  fs_norm. rewrite Htier. fs_norm.
  rewrite (rw_events_keys EvAllocatorStart ds ds0 K0).
  rewrite (rw_events_keys EvMovingGcStart ds ds1 K1).
  replace (map (fun ca => EvAllocatorAdd (dev_idx ca)) (rw_members ds))
    with (map EvAllocatorAdd (map dev_idx (rw_members ds)))
    by (now rewrite map_map).
  unfold ds1, ds0.
  rewrite !on_rw_compose
    by first [apply keeps_key_set_in_alloc_pool
             | intros ca; reflexivity].
  unfold read_write_events.
  destruct st; cbn [fs_state_eqb negb]; fs_norm; f_equal; f_equal; reassoc.
Qed.

Lemma keeps_key_start_dev : keeps_key start_dev.
Proof. intros ca. reflexivity. Qed.

Lemma on_rw_dev_at (c c' : bch_fs) (f : bch_dev -> bch_dev) (i : nat) :
  devs c' = map (option_map (on_rw f)) (devs c) ->
  dev_at c' i = option_map (on_rw f) (dev_at c i).
Proof.
  intros Hds. unfold dev_at. rewrite Hds, nth_error_map.
  now destruct (nth_error (devs c) i) as [[ca|]|].
Qed.

Lemma all_workers_running_started (c c0 : bch_fs) :
  gc_thread c = true -> tiering_thread c = true ->
  devs c = map (option_map (on_rw start_dev)) (devs c0) ->
  all_workers_running c.
Proof.
  intros Hgc Htier Hds. unfold all_workers_running.
  split; [exact Hgc|]. split; [exact Htier|].
  intros i ca Hca Hb Hrw. rewrite (on_rw_dev_at c0 c start_dev i Hds) in Hca.
  destruct (dev_at c0 i) as [ca0|]; [|discriminate Hca].
  injection Hca as <-. unfold on_rw in *.
  destruct (is_online_rw ca0) eqn:E; [now repeat split|].
  unfold is_online_rw in E. now rewrite Hb, Hrw in E.
Qed.

(** X16: a completed [bch2_fs_read_write].  From state STARTING or RO, when
    no worker start fails, the call returns NULL in state RW with every
    worker running: the GC and tiering workers and, for every RW member with
    a block device attached, the allocator and the moving-GC worker, the
    member being in the allocation pool.  Every other record -- a member in
    another state, or an RW member with no block device, which
    [for_each_rw_member] passes over -- is left as it was.  The calls are
    made in the order: pool additions, capacity, allocator starts, GC start,
    moving-GC starts, tiering start, rate-controller update, and -- when the
    state was RO -- the write gate is reopened; the per-device calls are made
    for the attached RW members only.  Flags, superblock and the journal's
    condition are unchanged. *)
Theorem bch2_fs_read_write_starts_all (env : collaborators) (c : bch_fs) :
  state c = BCH_FS_STARTING \/ state c = BCH_FS_RO ->
  rw_start_failure env c = None ->
  exists c',
    bch2_fs_read_write env c = (c', None) /\
    state c' = BCH_FS_RW /\ all_workers_running c' /\
    devs c' = map (option_map (on_rw start_dev)) (devs c) /\
    (forall i,
       dev_at c' i =
       option_map (fun ca => if bdev ca && is_rw ca then start_dev ca else ca)
                  (dev_at c i)) /\
    (state c = BCH_FS_RO -> writes_live c' = true) /\
    (state c = BCH_FS_STARTING -> writes_live c' = writes_live c) /\
    trace c' = trace c ++ read_write_events (state c) (rw_idxs c) /\
    rw_idxs c =
      map dev_idx (filter (fun ca => bdev ca && is_rw ca)
                          (member_devices (devs c))) /\
    flags c' = flags c /\ disk_sb c' = disk_sb c /\
    journal_halted c' = journal_halted c.
Proof.
  intros Hst Hok. unfold bch2_fs_read_write.
  rewrite (bch2_fs_read_write_enters c Hst).
  rewrite (bch2_fs_read_write_steps_ok env c Hok).
  eexists. split; [reflexivity|]. cbn [state devs writes_live trace flags
                                       disk_sb journal_halted].
  split; [reflexivity|].
  split; [now apply (all_workers_running_started _ c)|].
  split; [reflexivity|].
  split; [intros i; now apply on_rw_dev_at|].
  split; [now intros ->|]. split; [now intros ->|]. now repeat split.
Qed.

(** A degraded instance: device 1 is an RW member without a block device.
    Only device 0 is started. *)
Lemma bch2_fs_read_write_starts_all_witness :
  exists c',
    bch2_fs_read_write Examples.env_ok DevExamples.fs_degraded = (c', None) /\
    state c' = BCH_FS_RW /\ all_workers_running c' /\
    devs c' =
      [Some (start_dev (Examples.dev 0 BCH_MEMBER_STATE_RW));
       Some (set_bdev false (Examples.dev 1 BCH_MEMBER_STATE_RW))] /\
    writes_live c' = true /\
    trace c' = read_write_events BCH_FS_RO [0%nat] /\
    flags c' = 0 /\ disk_sb c' = Examples.sb_two 0 /\
    journal_halted c' = false.
Proof.
  destruct (bch2_fs_read_write_starts_all Examples.env_ok
              DevExamples.fs_degraded (or_intror eq_refl) eq_refl)
    as (c' & Hrw & Hst & Hrun & Hdevs & _ & Hwl & _ & Htr & _ & Hfl & Hsb & Hjh).
  exists c'. split; [exact Hrw|]. split; [exact Hst|]. split; [exact Hrun|].
  split; [exact Hdevs|]. split; [now apply Hwl|].
  split; [exact Htr|]. now repeat split.
Defined.

(** ** The lifecycle invariant *)

Lemma no_worker_running_stopped (c : bch_fs) (ds : list (option bch_dev)) :
  gc_thread c = false -> tiering_thread c = false ->
  devs c = map (option_map stop_dev) ds ->
  no_worker_running c.
Proof.
  intros Hgc Htier Hds. unfold no_worker_running. rewrite Hds.
  split; [exact Hgc|]. split; [exact Htier|].
  rewrite member_devices_map. apply Forall_map.
  apply Forall_forall. intros ca _. split; reflexivity.
Qed.

Lemma bch2_fs_read_only_lifecycle (c : bch_fs) :
  lifecycle_ok c -> lifecycle_ok (bch2_fs_read_only c).
Proof.
  intros H. destruct (will_teardown c) eqn:W.
  - rewrite (bch2_fs_read_only_runs c W). unfold lifecycle_ok.
    cbn [state writes_live]. split; [reflexivity|].
    now apply (no_worker_running_stopped _ (devs c)).
  - now rewrite (bch2_fs_read_only_skips c W).
Qed.

Lemma bch2_fs_read_write_steps_fail_writes (env : collaborators) (c c' : bch_fs)
    (e : string) :
  bch2_fs_read_write_steps env c = (c', inr e) ->
  writes_live c' = writes_live c.
Proof.
  destruct c as [p st fl o u sb ds jh gc tier wl pd row tr].
  unfold bch2_fs_read_write_steps.
  unfold FsM.bind, FsM.lift, for_each_rw_member_try, add_rw_allocators,
    bch2_recalc_capacity, for_each_rw_member, bch2_gc_thread_start,
    bch2_tiering_start, percpu_ref_reinit_writes.
  fs_norm.
  destruct (try_each_rw (bch2_dev_allocator_start_fails env) _ _ _)
    as [[ds1 evs1] [|]]; fs_norm; [|intros [= <- _]; reflexivity].
  destruct (bch2_gc_thread_start_fails env); fs_norm;
    [intros [= <- _]; reflexivity|].
  destruct (try_each_rw (bch2_moving_gc_start_fails env) _ _ _)
    as [[ds2 evs2] [|]]; fs_norm; [|intros [= <- _]; reflexivity].
  destruct (bch2_tiering_start_fails env); fs_norm;
    [intros [= <- _]; reflexivity|].
  intros H. discriminate H.
Qed.

Lemma bch2_fs_read_write_lifecycle (env : collaborators) (c : bch_fs) :
  lifecycle_ok c -> lifecycle_ok (fst (bch2_fs_read_write env c)).
Proof.
  intros H. unfold bch2_fs_read_write.
  destruct (negb (fs_state_eqb (state c) BCH_FS_STARTING) &&
            negb (fs_state_eqb (state c) BCH_FS_RO)) eqn:G; [exact H|].
  destruct (rw_start_failure env c) as [e|] eqn:F.
  - pose proof (bch2_fs_read_write_steps_spec env c) as Hspec.
    cbv zeta in Hspec. rewrite F in Hspec.
    destruct Hspec as (_ & _ & Hsnd & Hstate).
    destruct (bch2_fs_read_write_steps env c) as [c1 r] eqn:E.
    cbn [fst snd] in Hsnd, Hstate. subst r. cbn [fst].
    apply bch2_fs_read_write_steps_fail_writes in E.
    unfold lifecycle_ok in *.
    rewrite __bch2_fs_read_only_state, Hstate.
    assert (Hwl : writes_live (__bch2_fs_read_only c1) = writes_live c)
      by (now rewrite __bch2_fs_read_only_eq).
    rewrite Hwl.
    destruct (state c); try discriminate G.
    + exact H.
    + split; [apply H|apply __bch2_fs_read_only_no_worker].
  - rewrite (bch2_fs_read_write_steps_ok env c F). cbn [fst].
    unfold lifecycle_ok in *. cbn [state writes_live].
    split.
    + destruct (state c); try discriminate G; cbn [fs_state_eqb];
        [exact H|reflexivity].
    + now apply (all_workers_running_started _ c).
Qed.

Lemma bch2_fs_emergency_read_only_lifecycle (c : bch_fs) :
  lifecycle_ok c -> lifecycle_ok (fst (bch2_fs_emergency_read_only c)).
Proof. intros H. rewrite bch2_fs_emergency_read_only_eq. exact H. Qed.

Lemma run_read_only_work_lifecycle (c : bch_fs) :
  lifecycle_ok c -> lifecycle_ok (run_read_only_work c).
Proof.
  intros H. unfold run_read_only_work, bch2_fs_read_only_work.
  destruct (read_only_work c); [|exact H].
  apply bch2_fs_read_only_lifecycle. exact H.
Qed.

Lemma recovery_keeps_writes (env : collaborators) (c : bch_fs) :
  state c = BCH_FS_STARTING -> writes_live c = true ->
  state (fst (recovery env c)) = BCH_FS_STARTING /\
  writes_live (fst (recovery env c)) = true.
Proof.
  intros Hst Hwl.
  apply (keeps_recovery
           (fun c1 => state c1 = BCH_FS_STARTING /\ writes_live c1 = true)).
  - intros c0 ds _ H. exact H.
  - intros c0 tr H. exact H.
  - intros c0 H. exact H.
  - now split.
Qed.

Lemma recovery_done_lifecycle (env : collaborators) (c : bch_fs) :
  lifecycle_ok c -> lifecycle_ok (fst (recovery_done env c)).
Proof.
  intros H. unfold recovery_done, FsM.bind, FsM.check.
  destruct (bch2_fs_init_fault env "fs_start"); cbn [FsM.throw FsM.ret];
    [exact H|].
  cbn [FsM.get].
  destruct (negb (read_only (opts c) =? 0)); cbn [FsM.lift fst].
  - exact (bch2_fs_read_only_lifecycle c H).
  - pose proof (bch2_fs_read_write_lifecycle env c H) as Hrw.
    destruct (bch2_fs_read_write env c) as [c1 [err|]]; cbn [fst] in *;
      exact Hrw.
Qed.

Lemma __bch2_fs_start_lifecycle (env : collaborators) (c c' : bch_fs)
    (r : option string) :
  lifecycle_ok c -> __bch2_fs_start env c = Some (c', r) -> lifecycle_ok c'.
Proof.
  intros H. unfold __bch2_fs_start, __bch2_fs_start_steps, FsM.bind.
  destruct (state c) eqn:Hst; cbn [fs_state_eqb negb]; try discriminate.
  unfold lifecycle_ok in H. rewrite Hst in H.
  destruct (recovery_keeps_writes env c Hst H) as [Hs1 Hw1].
  destruct (recovery env c) as [c1 [[]|e]]; cbn [fst] in *.
  - assert (H1 : lifecycle_ok c1)
      by (unfold lifecycle_ok; now rewrite Hs1).
    pose proof (recovery_done_lifecycle env c1 H1) as H2.
    destruct (recovery_done env c1) as [c2 [[]|e]]; cbn [fst] in *;
      intros [= <- <-]; exact H2.
  - intros [= <- <-]. unfold lifecycle_ok. cbn [state set_flags].
    now rewrite Hs1.
Qed.

Lemma bch2_fs_alloc_lifecycle (env : collaborators) (ptr : nat) (sb : bch_sb)
    (o : bch_opts) (c : bch_fs) :
  bch2_fs_alloc env ptr sb o = Ok c -> lifecycle_ok c.
Proof.
  unfold bch2_fs_alloc. intros H.
  destruct (fs_alloc_nomem env); [discriminate H|].
  destruct (bch2_fs_init_fault env "fs_alloc"); [discriminate H|].
  destruct (alloc_member_devs env (nr_devices sb) 0 _) as [c'| |] eqn:E;
    try discriminate H.
  injection H as <-.
  apply alloc_member_devs_frame in E as [ds ->]. reflexivity.
Qed.

(** X17: the lifecycle invariant.  An instance is fully quiescent whenever
    its state is RO (write gate closed, no GC, tiering, allocator or
    moving-GC worker running) and fully running whenever its state is RW
    (write gate open, GC and tiering running, every RW member that has a
    block device attached in the pool with both its workers running); in
    state STARTING the write gate is open.  An RW member without a block
    device is not started by [bch2_fs_read_write], and the invariant asks
    nothing of it.  [bch2_fs_alloc] establishes this, and
    [bch2_fs_read_only], [bch2_fs_read_write] (whether it succeeds or rolls
    back), [bch2_fs_emergency_read_only], the queued read-only work and
    [__bch2_fs_start] (whether it succeeds or fails) all preserve it. *)
Theorem lifecycle_ok_invariant (env : collaborators) :
  (forall ptr sb o c,
     bch2_fs_alloc env ptr sb o = Ok c -> lifecycle_ok c) /\
  (forall c,
     lifecycle_ok c ->
     lifecycle_ok (bch2_fs_read_only c) /\
     lifecycle_ok (fst (bch2_fs_read_write env c)) /\
     lifecycle_ok (fst (bch2_fs_emergency_read_only c)) /\
     lifecycle_ok (run_read_only_work c) /\
     (forall c' r, __bch2_fs_start env c = Some (c', r) -> lifecycle_ok c')).
Proof.
  split.
  - intros ptr sb o c. apply bch2_fs_alloc_lifecycle.
  - intros c H.
    split; [now apply bch2_fs_read_only_lifecycle|].
    split; [now apply bch2_fs_read_write_lifecycle|].
    split; [now apply bch2_fs_emergency_read_only_lifecycle|].
    split; [now apply run_read_only_work_lifecycle|].
    intros c' r. now apply __bch2_fs_start_lifecycle.
Qed.

(** The invariant on a degraded instance in state RO (device 1 is an RW
    member without a block device) and after its transition to RW, which
    starts device 0 only. *)
Lemma lifecycle_ok_invariant_witness :
  lifecycle_ok DevExamples.fs_degraded /\
  state (fst (bch2_fs_read_write Examples.env_ok DevExamples.fs_degraded)) =
    BCH_FS_RW /\
  dev_at (fst (bch2_fs_read_write Examples.env_ok DevExamples.fs_degraded)) 1 =
    Some (set_bdev false (Examples.dev 1 BCH_MEMBER_STATE_RW)) /\
  lifecycle_ok (bch2_fs_read_only DevExamples.fs_degraded) /\
  lifecycle_ok (fst (bch2_fs_read_write Examples.env_ok DevExamples.fs_degraded)) /\
  lifecycle_ok (fst (bch2_fs_emergency_read_only DevExamples.fs_degraded)) /\
  lifecycle_ok (run_read_only_work DevExamples.fs_degraded) /\
  (forall c' r,
     __bch2_fs_start Examples.env_ok DevExamples.fs_degraded = Some (c', r) ->
     lifecycle_ok c').
Proof.
  assert (H : lifecycle_ok DevExamples.fs_degraded).
  { split; [reflexivity|]. split; [reflexivity|]. split; [reflexivity|].
    repeat constructor. }
  split; [exact H|]. split; [reflexivity|]. split; [reflexivity|].
  exact (proj2 (lifecycle_ok_invariant Examples.env_ok) DevExamples.fs_degraded H).
Defined.

(** ** [bch2_fs_stop] *)

Lemma NoDup_map_In_inj {A B : Type} (f : A -> B) (l : list A) (x y : A) :
  NoDup (map f l) -> In x l -> In y l -> f x = f y -> x = y.
Proof.
  induction l as [|a l IH]; simpl; intros Hnd Hx Hy E; [contradiction|].
  inversion Hnd as [|? ? Hnotin Hnd']; subst.
  destruct Hx as [<-|Hx], Hy as [<-|Hy]; auto.
  - exfalso. apply Hnotin. rewrite E. now apply in_map.
  - exfalso. apply Hnotin. rewrite <- E. now apply in_map.
Qed.

Lemma list_del_NoDup {B : Type} (g : bch_fs -> B) (c : bch_fs)
    (l : list bch_fs) :
  NoDup (map g l) -> NoDup (map g (list_del c l)).
Proof.
  unfold list_del. intros Hnd.
  induction l as [|a l IH]; simpl in *; [constructor|].
  apply NoDup_cons_iff in Hnd as [Hnotin Hnd].
  destruct (negb (Nat.eqb (fs_ptr a) (fs_ptr c))); simpl; [|now apply IH].
  apply NoDup_cons; [|now apply IH].
  intros Hin. apply Hnotin. apply in_map_iff in Hin as (x & Hx & Hin).
  apply filter_In in Hin as [Hin _]. apply in_map_iff. now exists x.
Qed.

Lemma find_all_false {A : Type} (p : A -> bool) (l : list A) :
  (forall x, In x l -> p x = false) -> find p l = None.
Proof.
  induction l as [|a l IH]; intros H; simpl; [reflexivity|].
  rewrite (H a (or_introl eq_refl)). apply IH. intros x Hx. apply H. now right.
Qed.

Lemma list_del_In (c x : bch_fs) (l : list bch_fs) :
  In x (list_del c l) <-> In x l /\ fs_ptr x <> fs_ptr c.
Proof.
  unfold list_del. rewrite filter_In. split; intros [H1 H2]; split;
    try assumption.
  - apply negb_true_iff in H2. now apply Nat.eqb_neq.
  - apply negb_true_iff. now apply Nat.eqb_neq.
Qed.

(** X18: [bch2_fs_stop] releases the instance and its UUID.  For a listed
    instance of a well-formed registry that is not already stopping, the
    call ends with the instance in state STOPPING and no worker running;
    its superblock is untouched (the teardown of [bch2_fs_stop] does not
    mark it clean).  The instance is off the list, every other instance is
    still listed, the registry is well formed, and no listed instance
    carries the stopped instance's UUID any more, so the filesystem can be
    opened again.  A second [bch2_fs_stop] on the stopped instance reaches
    [BUG_ON(c->state == BCH_FS_STOPPING)]. *)
Theorem bch2_fs_stop_releases (c : bch_fs) (w : registry) :
  registry_ok w ->
  In c (bch_fs_list w) ->
  state c <> BCH_FS_STOPPING ->
  exists l' c',
    bch2_fs_stop c (bch_fs_list w) = Some (l', c') /\
    state c' = BCH_FS_STOPPING /\ no_worker_running c' /\
    disk_sb c' = disk_sb c /\
    on_list c l' = false /\
    __bch2_uuid_to_fs (uuid (disk_sb c)) l' = None /\
    registry_ok (mk_registry l' (next_ptr w)) /\
    (forall c0, In c0 (bch_fs_list w) -> fs_ptr c0 <> fs_ptr c -> In c0 l') /\
    bch2_fs_stop c' l' = None.
Proof.
  intros (Hu & Hp & Hall) Hin Hst. unfold bch2_fs_stop at 1.
  destruct (fs_state_eqb (state c) BCH_FS_STOPPING) eqn:E.
  { destruct (state c); try discriminate E. now contradiction Hst. }
  change (list_del (set_state BCH_FS_STOPPING c) (bch_fs_list w))
    with (list_del c (bch_fs_list w)).
  eexists _, _. split; [reflexivity|].
  split; [now rewrite __bch2_fs_read_only_state|].
  split; [apply __bch2_fs_read_only_no_worker|].
  split; [now rewrite __bch2_fs_read_only_disk_sb|].
  split.
  { unfold on_list. apply not_true_is_false. intros H.
    apply existsb_exists in H as (x & Hx & Hptr).
    apply list_del_In in Hx as [_ Hne]. apply Nat.eqb_eq in Hptr.
    now apply Hne. }
  split.
  { unfold __bch2_uuid_to_fs. apply find_all_false. intros x Hx.
    apply list_del_In in Hx as [Hx Hne]. apply Z.eqb_neq. intros Heq.
    apply Hne. f_equal.
    apply (NoDup_map_In_inj (fun c => uuid (disk_sb c)) (bch_fs_list w));
      assumption. }
  split.
  { unfold registry_ok, uuids. cbn [bch_fs_list next_ptr].
    split; [now apply (list_del_NoDup (fun c => uuid (disk_sb c)))|].
    split; [now apply (list_del_NoDup fs_ptr)|].
    rewrite Forall_forall in *. intros x Hx.
    apply list_del_In in Hx as [Hx _]. now apply Hall. }
  split.
  { intros c0 H0 Hne. now apply list_del_In. }
  unfold bch2_fs_stop. now rewrite __bch2_fs_read_only_state.
Qed.

Lemma bch2_fs_stop_releases_witness :
  exists l' c',
    bch2_fs_stop DevExamples.fs_listed (bch_fs_list Examples.registry_two) =
      Some (l', c') /\
    state c' = BCH_FS_STOPPING /\ no_worker_running c' /\
    disk_sb c' = disk_sb DevExamples.fs_listed /\
    on_list DevExamples.fs_listed l' = false /\
    __bch2_uuid_to_fs (uuid (disk_sb DevExamples.fs_listed)) l' = None /\
    registry_ok (mk_registry l' (next_ptr Examples.registry_two)) /\
    (forall c0, In c0 (bch_fs_list Examples.registry_two) ->
       fs_ptr c0 <> fs_ptr DevExamples.fs_listed -> In c0 l') /\
    bch2_fs_stop c' l' = None.
Proof.
  apply (bch2_fs_stop_releases DevExamples.fs_listed Examples.registry_two).
  - split; [|split].
    + repeat constructor. intros H. exact H.
    + repeat constructor. intros H. exact H.
    + repeat constructor.
  - left. reflexivity.
  - discriminate.
Defined.

(** ** Incremental open of a started filesystem *)

Lemma __bch2_dev_online_state (env : collaborators) (c c' : bch_fs)
    (sb : bch_sb) (r : Z) :
  __bch2_dev_online env c sb = Some (c', r) ->
  state c' = state c /\ opts c' = opts c.
Proof.
  unfold __bch2_dev_online. intros H.
  set (c0 := if seq (disk_sb c) <? seq sb then bch2_sb_to_fs sb c else c) in *.
  assert (H0 : state c0 = state c /\ opts c0 = opts c)
    by (unfold c0; destruct (seq (disk_sb c) <? seq sb); now split).
  clearbody c0.
  destruct (nth_error (devs c0) (sb_dev_idx sb)) as [[ca|]|]; try discriminate H.
  destruct (bdev ca); [now injection H as <- <-|].
  destruct (negb (bch2_dev_journal_init_ret env (dev_idx ca) =? 0));
    [now injection H as <- <-|].
  match type of H with
  | match list_set ?i ?x ?l with _ => _ end = _ =>
      destruct (list_set i x l) as [ds|]; [|discriminate H]
  end.
  injection H as <- <-.
  destruct (member_state_eqb _ BCH_MEMBER_STATE_RW); exact H0.
Qed.

(** X19: registering a device of a filesystem that is already started.
    When [__bch2_fs_open_incremental] finds the superblock's UUID in the
    registry, attaches the device to that instance, and the instance may
    start ([nostart] clear, [bch2_fs_may_start] holds), it calls
    [__bch2_fs_start] without looking at the instance's state; for an
    instance that has left STARTING -- one that was started without this
    device, or whose device was taken offline -- the call reaches
    [BUG_ON(c->state != BCH_FS_STARTING)]. *)
Theorem __bch2_fs_open_incremental_started (env : collaborators) (sb : bch_sb)
    (o : bch_opts) (w : registry) (c c1 : bch_fs) :
  bch2_sb_validate_err env sb = None ->
  __bch2_uuid_to_fs (uuid sb) (bch_fs_list w) = Some c ->
  bch2_dev_in_fs (disk_sb c) sb = None ->
  state c <> BCH_FS_STARTING ->
  __bch2_dev_online env c sb = Some (c1, 0) ->
  nostart (opts c) = 0 ->
  bch2_fs_may_start env c1 = Some true ->
  __bch2_fs_open_incremental env sb o w = None.
Proof.
  intros Hval Hfind Hin Hst Hon Hno Hmay.
  destruct (__bch2_dev_online_state env c c1 sb 0 Hon) as [Hs1 Ho1].
  unfold __bch2_fs_open_incremental. rewrite Hval, Hfind, Hin.
  unfold open_incremental_attach. rewrite Hon. cbn [Z.eqb negb].
  rewrite Ho1, Hno, Hmay. cbn [Z.eqb].
  unfold __bch2_fs_start. rewrite Hs1.
  destruct (state c); try reflexivity. now contradiction Hst.
Qed.

Lemma __bch2_fs_open_incremental_started_witness :
  __bch2_fs_open_incremental Examples.env_ok (Examples.sb_two 0)
    Examples.opts_empty (mk_registry [DevExamples.fs_mixed_offline] 1) = None.
Proof.
  apply (__bch2_fs_open_incremental_started Examples.env_ok (Examples.sb_two 0)
           Examples.opts_empty (mk_registry [DevExamples.fs_mixed_offline] 1)
           DevExamples.fs_mixed_offline DevExamples.fs_mixed_reattached).
  - reflexivity.
  - reflexivity.
  - reflexivity.
  - discriminate.
  - reflexivity.
  - reflexivity.
  - reflexivity.
Defined.

(** ** The device table built by [bch2_fs_alloc] *)

Lemma bch2_dev_alloc_slot (env : collaborators) (c c' : bch_fs) (idx : nat) :
  bch2_dev_alloc env c idx = Ok c' ->
  exists ca ds,
    list_set idx (Some ca) (devs c) = Some ds /\ c' = set_devs ds c /\
    fresh_record (disk_sb c) idx ca.
Proof.
  unfold bch2_dev_alloc. intros H.
  destruct (bch2_fs_init_fault env "dev_alloc"); [discriminate H|].
  destruct (nth_error (members (disk_sb c)) idx) as [member|] eqn:Hm;
    [|discriminate H].
  destruct ((btree_node_size (opts c) =? 0) ||
            (bucket_size (bch2_mi_to_cpu member) / btree_node_size (opts c) =? 0));
    [discriminate H|].
  destruct (dev_alloc_nomem env idx); [discriminate H|].
  match type of H with
  | match list_set _ (Some ?x) _ with _ => _ end = _ => set (ca := x) in *
  end.
  destruct (list_set idx (Some ca) (devs c)) as [ds|] eqn:E; [|discriminate H].
  injection H as <-. exists ca, ds.
  split; [exact E|]. split; [reflexivity|].
  unfold fresh_record, dev_stopped. repeat split. now exists member.
Qed.

Lemma alloc_member_devs_slots (env : collaborators) (sb : bch_sb) (n from : nat)
    (c c' : bch_fs) :
  disk_sb c = sb ->
  (from + n = List.length (devs c))%nat ->
  (forall i, (i < from)%nat -> slot_allocated sb (devs c) i) ->
  (forall i, (from <= i < from + n)%nat -> nth_error (devs c) i = Some None) ->
  alloc_member_devs env n from c = Ok c' ->
  List.length (devs c') = List.length (devs c) /\
  forall i, (i < from + n)%nat -> slot_allocated sb (devs c') i.
Proof.
  revert from c. induction n as [|n IH]; intros from c Hsb Hlen Hdone Htodo H.
  - simpl in H. injection H as <-. split; [reflexivity|].
    intros i Hi. apply Hdone. lia.
  - simpl in H. rewrite Hsb in H.
    destruct (bch2_dev_exists sb from) eqn:Hex.
    + destruct (bch2_dev_alloc env c from) as [c1| |] eqn:Ha;
        try discriminate H.
      apply bch2_dev_alloc_slot in Ha as (ca & ds & Hset & -> & Hfresh).
      rewrite Hsb in Hfresh.
      pose proof (list_set_length _ _ _ _ Hset) as Hl.
      destruct (IH (S from) (set_devs ds c)) with (5 := H) as [Hlen' Hall].
      * exact Hsb.
      * cbn [devs set_devs]. lia.
      * intros i Hi. cbn [devs set_devs]. unfold slot_allocated.
        destruct (Nat.eq_dec i from) as [->|Hne].
        -- rewrite (list_set_nth_error _ _ _ _ Hset). now split.
        -- rewrite (list_set_other _ _ _ _ _ Hset Hne).
           apply Hdone. lia.
      * intros i Hi. cbn [devs set_devs].
        rewrite (list_set_other _ _ _ _ _ Hset) by lia. apply Htodo. lia.
      * cbn [devs set_devs] in Hlen', Hall. split; [lia|].
        intros i Hi. apply Hall. lia.
    + destruct (IH (S from) c) with (5 := H) as [Hlen' Hall].
      * exact Hsb.
      * lia.
      * intros i Hi. destruct (Nat.eq_dec i from) as [->|Hne].
        -- unfold slot_allocated. rewrite (Htodo from) by lia. exact Hex.
        -- apply Hdone. lia.
      * intros i Hi. apply Htodo. lia.
      * split; [exact Hlen'|]. intros i Hi. apply Hall. lia.
Qed.

Lemma slot_allocated_slots_ok (sb : bch_sb) (ds : list (option bch_dev)) :
  (forall i, (i < List.length ds)%nat -> slot_allocated sb ds i) ->
  slots_ok ds.
Proof.
  intros H j ca Hj.
  assert (Hlt : (j < List.length ds)%nat)
    by (apply nth_error_Some; now rewrite Hj).
  specialize (H j Hlt). unfold slot_allocated in H. rewrite Hj in H.
  now destruct H as [_ [Hidx _]].
Qed.

(** X20: the device table [bch2_fs_alloc] builds.  On success the table has
    one slot per [nr_devices] of the superblock; a slot holds a record
    exactly when the member exists (index in range and UUID non-zero), and
    that record carries its own slot index and the member's UUID and cached
    information, with no block device attached, out of the allocation pool
    and no worker running.  In particular every record sits in the slot its
    [dev_idx] names. *)
Theorem bch2_fs_alloc_devs (env : collaborators) (ptr : nat) (sb : bch_sb)
    (o : bch_opts) (c : bch_fs) :
  bch2_fs_alloc env ptr sb o = Ok c ->
  List.length (devs c) = nr_devices sb /\
  (forall i, (i < nr_devices sb)%nat -> slot_allocated sb (devs c) i) /\
  slots_ok (devs c).
Proof.
  unfold bch2_fs_alloc. intros H.
  destruct (fs_alloc_nomem env); [discriminate H|].
  destruct (bch2_fs_init_fault env "fs_alloc"); [discriminate H|].
  destruct (alloc_member_devs env (nr_devices sb) 0 _) as [c'| |] eqn:E;
    try discriminate H.
  injection H as <-.
  apply (alloc_member_devs_slots env sb) in E.
  - cbn [devs set_writes_live fs_alloc_opts set_opts bch2_sb_to_fs set_devs
         zeroed_fs app] in E.
    rewrite Nat.sub_0_r, repeat_length in E. cbn [Nat.add] in E.
    destruct E as [Hlen Hall]. split; [exact Hlen|]. split; [exact Hall|].
    apply (slot_allocated_slots_ok sb). now rewrite Hlen.
  - reflexivity.
  - cbn [devs set_writes_live fs_alloc_opts set_opts bch2_sb_to_fs set_devs
         zeroed_fs app].
    now rewrite Nat.sub_0_r, repeat_length.
  - intros i Hi. lia.
  - intros i Hi.
    cbn [devs set_writes_live fs_alloc_opts set_opts bch2_sb_to_fs set_devs
         zeroed_fs app].
    rewrite Nat.sub_0_r. apply nth_error_repeat. lia.
Qed.

Lemma bch2_fs_alloc_devs_witness :
  List.length (devs Examples.fs_noreplay) = nr_devices (Examples.sb_two 0) /\
  (forall i, (i < nr_devices (Examples.sb_two 0))%nat ->
     slot_allocated (Examples.sb_two 0) (devs Examples.fs_noreplay) i) /\
  slots_ok (devs Examples.fs_noreplay).
Proof.
  apply (bch2_fs_alloc_devs Examples.env_ok 0 (Examples.sb_two 0)
           Examples.opts_noreplay Examples.fs_noreplay).
  reflexivity.
Defined.

(** ** [bch2_fs_open] *)

Lemma best_sb_fold (sbs : list bch_sb) (k a b : nat) :
  (b < a)%nat ->
  (forall i, (i < a)%nat ->
     seq (nth i sbs zero_sb) <= seq (nth b sbs zero_sb)) ->
  let r := fold_left (fun best i =>
                        if seq (nth best sbs zero_sb) <? seq (nth i sbs zero_sb)
                        then i else best) (List.seq a k) b in
  (r < a + k)%nat /\
  forall i, (i < a + k)%nat ->
    seq (nth i sbs zero_sb) <= seq (nth r sbs zero_sb).
Proof.
  revert a b. induction k as [|k IH]; intros a b Hb Hmax; simpl.
  - rewrite Nat.add_0_r. now split.
  - replace (a + S k)%nat with (S a + k)%nat by lia.
    destruct (Z.ltb_spec (seq (nth b sbs zero_sb)) (seq (nth a sbs zero_sb)))
      as [Hlt|Hge].
    + apply IH; [lia|]. intros i Hi.
      destruct (Nat.eq_dec i a) as [->|Hne]; [lia|].
      specialize (Hmax i ltac:(lia)). lia.
    + apply IH; [lia|]. intros i Hi.
      destruct (Nat.eq_dec i a) as [->|Hne]; [lia|].
      apply Hmax. lia.
Qed.

Lemma best_sb_newest (sbs : list bch_sb) :
  sbs <> [] ->
  In (nth (best_sb sbs) sbs zero_sb) sbs /\
  forall sb, In sb sbs -> seq sb <= seq (nth (best_sb sbs) sbs zero_sb).
Proof.
  intros Hne.
  assert (Hlen : (0 < List.length sbs)%nat)
    by (destruct sbs; [contradiction|simpl; lia]).
  destruct (best_sb_fold sbs (List.length sbs - 1) 1 0) as [Hlt Hmax].
  - lia.
  - intros i Hi. replace i with 0%nat by lia. lia.
  - fold (best_sb sbs) in Hlt, Hmax. split.
    + apply nth_In. lia.
    + intros sb Hin. apply (In_nth _ _ zero_sb) in Hin as (i & Hi & <-).
      apply Hmax. lia.
Qed.

Lemma first_err_none {A : Type} (f : A -> option string) (l : list A) :
  first_err f l = None -> forall x, In x l -> f x = None.
Proof.
  induction l as [|a l IH]; intros H x Hx; [contradiction|].
  simpl in H. destruct (f a) eqn:E; [discriminate H|].
  destruct Hx as [<-|Hx]; [exact E|now apply IH].
Qed.

Lemma bch2_dev_in_fs_none (fs sb : bch_sb) :
  bch2_dev_in_fs fs sb = None ->
  uuid sb = uuid fs /\ sb_block_size sb = sb_block_size fs.
Proof.
  unfold bch2_dev_in_fs. intros H.
  destruct (Z.eqb_spec (uuid fs) (uuid sb)) as [Hu|]; [|discriminate H].
  cbn [negb] in H.
  destruct (negb (bch2_dev_exists _ _)); [discriminate H|].
  destruct (Z.eqb_spec (sb_block_size fs) (sb_block_size sb)) as [Hb|];
    [|discriminate H].
  now split.
Qed.

Lemma read_supers_nonempty (env : collaborators) (denv : dev_collaborators)
    (d : string) (rest : list string) (sbs : list bch_sb) :
  read_supers env denv (d :: rest) = inr sbs -> sbs <> [].
Proof.
  simpl. destruct (bch2_read_super denv d) as [e|sb]; [discriminate|].
  destruct (bch2_sb_validate_err env sb); [discriminate|].
  destruct (read_supers env denv rest); [discriminate|].
  intros [= <-]. discriminate.
Qed.

Lemma __bch2_dev_online_keeps_attached (env : collaborators) (c c' : bch_fs)
    (sb : bch_sb) (r : Z) (j : nat) (ca : bch_dev) :
  __bch2_dev_online env c sb = Some (c', r) ->
  nth_error (devs c) j = Some (Some ca) -> bdev ca = true ->
  exists ca', nth_error (devs c') j = Some (Some ca') /\ bdev ca' = true.
Proof.
  unfold __bch2_dev_online. intros H Hj Hb.
  set (c0 := if seq (disk_sb c) <? seq sb then bch2_sb_to_fs sb c else c) in *.
  assert (H0 : nth_error (devs c0) j = Some (Some ca)).
  { unfold c0. destruct (seq (disk_sb c) <? seq sb); [|exact Hj].
    unfold bch2_sb_to_fs. cbn [devs set_devs].
    rewrite nth_error_app1; [exact Hj|].
    apply nth_error_Some. now rewrite Hj. }
  clearbody c0.
  destruct (nth_error (devs c0) (sb_dev_idx sb)) as [[cb|]|] eqn:Hidx;
    try discriminate H.
  destruct (bdev cb) eqn:Hbb.
  { injection H as <- <-. now exists ca. }
  destruct (negb (bch2_dev_journal_init_ret env (dev_idx cb) =? 0)).
  { injection H as <- <-. now exists ca. }
  match type of H with
  | match list_set ?i ?x ?l with _ => _ end = _ =>
      destruct (list_set i x l) as [ds|] eqn:E; [|discriminate H]
  end.
  injection H as <- <-. cbn [devs set_devs].
  assert (Ed : exists x, list_set (sb_dev_idx sb) (Some x) (devs c0) = Some ds).
  { revert E. cbv zeta.
    repeat match goal with
           | |- context [if ?b then _ else _] => destruct b
           end; intros E; eexists; exact E. }
  destruct Ed as [x Ed].
  destruct (Nat.eq_dec j (sb_dev_idx sb)) as [->|Hne].
  - rewrite Hidx in H0. injection H0 as ->. congruence.
  - rewrite (list_set_other _ _ _ _ _ Ed Hne). now exists ca.
Qed.

Lemma online_each_spec (env : collaborators) (sbs : list bch_sb) :
  forall (c c' : bch_fs) (ok : bool),
  online_each env c sbs = Some (c', ok) ->
  (forall sb, In sb sbs -> uuid sb = uuid (disk_sb c)) ->
  sb_uuid c = uuid (disk_sb c) ->
  fs_ptr c' = fs_ptr c /\ uuid (disk_sb c') = uuid (disk_sb c) /\
  sb_uuid c' = uuid (disk_sb c') /\
  (forall j ca, nth_error (devs c) j = Some (Some ca) -> bdev ca = true ->
     exists ca', nth_error (devs c') j = Some (Some ca') /\ bdev ca' = true) /\
  (ok = true ->
   forall sb, In sb sbs ->
     exists ca, nth_error (devs c') (sb_dev_idx sb) = Some (Some ca) /\
                bdev ca = true).
Proof.
  induction sbs as [|sb sbs IH]; intros c c' ok H Hu Hc.
  - simpl in H. injection H as <- <-. repeat split; try assumption.
    + intros j ca Hj Hb. now exists ca.
    + intros _ sb [].
  - simpl in H.
    destruct (__bch2_dev_online env c sb) as [[c1 r]|] eqn:E1; [|discriminate H].
    pose proof (fun j ca => __bch2_dev_online_keeps_attached env c c1 sb r j ca E1)
      as Hkeep.
    pose proof (__bch2_dev_online_spec env c c1 sb r E1
                  (Hu sb (or_introl eq_refl)) Hc) as (Hp1 & Hu1 & Hc1 & Hatt).
    destruct (Z.eqb_spec r 0) as [->|Hr]; cbn [negb] in H.
    + destruct (IH c1 c' ok H) as (Hp2 & Hu2 & Hc2 & Hkeep2 & Hall).
      * intros x Hx. rewrite Hu1. apply Hu. now right.
      * exact Hc1.
      * split; [congruence|]. split; [congruence|]. split; [exact Hc2|].
        split.
        -- intros j ca Hj Hb.
           destruct (Hkeep j ca Hj Hb) as (ca1 & Hj1 & Hb1). eauto.
        -- intros Hok x [<-|Hx]; [|now apply Hall].
           destruct (Hatt eq_refl) as (ca & Hca & Hb). eauto.
    + injection H as <- <-.
      split; [exact Hp1|]. split; [exact Hu1|]. split; [exact Hc1|].
      split; [exact Hkeep|]. intros Hok. discriminate Hok.
Qed.

Lemma fs_open_err_fresh (c : bch_fs) (l : list bch_fs) (n : nat)
    (w' : registry) (err : string) (r : option string) :
  registry_ok (mk_registry l n) -> fs_ptr c = n ->
  fs_open_err (mk_registry l (S n)) c err = Some (w', r) ->
  w' = mk_registry l (S n) /\ r = Some err.
Proof.
  intros Hok Hp H. unfold fs_open_err, bch2_fs_stop in H.
  cbn [bch_fs_list next_ptr] in H.
  destruct (fs_state_eqb (state c) BCH_FS_STOPPING); [discriminate H|].
  injection H as <- <-.
  rewrite (list_del_fresh n) by (try apply registry_fresh; assumption).
  now split.
Qed.

Lemma bch2_fs_open_cases (env : collaborators) (denv : dev_collaborators)
    (devices : list string) (o : bch_opts) (w w' : registry)
    (r : option string) :
  registry_ok w ->
  bch2_fs_open env denv devices o w = Some (w', r) ->
  (r <> None /\
   (w' = w \/ w' = mk_registry (bch_fs_list w) (S (next_ptr w)))) \/
  (r = None /\
   exists c sbs,
     read_supers env denv devices = inr sbs /\ sbs <> [] /\
     first_err (bch2_dev_in_fs (nth (best_sb sbs) sbs zero_sb)) sbs = None /\
     w' = mk_registry (c :: bch_fs_list w) (S (next_ptr w)) /\
     fs_ptr c = next_ptr w /\ sb_uuid c = uuid (disk_sb c) /\
     uuid (disk_sb c) = uuid (nth (best_sb sbs) sbs zero_sb) /\
     ~ In (sb_uuid c) (uuids (bch_fs_list w)) /\
     forall sb, In sb sbs ->
       exists ca, nth_error (devs c) (sb_dev_idx sb) = Some (Some ca) /\
                  bdev ca = true).
Proof.
  intros Hok H. destruct w as [l n]. cbn [bch_fs_list next_ptr] in *.
  unfold bch2_fs_open in H. cbn [bch_fs_list next_ptr] in H.
  destruct devices as [|d rest].
  { injection H as <- <-. left. split; [discriminate|now left]. }
  destruct (try_module_get_fails denv).
  { injection H as <- <-. left. split; [discriminate|now left]. }
  destruct (sb_array_nomem denv).
  { injection H as <- <-. left. split; [discriminate|now left]. }
  destruct (read_supers env denv (d :: rest)) as [e|sbs] eqn:Hread.
  { injection H as <- <-. left. split; [discriminate|now left]. }
  pose proof (read_supers_nonempty _ _ _ _ _ Hread) as Hne.
  set (best := nth (best_sb sbs) sbs zero_sb) in *.
  destruct (first_err (bch2_dev_in_fs best) sbs) as [e|] eqn:Hfs.
  { injection H as <- <-. left. split; [discriminate|now left]. }
  assert (Huu : forall sb, In sb sbs -> uuid sb = uuid best).
  { intros sb Hin. now apply bch2_dev_in_fs_none, (first_err_none _ _ Hfs). }
  destruct (bch2_fs_alloc env n best o) as [c0|e|] eqn:Halloc;
    [| |discriminate H].
  2:{ injection H as <- <-. left. split; [discriminate|now left]. }
  apply bch2_fs_alloc_ok in Halloc as (Hp0 & _ & _ & Hsu0 & Hsb0 & _).
  destruct (online_each env c0 sbs) as [[c1 ok]|] eqn:Hon; [|discriminate H].
  apply online_each_spec in Hon as (Hp1 & Hu1 & Hc1 & _ & Hatt);
    [| intros sb Hin; rewrite Hsb0; now apply Huu | now rewrite Hsb0 ].
  assert (Hfail : forall c err,
            fs_ptr c = n ->
            fs_open_err (mk_registry l (S n)) c err = Some (w', r) ->
            r <> None /\
            (w' = mk_registry l n \/ w' = mk_registry l (S n))).
  { intros c err Hp He.
    destruct (fs_open_err_fresh c l n w' err r Hok Hp He) as [-> ->].
    split; [discriminate|now right]. }
  destruct ok.
  2:{ left. apply (Hfail c1 _ ltac:(congruence) H). }
  destruct (bch2_fs_may_start env c1) as [[|]|]; [| |discriminate H].
  2:{ left. apply (Hfail c1 _ ltac:(congruence) H). }
  assert (Hstart : forall c2 r2,
            (if nostart (opts c1) =? 0 then __bch2_fs_start env c1
             else Some (c1, None)) = Some (c2, r2) -> same_instance c1 c2).
  { intros c2 r2 E. destruct (nostart (opts c1) =? 0).
    - now apply __bch2_fs_start_same in E.
    - injection E as <- <-. apply same_instance_refl. }
  destruct (if nostart (opts c1) =? 0 then __bch2_fs_start env c1
            else Some (c1, None)) as [[c2 [e|]]|] eqn:E2; [| |discriminate H];
    destruct (Hstart c2 _ eq_refl) as (Hp2 & Hsu2 & Hu2 & Hk2).
  { left. apply (Hfail c2 _ ltac:(congruence) H). }
  pose proof (registry_fresh l n Hok) as Hfresh.
  assert (Hp2n : fs_ptr c2 = n) by congruence.
  destruct (__bch2_fs_online_cases env c2 l (fresh_not_on_list n c2 l Hfresh Hp2n))
    as [[err E]|(c' & E & Hp' & Hu' & Hsb' & Hd' & Hnotin)]; rewrite E in H.
  { left. apply (Hfail c2 _ Hp2n H). }
  injection H as <- <-. right. split; [reflexivity|].
  exists c', sbs. split; [reflexivity|]. split; [exact Hne|].
  split; [exact Hfs|]. split; [reflexivity|].
  split; [congruence|]. split; [congruence|].
  split; [rewrite Hsb', Hu2, Hu1, Hsb0; reflexivity|].
  split; [now rewrite Hu'|].
  intros sb Hin. destruct (Hatt eq_refl sb Hin) as (ca & Hca & Hb).
  rewrite Hd'. apply (slot_keys_online (devs c1) (devs c2) _ ca Hk2 Hca Hb).
Qed.

(** X21: [bch2_fs_open] and the registry.  The call keeps the registry
    well formed.  When it returns an error string -- at whichever step: no
    device, a superblock that cannot be read or validated, a device of
    another filesystem, allocation failure, a device that does not attach,
    insufficient devices, a failed start or a failed publication -- the list
    of live instances is exactly the one from before the call.  When it
    returns NULL exactly one instance was added, at the head of the list, at
    the address just allocated, and its UUID was not listed before. *)
Theorem bch2_fs_open_registry (env : collaborators) (denv : dev_collaborators)
    (devices : list string) (o : bch_opts) (w w' : registry)
    (r : option string) :
  registry_ok w ->
  bch2_fs_open env denv devices o w = Some (w', r) ->
  registry_ok w' /\
  match r with
  | Some _ => bch_fs_list w' = bch_fs_list w
  | None =>
      exists c,
        bch_fs_list w' = c :: bch_fs_list w /\ fs_ptr c = next_ptr w /\
        ~ In (uuid (disk_sb c)) (uuids (bch_fs_list w))
  end.
Proof.
  intros Hok H.
  destruct (bch2_fs_open_cases env denv devices o w w' r Hok H)
    as [[Hr [-> | ->]] | (-> & c & sbs & _ & _ & _ & -> & Hp & Hc & _ & Hnotin & _)].
  - split; [exact Hok|]. destruct r; [reflexivity|contradiction].
  - split; [destruct w; now apply registry_ok_next|].
    destruct r; [reflexivity|contradiction].
  - destruct w as [l n]. cbn [bch_fs_list next_ptr] in *.
    destruct Hok as (Hnd & Hnp & Hall). cbn [bch_fs_list next_ptr] in *.
    split.
    + repeat split; cbn [bch_fs_list next_ptr uuids map].
      * constructor; [now rewrite <- Hc|exact Hnd].
      * constructor; [|exact Hnp]. rewrite Hp. intros Hin.
        apply in_map_iff in Hin as (x & Ex & Hx).
        rewrite Forall_forall in Hall. destruct (Hall x Hx). lia.
      * constructor; [split; [exact Hc|lia]|].
        rewrite Forall_forall in *. intros x Hx.
        destruct (Hall x Hx). split; [assumption|lia].
    + exists c. split; [reflexivity|]. split; [exact Hp|now rewrite <- Hc].
Qed.

Lemma bch2_fs_open_registry_witness :
  registry_ok DevExamples.registry_opened /\
  exists c,
    bch_fs_list DevExamples.registry_opened = [c] /\ fs_ptr c = 0%nat /\
    ~ In (uuid (disk_sb c)) (uuids []).
Proof.
  apply (bch2_fs_open_registry Examples.env_ok DevExamples.denv_two
           ["/dev/sda"; "/dev/sdb"]%string Examples.opts_empty
           (mk_registry [] 0) DevExamples.registry_opened None).
  - repeat split; constructor.
  - reflexivity.
Defined.

(** X22: what a successful [bch2_fs_open] was given.  When the call returns
    NULL, every superblock it read carries the UUID and the block size of
    the one it chose as the newest, none has a higher sequence number than
    that one, and the device of each is attached (its slot holds a record
    with a block device) in the instance now heading the list, whose
    superblock UUID is that common UUID. *)
Theorem bch2_fs_open_devices (env : collaborators) (denv : dev_collaborators)
    (devices : list string) (o : bch_opts) (w w' : registry) :
  registry_ok w ->
  bch2_fs_open env denv devices o w = Some (w', None) ->
  exists c sbs best,
    read_supers env denv devices = inr sbs /\ In best sbs /\
    bch_fs_list w' = c :: bch_fs_list w /\
    uuid (disk_sb c) = uuid best /\
    forall sb, In sb sbs ->
      uuid sb = uuid best /\ sb_block_size sb = sb_block_size best /\
      seq sb <= seq best /\
      exists ca, nth_error (devs c) (sb_dev_idx sb) = Some (Some ca) /\
                 bdev ca = true.
Proof.
  intros Hok H.
  destruct (bch2_fs_open_cases env denv devices o w w' None Hok H)
    as [[Hr _] | (_ & c & sbs & Hread & Hne & Hfs & -> & _ & _ & Hu & _ & Hatt)];
    [now contradiction Hr|].
  destruct (best_sb_newest sbs Hne) as [Hin Hmax].
  exists c, sbs, (nth (best_sb sbs) sbs zero_sb).
  split; [exact Hread|]. split; [exact Hin|]. split; [reflexivity|].
  split; [exact Hu|].
  intros sb Hsb.
  destruct (bch2_dev_in_fs_none _ _ (first_err_none _ _ Hfs sb Hsb)) as [H1 H2].
  split; [exact H1|]. split; [exact H2|]. split; [now apply Hmax|].
  now apply Hatt.
Qed.

Lemma bch2_fs_open_devices_witness :
  exists c sbs best,
    read_supers Examples.env_ok DevExamples.denv_two
      ["/dev/sda"; "/dev/sdb"]%string = inr sbs /\ In best sbs /\
    bch_fs_list DevExamples.registry_opened = c :: [] /\
    uuid (disk_sb c) = uuid best /\
    forall sb, In sb sbs ->
      uuid sb = uuid best /\ sb_block_size sb = sb_block_size best /\
      seq sb <= seq best /\
      exists ca, nth_error (devs c) (sb_dev_idx sb) = Some (Some ca) /\
                 bdev ca = true.
Proof.
  apply (bch2_fs_open_devices Examples.env_ok DevExamples.denv_two
           ["/dev/sda"; "/dev/sdb"]%string Examples.opts_empty
           (mk_registry [] 0) DevExamples.registry_opened).
  - repeat split; constructor.
  - reflexivity.
Defined.

(** ** [bch2_dev_add] *)

Lemma find_seq_least (p : nat -> bool) (n a i : nat) :
  find p (List.seq a n) = Some i ->
  (a <= i < a + n)%nat /\ p i = true /\
  forall j, (a <= j < i)%nat -> p j = false.
Proof.
  revert a. induction n as [|n IH]; intros a H; [discriminate H|].
  simpl in H. destruct (p a) eqn:E.
  - injection H as <-. split; [lia|]. split; [exact E|]. intros j Hj. lia.
  - destruct (IH (S a) H) as (Hr & Hp & Hleast).
    split; [lia|]. split; [exact Hp|]. intros j Hj.
    destruct (Nat.eq_dec j a) as [->|Hne]; [exact E|]. apply Hleast. lia.
Qed.

Lemma free_slot_least (denv : dev_collaborators) (sb : bch_sb) (i : nat) :
  free_slot denv sb = Some i ->
  (i < BCH_SB_MEMBERS_MAX denv)%nat /\ bch2_dev_exists sb i = false /\
  forall j, (j < i)%nat -> bch2_dev_exists sb j = true.
Proof.
  unfold free_slot. intros H. apply find_seq_least in H as (Hr & Hp & Hleast).
  split; [lia|]. split; [now apply negb_true_iff|].
  intros j Hj. apply negb_false_iff, Hleast. lia.
Qed.

Lemma free_slot_none (denv : dev_collaborators) (sb : bch_sb) :
  free_slot denv sb = None ->
  forall j, (j < BCH_SB_MEMBERS_MAX denv)%nat -> bch2_dev_exists sb j = true.
Proof.
  unfold free_slot. intros H j Hj.
  apply negb_false_iff. apply (find_none _ _ H). apply in_seq. lia.
Qed.

Lemma store_member_spec (idx : nat) (m : bch_member) (ms ms' : list bch_member) :
  store_member idx m ms = Some ms' ->
  nth_error ms' idx = Some m /\
  forall j, j <> idx -> nth_error ms' j = nth_error ms j.
Proof.
  unfold store_member. intros H.
  destruct (Nat.ltb_spec idx (List.length ms)) as [Hlt|Hge].
  - split; [now apply list_set_nth_error in H|].
    intros j Hj. now apply (list_set_other _ _ _ _ _ H).
  - destruct (Nat.eqb_spec idx (List.length ms)) as [->|_]; [|discriminate H].
    injection H as <-. split.
    + rewrite nth_error_app2 by lia. now rewrite Nat.sub_diag.
    + intros j Hj.
      destruct (Nat.ltb_spec j (List.length ms)) as [Hjl|Hjg].
      * now apply nth_error_app1.
      * rewrite nth_error_app2 by lia.
        assert (E : nth_error ms j = None) by (apply nth_error_None; lia).
        rewrite E. destruct (j - List.length ms)%nat as [|k] eqn:Ek; [lia|].
        simpl. now destruct k.
Qed.

Lemma dev_at_pad (c : bch_fs) (k j : nat) :
  dev_at (set_devs (devs c ++ repeat None k) c) j = dev_at c j.
Proof.
  unfold dev_at. cbn [devs set_devs].
  destruct (Nat.ltb_spec j (List.length (devs c))) as [Hlt|Hge].
  - now rewrite nth_error_app1.
  - rewrite nth_error_app2 by lia.
    assert (E : nth_error (devs c) j = None) by (apply nth_error_None; lia).
    rewrite E.
    destruct (nth_error (repeat None k) (j - List.length (devs c))) as [o|] eqn:Er;
      [|reflexivity].
    apply nth_error_In, repeat_spec in Er. now subst o.
Qed.

Lemma __bch2_dev_online_frame (env : collaborators) (c c' : bch_fs)
    (sb : bch_sb) (r : Z) :
  __bch2_dev_online env c sb = Some (c', r) ->
  (forall j, j <> sb_dev_idx sb -> dev_at c' j = dev_at c j) /\
  (disk_sb c' = disk_sb c \/ disk_sb c' = sb) /\
  (r = 0 ->
   exists ca, dev_at c (sb_dev_idx sb) = Some ca /\ bdev ca = false /\
              dev_at c' (sb_dev_idx sb) = Some (attach_dev ca)).
Proof.
  unfold __bch2_dev_online. intros H.
  set (c0 := if seq (disk_sb c) <? seq sb then bch2_sb_to_fs sb c else c) in *.
  assert (H0 : (forall j, dev_at c0 j = dev_at c j) /\
               (disk_sb c0 = disk_sb c \/ disk_sb c0 = sb)).
  { unfold c0. destruct (seq (disk_sb c) <? seq sb); [|now split; [|left]].
    split; [|now right]. intros j. unfold bch2_sb_to_fs.
    apply (dev_at_pad (set_sb_uuid (uuid sb) (set_disk_sb sb c))). }
  destruct H0 as [Hdev0 Hsb0]. clearbody c0.
  destruct (nth_error (devs c0) (sb_dev_idx sb)) as [[cb|]|] eqn:Hidx;
    try discriminate H.
  assert (Hcb : dev_at c (sb_dev_idx sb) = Some cb).
  { rewrite <- Hdev0. apply dev_at_nth. exact Hidx. }
  destruct (bdev cb) eqn:Hbb.
  { injection H as <- <-. split; [now intros j _|]. split; [exact Hsb0|].
    intros E. discriminate E. }
  destruct (Z.eqb_spec (bch2_dev_journal_init_ret env (dev_idx cb)) 0)
    as [Hj|Hj]; cbn [negb] in H.
  2:{ injection H as <- <-. split; [intros j _; apply Hdev0|].
      split; [exact Hsb0|]. intros E. contradiction. }
  match type of H with
  | match list_set ?i ?x ?l with _ => _ end = _ =>
      destruct (list_set i x l) as [ds|] eqn:E; [|discriminate H]
  end.
  injection H as <- <-.
  assert (Ed : list_set (sb_dev_idx sb) (Some (attach_dev cb)) (devs c0) = Some ds).
  { revert E. cbv zeta. unfold attach_dev, is_rw.
    change (mi (set_bdev true cb)) with (mi cb).
    destruct (member_state_eqb (mi_state (mi cb)) BCH_MEMBER_STATE_RW) eqn:Hrw;
      cbv beta iota.
    - change (mi (set_in_alloc_pool true (set_bdev true cb))) with (mi cb).
      rewrite Hrw. intros E. exact E.
    - change (mi (set_bdev true cb)) with (mi cb).
      rewrite Hrw. intros E. exact E. }
  assert (Hsbf : forall b x y,
            disk_sb x = disk_sb c0 -> disk_sb y = disk_sb c0 ->
            disk_sb (set_devs ds (if b : bool then x else y)) = disk_sb c0)
    by (intros [] x y Hx Hy; assumption).
  split.
  { intros j Hne. rewrite <- Hdev0. unfold dev_at. cbn [devs set_devs].
    now rewrite (list_set_other _ _ _ _ _ Ed Hne). }
  split.
  { rewrite Hsbf by reflexivity. exact Hsb0. }
  intros _. exists cb. split; [exact Hcb|]. split; [exact Hbb|].
  apply dev_at_nth. cbn [devs set_devs]. now apply list_set_nth_error in Ed.
Qed.

Lemma dev_at_update_slot (c : bch_fs) (idx j : nat) (f : bch_dev -> bch_dev)
    (ds : list (option bch_dev)) :
  devs c = update_slot idx f ds ->
  match nth_error (devs c) j, nth_error ds j with
  | Some (Some x), Some (Some y) => x = if Nat.eqb j idx then f y else y
  | Some None, Some None => True
  | None, None => True
  | _, _ => False
  end.
Proof.
  intros ->. rewrite update_slot_nth.
  destruct (Nat.eqb j idx); destruct (nth_error ds j) as [[y|]|]; simpl; auto.
Qed.

Lemma __bch2_dev_read_write_frame (env : collaborators) (idx : nat)
    (c c' : bch_fs) (r : option string) :
  __bch2_dev_read_write env idx c = Some (c', r) ->
  disk_sb c' = disk_sb c /\
  (forall j, j <> idx -> dev_at c' j = dev_at c j) /\
  (r = None ->
   exists ca, dev_at c idx = Some ca /\ dev_at c' idx = Some (start_dev ca)).
Proof.
  unfold __bch2_dev_read_write. intros H.
  destruct (dev_at c idx) as [ca|] eqn:Hca; [|discriminate H].
  destruct (negb (member_state_eqb (mi_state (mi ca)) BCH_MEMBER_STATE_RW));
    [discriminate H|].
  apply dev_at_nth in Hca.
  destruct c as [p st fl o u sb ds jh gc tier wl pd row tr].
  cbn [devs] in Hca.
  unfold FsM.bind, FsM.lift, dev_start, bch2_tiering_start, dev_call,
    bch2_recalc_capacity in H.
  revert H. fs_norm.
  assert (Hother : forall f j, j <> idx ->
            match nth_error (update_slot idx f ds) j with
            | Some (Some x) => Some x
            | _ => None
            end =
            match nth_error ds j with
            | Some (Some x) => Some x
            | _ => None
            end)
    by (intros f j Hj; now rewrite update_slot_other).
  destruct (bch2_dev_allocator_start_fails env idx); fs_norm.
  { intros [= <- <-]. unfold dev_at. fs_norm.
    split; [reflexivity|]. split; [apply Hother|]. intros E. discriminate E. }
  destruct (bch2_moving_gc_start_fails env idx); fs_norm.
  { intros [= <- <-]. unfold dev_at. fs_norm. rewrite !update_slot_compose.
    split; [reflexivity|]. split; [apply Hother|]. intros E. discriminate E. }
  destruct (bch2_tiering_start_fails env); fs_norm.
  { intros [= <- <-]. unfold dev_at. fs_norm. rewrite !update_slot_compose.
    split; [reflexivity|]. split; [apply Hother|]. intros E. discriminate E. }
  intros [= <- <-]. unfold dev_at. fs_norm. rewrite !update_slot_compose.
  split; [reflexivity|]. split; [apply Hother|].
  intros _. exists ca. split; [reflexivity|].
  now rewrite (update_slot_same _ _ _ _ Hca).
Qed.

Lemma dev_add_start_spec (env : collaborators) (idx : nat) (c c' : bch_fs)
    (r : Z) :
  dev_add_start env idx c = Some (c', r) ->
  disk_sb c' = disk_sb c /\
  (forall j, j <> idx -> dev_at c' j = dev_at c j) /\
  (r = 0 \/ r = - EINVAL) /\
  (r = 0 ->
   exists ca, dev_at c idx = Some ca /\
              dev_at c' idx = Some (if is_rw ca then start_dev ca else ca)).
Proof.
  unfold dev_add_start. intros H.
  destruct (dev_at c idx) as [ca|] eqn:Hca; [|discriminate H].
  fold (is_rw ca) in H.
  destruct (is_rw ca) eqn:Hrw.
  2:{ injection H as <- <-. split; [reflexivity|].
      split; [intros j _; reflexivity|].
      split; [now left|]. intros _. exists ca. now rewrite Hrw. }
  destruct (bch2_dev_journal_alloc_fails env idx).
  { injection H as <- <-. split; [reflexivity|].
    split; [intros j _; reflexivity|].
    split; [now right|]. intros E. discriminate E. }
  destruct (__bch2_dev_read_write env idx (log (EvDevJournalAlloc idx) c))
    as [[c1 [e|]]|] eqn:E; [| |discriminate H];
    injection H as <- <-;
    apply __bch2_dev_read_write_frame in E as (Hsb & Hother & Hok).
  - split; [exact Hsb|]. split; [exact Hother|].
    split; [now right|]. intros E. discriminate E.
  - split; [exact Hsb|]. split; [exact Hother|]. split; [now left|].
    intros _. destruct (Hok eq_refl) as (ca' & Hca' & Hnew).
    change (dev_at (log (EvDevJournalAlloc idx) c) idx) with (dev_at c idx) in Hca'.
    rewrite Hca in Hca'. injection Hca' as <-. exists ca. now rewrite Hrw.
Qed.

Lemma dev_add_commit_spec (env : collaborators) (denv : dev_collaborators)
    (sb : bch_sb) (saved : bch_member) (idx : nat) (c c' : bch_fs) (r : Z) :
  dev_add_commit env denv sb saved idx c = Some (c', r) ->
  (c' = c /\ r = - EINVAL) \/
  (member_committed c c' idx saved /\
   (r = 0 \/ r = - EINVAL \/ r = - ENOMEM) /\
   (r = 0 -> device_added c' idx saved)).
Proof.
  unfold dev_add_commit. intros H.
  destruct (bch2_fs_sb_resize_members_fails denv).
  { injection H as <- <-. now left. }
  destruct (bch2_sb_resize_members_fails denv).
  { injection H as <- <-. now left. }
  destruct (store_member idx saved (members (disk_sb c))) as [ms|] eqn:Hst;
    [|discriminate H].
  apply store_member_spec in Hst as [Hidx Hother].
  set (nr := Nat.max (S idx) (nr_devices (disk_sb c))) in *.
  set (c0 := set_devs _ (set_disk_sb (set_member_table ms nr (disk_sb c)) c)) in H.
  assert (Hdev0 : forall j, dev_at c0 j = dev_at c j).
  { intros j. unfold c0.
    apply (dev_at_pad (set_disk_sb (set_member_table ms nr (disk_sb c)) c)). }
  right.
  destruct (bch2_dev_alloc env c0 idx) as [c1|e|] eqn:Ha; [| |discriminate H].
  2:{ injection H as <- <-. split.
      - repeat split; try assumption. intros j _. apply Hdev0.
      - split; [now right; right|]. intros E. discriminate E. }
  apply bch2_dev_alloc_slot in Ha as (ca & ds & Hset & -> & Hfresh).
  destruct Hfresh as (Hcidx & Hcb & _ & m & Hm & Hmi & _).
  change (members (disk_sb c0)) with ms in Hm.
  rewrite Hidx in Hm. injection Hm as <-.
  assert (Hdev1 : forall j, j <> idx -> dev_at (set_devs ds c0) j = dev_at c j).
  { intros j Hj. rewrite <- Hdev0. unfold dev_at. cbn [devs set_devs].
    now rewrite (list_set_other _ _ _ _ _ Hset Hj). }
  assert (Hca1 : dev_at (set_devs ds c0) idx = Some ca).
  { apply dev_at_nth. cbn [devs set_devs]. now apply list_set_nth_error in Hset. }
  set (sb' := added_sb (disk_sb c) sb idx nr ms) in *.
  destruct (__bch2_dev_online env (set_devs ds c0) sb') as [[c2 r2]|] eqn:Hon;
    [|discriminate H].
  apply __bch2_dev_online_frame in Hon as (Hdev2 & Hsb2 & Hatt).
  change (sb_dev_idx sb') with idx in Hdev2, Hatt.
  assert (Hmem2 : members (disk_sb c2) = ms /\ nr_devices (disk_sb c2) = nr).
  { destruct Hsb2 as [-> | ->]; now split. }
  destruct Hmem2 as [Hms2 Hnr2].
  destruct (Z.eqb_spec r2 0) as [->|Hr2]; cbn [negb] in H.
  2:{ injection H as <- <-. split.
      - unfold member_committed. rewrite Hms2, Hnr2.
        repeat split; try assumption.
        intros j Hj. rewrite (Hdev2 j Hj). now apply Hdev1.
      - split; [now right; right|]. intros E. discriminate E. }
  destruct (Hatt eq_refl) as (cb & Hcb1 & _ & Hca2).
  rewrite Hca1 in Hcb1. injection Hcb1 as <-.
  apply dev_add_start_spec in H as (Hsb3 & Hdev3 & Hr & Hok).
  change (disk_sb (bch2_write_super c2)) with (disk_sb c2) in Hsb3.
  split.
  - unfold member_committed. rewrite Hsb3, Hms2, Hnr2.
    repeat split; try assumption.
    intros j Hj. rewrite (Hdev3 j Hj).
    change (dev_at (bch2_write_super c2) j) with (dev_at c2 j).
    rewrite (Hdev2 j Hj). now apply Hdev1.
  - split; [destruct Hr; auto|].
    intros Hr0. destruct (Hok Hr0) as (x & Hx & Hnew).
    change (dev_at (bch2_write_super c2) idx) with (dev_at c2 idx) in Hx.
    rewrite Hca2 in Hx. injection Hx as <-.
    destruct (attach_dev_key ca) as (Hami & Haidx & Habd).
    eexists. split; [exact Hnew|].
    destruct (is_rw (attach_dev ca)) eqn:Hrw.
    + repeat split; try assumption; try reflexivity;
        cbn [mi dev_idx start_dev set_moving_gc_thread set_alloc_thread
             set_in_alloc_pool]; congruence.
    + repeat split; try assumption; congruence.
Qed.

(** X23: what [bch2_dev_add] leaves behind.  The call returns 0, [-EINVAL],
    [-ENOSPC] or [-ENOMEM].  Either the instance is untouched and the code is
    [-EINVAL] or [-ENOSPC]; or the device's member entry, stamped with the
    current time, has been committed to the lowest free slot of the
    superblock's member table (every lower slot holds a member, the other
    entries and device records are unchanged) -- and this also holds when
    the call then fails with [-ENOMEM] or [-EINVAL]: the commit is not
    rolled back.  When the call returns 0 the slot holds the device's
    record, attached, and running if the member is RW. *)
Theorem bch2_dev_add_commits (env : collaborators) (denv : dev_collaborators)
    (path : string) (c c' : bch_fs) (r : Z) :
  bch2_dev_add env denv path c = Some (c', r) ->
  (r = 0 \/ r = - EINVAL \/ r = - ENOSPC \/ r = - ENOMEM) /\
  ((c' = c /\ (r = - EINVAL \/ r = - ENOSPC)) \/
   exists sb m idx,
     bch2_read_super denv path = inr sb /\
     nth_error (members sb) (sb_dev_idx sb) = Some m /\
     (idx < BCH_SB_MEMBERS_MAX denv)%nat /\
     bch2_dev_exists (disk_sb c) idx = false /\
     (forall j, (j < idx)%nat -> bch2_dev_exists (disk_sb c) j = true) /\
     member_committed c c' idx (saved_member env m) /\
     (r = 0 -> device_added c' idx (saved_member env m))).
Proof.
  unfold bch2_dev_add. intros H.
  destruct (bch2_read_super denv path) as [e|sb] eqn:Hread.
  { injection H as <- <-. split; [auto|]. left. auto. }
  destruct (bch2_sb_validate_err env sb).
  { injection H as <- <-. split; [auto|]. left. auto. }
  destruct (bch2_dev_may_add denv sb c) as [[e|]|]; [| |discriminate H].
  { injection H as <- <-. split; [auto|]. left. auto. }
  destruct (nth_error (members sb) (sb_dev_idx sb)) as [m|] eqn:Hm;
    [|discriminate H].
  cbv zeta in H.
  destruct (dynamic_fault_add_no_slot denv).
  { injection H as <- <-. split; [auto|]. left. auto. }
  destruct (free_slot denv (disk_sb c)) as [idx|] eqn:Hslot.
  2:{ injection H as <- <-. split; [auto|]. left. auto. }
  apply free_slot_least in Hslot as (Hmax & Hfree & Hleast).
  apply dev_add_commit_spec in H as [[-> ->] | (Hcommit & Hr & Hok)].
  - split; [auto|]. left. auto.
  - split; [destruct Hr as [->|[->| ->]]; auto|].
    right. exists sb, m, idx.
    split; [first [exact Hread|reflexivity]|].
    split; [first [exact Hm|reflexivity]|]. split; [exact Hmax|].
    split; [exact Hfree|]. split; [exact Hleast|].
    split; [exact Hcommit|exact Hok].
Qed.

Lemma bch2_dev_add_commits_witness :
  (- ENOMEM = 0 \/ - ENOMEM = - EINVAL \/ - ENOMEM = - ENOSPC \/
   - ENOMEM = - ENOMEM) /\
  ((DevExamples.fs_add_failed = DevExamples.fs_removed /\
    (- ENOMEM = - EINVAL \/ - ENOMEM = - ENOSPC)) \/
   exists sb m idx,
     bch2_read_super DevExamples.denv_two "/dev/sdb" = inr sb /\
     nth_error (members sb) (sb_dev_idx sb) = Some m /\
     (idx < BCH_SB_MEMBERS_MAX DevExamples.denv_two)%nat /\
     bch2_dev_exists (disk_sb DevExamples.fs_removed) idx = false /\
     (forall j, (j < idx)%nat ->
        bch2_dev_exists (disk_sb DevExamples.fs_removed) j = true) /\
     member_committed DevExamples.fs_removed DevExamples.fs_add_failed idx
       (saved_member DevExamples.env_no_dev_alloc m) /\
     (- ENOMEM = 0 ->
      device_added DevExamples.fs_add_failed idx
        (saved_member DevExamples.env_no_dev_alloc m))).
Proof.
  apply (bch2_dev_add_commits DevExamples.env_no_dev_alloc DevExamples.denv_two
           "/dev/sdb" DevExamples.fs_removed DevExamples.fs_add_failed
           (- ENOMEM)).
  reflexivity.
Defined.

(** X24: [bch2_dev_add] and a full member table.  The call returns
    [-ENOSPC] only when the fault injection point fired or every slot below
    [BCH_SB_MEMBERS_MAX] holds a member, and then the instance is exactly as
    before; conversely, when every slot holds a member and the preceding
    checks pass, the call does return [-ENOSPC]. *)
Theorem bch2_dev_add_no_slot (env : collaborators) (denv : dev_collaborators)
    (path : string) (c : bch_fs) :
  (forall c' : bch_fs,
     bch2_dev_add env denv path c = Some (c', - ENOSPC) ->
     c' = c /\
     (dynamic_fault_add_no_slot denv = true \/
      forall j, (j < BCH_SB_MEMBERS_MAX denv)%nat ->
                bch2_dev_exists (disk_sb c) j = true)) /\
  (forall sb m,
     bch2_read_super denv path = inr sb ->
     bch2_sb_validate_err env sb = None ->
     bch2_dev_may_add denv sb c = Some None ->
     nth_error (members sb) (sb_dev_idx sb) = Some m ->
     (forall j, (j < BCH_SB_MEMBERS_MAX denv)%nat ->
                bch2_dev_exists (disk_sb c) j = true) ->
     bch2_dev_add env denv path c = Some (c, - ENOSPC)).
Proof.
  split.
  - unfold bch2_dev_add. intros c' H.
    destruct (bch2_read_super denv path) as [e|sb]; [discriminate H|].
    destruct (bch2_sb_validate_err env sb); [discriminate H|].
    destruct (bch2_dev_may_add denv sb c) as [[e|]|]; try discriminate H.
    destruct (nth_error (members sb) (sb_dev_idx sb)) as [m|];
      [|discriminate H].
    cbv zeta in H.
    destruct (dynamic_fault_add_no_slot denv).
    { injection H as <-. split; [reflexivity|now left]. }
    destruct (free_slot denv (disk_sb c)) as [idx|] eqn:Hslot.
    + apply dev_add_commit_spec in H as [[_ Hr] | (_ & Hr & _)].
      * discriminate Hr.
      * destruct Hr as [Hr|[Hr|Hr]]; discriminate Hr.
    + injection H as <-. split; [reflexivity|]. right.
      now apply free_slot_none.
  - intros sb m Hread Hval Hmay Hm Hfull. unfold bch2_dev_add.
    rewrite Hread, Hval, Hmay, Hm. cbv zeta.
    destruct (dynamic_fault_add_no_slot denv); [reflexivity|].
    destruct (free_slot denv (disk_sb c)) as [idx|] eqn:Hslot; [|reflexivity].
    apply free_slot_least in Hslot as (Hmax & Hfree & _).
    rewrite (Hfull idx Hmax) in Hfree. discriminate Hfree.
Qed.

Lemma bch2_dev_add_no_slot_witness :
  bch2_dev_add Examples.env_ok DevExamples.denv_full "/dev/sdb"
    DevExamples.fs_mixed = Some (DevExamples.fs_mixed, - ENOSPC).
Proof.
  apply (proj2 (bch2_dev_add_no_slot Examples.env_ok DevExamples.denv_full
                  "/dev/sdb" DevExamples.fs_mixed)
           (Examples.sb_two 1) (Examples.member_rw 12 65536)).
  - reflexivity.
  - reflexivity.
  - reflexivity.
  - reflexivity.
  - intros [|[|j]] Hj; try reflexivity.
    cbn [BCH_SB_MEMBERS_MAX DevExamples.denv_full] in Hj. lia.
Defined.

(** ** [cmd_update_bkey] *)

Lemma write_sized_frame (op : Z) (m m' : list Z) (n offset : nat) (value : Z) :
  write_sized op m n offset value = Some m' ->
  List.length m' = List.length m /\
  forall i, (i < offset \/ offset + n <= i)%nat ->
    nth_error m' i = nth_error m i.
Proof.
  unfold write_sized. intros H.
  destruct (op =? BKEY_CMD_SET).
  { split; [exact (store_field_length _ _ _ _ _ H)|].
    intros i Hi. exact (store_field_frame _ _ _ _ _ i H Hi). }
  destruct (op =? BKEY_CMD_ADD).
  - destruct (load_field m offset n); [|discriminate H].
    split; [exact (store_field_length _ _ _ _ _ H)|].
    intros i Hi. exact (store_field_frame _ _ _ _ _ i H Hi).
  - injection H as <-. now split.
Qed.

Lemma write_field_frame (op : Z) (m m' : list Z) (size : Z) (offset : nat)
    (value : Z) :
  write_field op m size offset value = Some m' ->
  List.length m' = List.length m /\
  forall i, (i < offset \/ offset + Z.to_nat size <= i)%nat ->
    nth_error m' i = nth_error m i.
Proof.
  unfold write_field. intros H.
  destruct (Z.eqb_spec size 1) as [->|_];
    [exact (write_sized_frame _ _ _ _ _ _ H)|].
  destruct (Z.eqb_spec size 2) as [->|_];
    [exact (write_sized_frame _ _ _ _ _ _ H)|].
  destruct (Z.eqb_spec size 4) as [->|_];
    [exact (write_sized_frame _ _ _ _ _ _ H)|].
  destruct (Z.eqb_spec size 8) as [->|_];
    [exact (write_sized_frame _ _ _ _ _ _ H)|].
  injection H as <-. now split.
Qed.

(** X25: [cmd_update_bkey] reports success when the key has the wrong type.
    When the key at [pos] is found but is not of the wanted type -- not an
    inode key when an unpacked inode is to be updated, or not of type
    [u.bkey] otherwise -- the function prints a message and leaves through
    [goto out] with [ret] still 0: it returns 0 and nothing is written. *)
Theorem cmd_update_bkey_type_mismatch (denv : debug_collaborators)
    (u : bkey_update) (pos : Z) (k : bkey) :
  bch2_btree_iter_peek denv (u_id u) pos = (0, Some k) ->
  k_p k = pos ->
  (if u_inode_unpacked u
   then k_type k <> KEY_TYPE_inode_v2 denv /\ k_type k <> KEY_TYPE_inode_v3 denv
   else u_bkey u <> k_type k) ->
  cmd_update_bkey denv u pos = Some (mk_outcome 0 None None).
Proof.
  intros Hpeek Hpos Htype. unfold cmd_update_bkey. rewrite Hpeek.
  cbn [Z.eqb negb]. rewrite Hpos, Z.eqb_refl. cbn [negb].
  destruct (u_inode_unpacked u).
  - destruct Htype as [H2 H3].
    apply Z.eqb_neq in H2, H3. now rewrite H2, H3.
  - apply Z.eqb_neq in Htype. now rewrite Htype.
Qed.

Lemma cmd_update_bkey_type_mismatch_witness :
  cmd_update_bkey DebugExamples.denv_key (DebugExamples.set_u16 4) 5 =
  Some (mk_outcome 0 None None).
Proof.
  apply (cmd_update_bkey_type_mismatch DebugExamples.denv_key
           (DebugExamples.set_u16 4) 5 DebugExamples.key_5).
  - reflexivity.
  - reflexivity.
  - cbn. discriminate.
Defined.

(** X26: [cmd_update_bkey] changes only the addressed field.  Whenever the
    function hands a key to [bch2_btree_insert], a key of the wanted type was
    found at exactly [pos] without error, and the inserted key has the same
    position and type; its value is the found key's value after
    [write_field]: it has the same length and differs from it at most in the
    [u.size] bytes starting at [u.offset].  The return value is that of
    [bch2_btree_insert], and no inode is written. *)
Theorem cmd_update_bkey_field_only (denv : debug_collaborators)
    (u : bkey_update) (pos : Z) (o : update_outcome) (n : bkey) :
  cmd_update_bkey denv u pos = Some o ->
  key_inserted o = Some n ->
  exists k,
    bch2_btree_iter_peek denv (u_id u) pos = (0, Some k) /\
    k_p k = pos /\ k_type k = u_bkey u /\ u_inode_unpacked u = false /\
    k_p n = k_p k /\ k_type n = k_type k /\
    write_field (u_op u) (k_v k) (u_size u) (Z.to_nat (u_offset u)) (u_value u) =
      Some (k_v n) /\
    List.length (k_v n) = List.length (k_v k) /\
    (forall i, (i < Z.to_nat (u_offset u) \/
                Z.to_nat (u_offset u) + Z.to_nat (u_size u) <= i)%nat ->
       nth_error (k_v n) i = nth_error (k_v k) i) /\
    ret o = bch2_btree_insert_ret denv (u_id u) n /\
    inode_written o = None.
Proof.
  unfold cmd_update_bkey, goto_out. intros H Hn.
  destruct (bch2_btree_iter_peek denv (u_id u) pos) as [err k].
  destruct (Z.eqb_spec err 0) as [->|_]; cbn [negb] in H.
  2:{ injection H as <-. discriminate Hn. }
  destruct k as [k|]; [|injection H as <-; discriminate Hn].
  destruct (Z.eqb_spec pos (k_p k)) as [Hpos|_]; cbn [negb] in H.
  2:{ injection H as <-. discriminate Hn. }
  destruct (u_inode_unpacked u).
  { destruct (negb (k_type k =? KEY_TYPE_inode_v2 denv) &&
              negb (k_type k =? KEY_TYPE_inode_v3 denv)).
    { injection H as <-. discriminate Hn. }
    destruct (bch2_inode_unpack denv k) as [r inode].
    destruct (negb (r =? 0)); [injection H as <-; discriminate Hn|].
    destruct (write_field _ inode _ _ _); [|discriminate H].
    injection H as <-. discriminate Hn. }
  destruct (Z.eqb_spec (u_bkey u) (k_type k)) as [Hty|_]; cbn [negb] in H.
  2:{ injection H as <-. discriminate Hn. }
  destruct (negb (bch2_bkey_make_mut_noupdate_err denv k =? 0)).
  { injection H as <-. discriminate Hn. }
  destruct (write_field (u_op u) (k_v k) (u_size u) (Z.to_nat (u_offset u))
              (u_value u)) as [v'|] eqn:Hw; [|discriminate H].
  injection H as <-. cbn [key_inserted] in Hn. injection Hn as <-.
  destruct (write_field_frame _ _ _ _ _ _ Hw) as [Hlen Hframe].
  exists k. cbn [k_p k_type k_v ret inode_written].
  repeat split; auto.
Qed.

Lemma cmd_update_bkey_field_only_witness :
  exists k,
    bch2_btree_iter_peek DebugExamples.denv_key 1 5 = (0, Some k) /\
    k_p k = 5 /\ k_type k = 3 /\ false = false /\
    5 = k_p k /\ 3 = k_type k /\
    write_field BKEY_CMD_SET (k_v k) 2 2 43981 = Some [1; 2; 205; 171; 5; 6; 7; 8] /\
    8%nat = List.length (k_v k) /\
    (forall i, (i < 2 \/ 2 + 2 <= i)%nat ->
       nth_error [1; 2; 205; 171; 5; 6; 7; 8] i = nth_error (k_v k) i) /\
    ret DebugExamples.outcome_set_u16 = 0 /\
    inode_written DebugExamples.outcome_set_u16 = None.
Proof.
  exact (cmd_update_bkey_field_only DebugExamples.denv_key
           (DebugExamples.set_u16 3) 5 DebugExamples.outcome_set_u16
           (mk_bkey 5 3 [1; 2; 205; 171; 5; 6; 7; 8]) eq_refl eq_refl).
Defined.

(** ** [do_splice] *)

Lemma covers_zero (ws : list Z) : ~ covers ws 0.
Proof. destruct ws as [|w ws]; simpl; [tauto|]. intros [H _]. lia. Qed.

Lemma write_loop_covers (ws : list Z) :
  forall b written,
    b <> [] -> covers ws (List.length b) ->
    write_loop ws b written = Returned 0 (written ++ b).
Proof.
  induction ws as [|w ws IH]; intros b written Hb Hc; [contradiction Hc|].
  simpl in Hc. destruct Hc as [[Hpos Hle] Hrest]. simpl.
  destruct (Z.ltb_spec w 0) as [Hneg|_]; [lia|].
  destruct (Z.ltb_spec (Z.of_nat (List.length b)) w) as [Hov|_]; [lia|].
  destruct (skipn (Z.to_nat w) b) as [|x b'] eqn:Hskip.
  - f_equal. f_equal.
    rewrite <- (firstn_skipn (Z.to_nat w) b) at 2.
    now rewrite Hskip, app_nil_r.
  - destruct Hrest as [Hall|Hrest].
    { rewrite Hall, skipn_all in Hskip. discriminate Hskip. }
    rewrite IH.
    + rewrite <- app_assoc. f_equal. f_equal.
      rewrite <- Hskip. apply firstn_skipn.
    + discriminate.
    + rewrite <- Hskip, length_skipn. exact Hrest.
Qed.

Lemma write_loop_stalls (k : nat) (b written : list Z) :
  b <> [] -> write_loop (repeat 0 k) b written = Running written.
Proof.
  intros Hb. induction k as [|k IH]; [reflexivity|].
  cbn [repeat write_loop]. cbn [Z.ltb Z.compare].
  destruct (Z.ltb_spec (Z.of_nat (List.length b)) 0) as [Hov|_]; [lia|].
  cbn [Z.to_nat firstn skipn]. rewrite app_nil_r.
  destruct b as [|x b]; [contradiction|exact IH].
Qed.

(** X27: [do_splice] forwards what it read.  When [read] returned bytes
    and the successive [write] calls each accept at least one byte (and
    together the whole buffer), the function returns 0 after having written
    exactly the bytes read, in order, however [write] split them.  A
    [write] that keeps returning 0 keeps the loop running: [r] is never
    reduced and nothing is written. *)
Theorem do_splice_forwards (b : list Z) (ws : list Z) :
  b <> [] ->
  (covers ws (List.length b) ->
   do_splice (ReadBytes b) ws = Returned 0 b) /\
  (forall k, do_splice (ReadBytes b) (repeat 0 k) = Running []).
Proof.
  intros Hb. split.
  - intros Hc. destruct b as [|x b]; [contradiction|].
    unfold do_splice. now rewrite write_loop_covers.
  - intros k. destruct b as [|x b]; [contradiction|].
    unfold do_splice. now apply write_loop_stalls.
Qed.

Lemma do_splice_forwards_witness :
  do_splice (ReadBytes [104; 101; 108; 108; 111]) [2; 1; 2] =
  Returned 0 [104; 101; 108; 108; 111].
Proof.
  apply (proj1 (do_splice_forwards [104; 101; 108; 108; 111] [2; 1; 2]
                  ltac:(discriminate))).
  simpl. split; [lia|right]. split; [lia|right]. split; [lia|left].
  reflexivity.
Defined.

(** ** The option string of [cmd_fsck] *)

Lemma string_app_assoc (a b c : string) :
  ((a ++ b) ++ c)%string = (a ++ b ++ c)%string.
Proof. induction a as [|x a IH]; simpl; [reflexivity|now rewrite IH]. Qed.

Lemma concat_comma_snoc (x : string) (l : list string) (o : string) :
  String.concat "," ((x :: l) ++ [o]) =
  (String.concat "," (x :: l) ++ "," ++ o)%string.
Proof.
  revert x. induction l as [|y l IH]; intros x; [reflexivity|].
  change (String.concat "," ((x :: y :: l) ++ [o]))
    with (x ++ "," ++ String.concat "," ((y :: l) ++ [o]))%string.
  rewrite IH.
  change (String.concat "," (x :: y :: l))
    with (x ++ "," ++ String.concat "," (y :: l))%string.
  now rewrite !string_app_assoc.
Qed.

Lemma append_opt_joined (x : string) (l : list string) (o : string) :
  x <> ""%string ->
  append_opt (String.concat "," (x :: l)) o = String.concat "," ((x :: l) ++ [o]).
Proof.
  intros Hx. rewrite concat_comma_snoc. unfold append_opt.
  destruct x as [|a x]; [contradiction|].
  destruct l; reflexivity.
Qed.

Lemma append_opt_joined_cons (x : string) (l : list string) (o : string) :
  x <> ""%string ->
  append_opt (String.concat "," (x :: l)) o = String.concat "," (x :: l ++ [o]).
Proof. apply append_opt_joined. Qed.

Lemma fsck_getopt_joined (parsed : list (Z * string)) :
  forall (x : string) (l : list string) (kernel : bool),
    x <> ""%string ->
    existsb (fun o => fst o =? opt_char "h") parsed = false ->
    fsck_getopt parsed (String.concat "," (x :: l)) kernel =
    inr (String.concat "," (x :: l ++ flat_map fsck_selected parsed),
         kernel || existsb (fun o => fst o =? opt_char "k") parsed).
Proof.
  induction parsed as [|[opt optarg] rest IH]; intros x l kernel Hx Hh.
  - simpl. now rewrite app_nil_r, orb_false_r.
  - cbn [existsb fst] in Hh. apply orb_false_iff in Hh as [Hh Hrest].
    cbn [fsck_getopt flat_map fsck_selected existsb fst].
    destruct ((opt =? opt_char "a") || (opt =? opt_char "p") ||
              (opt =? opt_char "y")) eqn:Eyes.
    { assert (Hk : (opt =? opt_char "k") = false).
      { apply Z.eqb_neq. intros ->. discriminate Eyes. }
      rewrite Hk, append_opt_joined_cons by exact Hx.
      rewrite (IH x _ kernel Hx Hrest). cbn [orb].
      now rewrite <- !app_assoc. }
    destruct (Z.eqb_spec opt (opt_char "n")) as [->|_].
    { rewrite !append_opt_joined_cons by exact Hx.
      rewrite (IH x _ kernel Hx Hrest). cbn [Z.eqb opt_char orb].
      now rewrite <- !app_assoc. }
    destruct (Z.eqb_spec opt (opt_char "f")) as [->|_].
    { rewrite (IH x l kernel Hx Hrest). reflexivity. }
    destruct (Z.eqb_spec opt (opt_char "o")) as [->|_].
    { rewrite append_opt_joined_cons by exact Hx.
      rewrite (IH x _ kernel Hx Hrest). cbn [Z.eqb opt_char orb].
      now rewrite <- !app_assoc. }
    destruct (Z.eqb_spec opt (opt_char "r")) as [->|_].
    { rewrite append_opt_joined_cons by exact Hx.
      rewrite (IH x _ kernel Hx Hrest). cbn [Z.eqb opt_char orb].
      now rewrite <- !app_assoc. }
    destruct (Z.eqb_spec opt (opt_char "R")) as [->|_].
    { rewrite append_opt_joined_cons by exact Hx.
      rewrite (IH x _ kernel Hx Hrest). cbn [Z.eqb opt_char orb].
      now rewrite <- !app_assoc. }
    destruct (Z.eqb_spec opt (opt_char "k")) as [->|_].
    { rewrite (IH x l true Hx Hrest). cbn [orb app].
      now rewrite orb_true_r. }
    destruct (Z.eqb_spec opt (opt_char "v")) as [->|_].
    { rewrite append_opt_joined_cons by exact Hx.
      rewrite (IH x _ kernel Hx Hrest). cbn [orb].
      now rewrite <- !app_assoc. }
    rewrite Hh. rewrite (IH x l kernel Hx Hrest). reflexivity.
Qed.

Lemma fsck_getopt_help (parsed : list (Z * string)) :
  forall (s : string) (kernel : bool),
    existsb (fun o => fst o =? opt_char "h") parsed = true ->
    fsck_getopt parsed s kernel = inl 16.
Proof.
  induction parsed as [|[opt optarg] rest IH]; intros s kernel Hh;
    [discriminate Hh|].
  cbn [existsb fst] in Hh. cbn [fsck_getopt].
  destruct (Z.eqb_spec opt (opt_char "h")) as [->|Hne]; [reflexivity|].
  cbn [orb] in Hh.
  repeat match goal with
         | |- context [if ?b then _ else _] =>
             lazymatch b with
             | false => fail
             | _ => destruct b
             end
         end; cbv iota; now apply IH.
Qed.

(** X28: the option string of [cmd_fsck].  When [-h] is not given, the
    string the option loop has built is the four defaults [degraded],
    [fsck], [fix_errors=ask], [read_only] followed by the mount options the
    command-line options stand for, in command-line order (so that a later
    [-y], [-n] or [-o] comes after the defaults), joined with one comma
    between consecutive entries; [kernel] is set exactly when [-k] was
    given.  The argument of [-o] is an entry whatever it is: [append_opt]
    writes its comma before an empty argument too, so a final [-o] with an
    empty argument leaves the string ending in a comma.  When [-h] is given
    the function exits with status 16. *)
Theorem fsck_opts_joined (parsed : list (Z * string)) :
  (existsb (fun o => fst o =? opt_char "h") parsed = false ->
   fsck_opts parsed =
   inr (String.concat "," (fsck_defaults ++ flat_map fsck_selected parsed),
        existsb (fun o => fst o =? opt_char "k") parsed)) /\
  (existsb (fun o => fst o =? opt_char "h") parsed = true ->
   fsck_opts parsed = inl 16) /\
  (forall s k,
     fsck_opts parsed = inr (s, k) ->
     fsck_opts (parsed ++ [(opt_char "o", ""%string)]) =
     inr ((s ++ ",")%string, k)).
Proof.
  assert (Hjoin : forall p,
            existsb (fun o => fst o =? opt_char "h") p = false ->
            fsck_opts p =
            inr (String.concat "," (fsck_defaults ++ flat_map fsck_selected p),
                 existsb (fun o => fst o =? opt_char "k") p)).
  { intros p Hh. unfold fsck_opts.
    change (fold_left append_opt fsck_defaults ""%string)
      with (String.concat "," fsck_defaults).
    unfold fsck_defaults.
    now rewrite fsck_getopt_joined by (try discriminate; exact Hh). }
  assert (Hhelp : existsb (fun o => fst o =? opt_char "h") parsed = true ->
                  fsck_opts parsed = inl 16).
  { intros Hh. unfold fsck_opts. now apply fsck_getopt_help. }
  split; [apply Hjoin|]. split; [exact Hhelp|].
  intros s k Hs.
  destruct (existsb (fun o => fst o =? opt_char "h") parsed) eqn:Hh.
  { rewrite (Hhelp eq_refl) in Hs. discriminate Hs. }
  rewrite (Hjoin parsed Hh) in Hs. injection Hs as <- <-.
  rewrite Hjoin by (rewrite existsb_app, Hh; reflexivity).
  rewrite existsb_app, flat_map_app, orb_false_r.
  f_equal. f_equal.
  change (flat_map fsck_selected [(opt_char "o", ""%string)])
    with [""%string].
  set (sel := flat_map fsck_selected parsed).
  change (fsck_defaults ++ sel ++ [""%string])
    with (("degraded"%string ::
           (["fsck"; "fix_errors=ask"; "read_only"]%string ++ sel)) ++
          [""%string]).
  change (fsck_defaults ++ sel)
    with ("degraded"%string ::
          (["fsck"; "fix_errors=ask"; "read_only"]%string ++ sel)).
  apply concat_comma_snoc.
Qed.

Lemma fsck_opts_joined_witness :
  fsck_opts [(opt_char "y", ""%string); (opt_char "o", "verbose"%string);
             (opt_char "k", ""%string)] =
  inr ("degraded,fsck,fix_errors=ask,read_only,fix_errors=yes,verbose"%string,
       true) /\
  fsck_opts [(opt_char "y", ""%string); (opt_char "o", "verbose"%string);
             (opt_char "k", ""%string); (opt_char "o", ""%string)] =
  inr ("degraded,fsck,fix_errors=ask,read_only,fix_errors=yes,verbose,"%string,
       true).
Proof.
  split.
  - exact (proj1 (fsck_opts_joined
                    [(opt_char "y", ""%string); (opt_char "o", "verbose"%string);
                     (opt_char "k", ""%string)]) eq_refl).
  - exact (proj2 (proj2 (fsck_opts_joined
                    [(opt_char "y", ""%string); (opt_char "o", "verbose"%string);
                     (opt_char "k", ""%string)])) _ _ eq_refl).
Defined.
